(** * The risk-assessment client: form validation, submission and result display

    Shallow embedding of [src/App.tsx] and of the earlier single-card version
    of the same screen ([src/unnamed/part_000]), with the parts of the
    JavaScript run time and of the two form libraries (yup, react-hook-form)
    that the two files call. *)

From Stdlib Require Import ZArith String Ascii List Bool Lia Floats Uint63.
From stdpp Require Import gmap strings list fin_maps.
Import ListNotations.

Local Open Scope Z_scope.

(** ** JavaScript numbers and strings *)

Module JS.

(** A JavaScript Number is an IEEE 754 binary64 value: Rocq's primitive
    [float].  A String is a sequence of code units; the model keeps the code
    units below 256, one [ascii] each. *)

Definition code (c : ascii) : Z := Z.of_N (N_of_ascii c).

Definition is_digit (c : ascii) : bool := (48 <=? code c) && (code c <=? 57).

Definition digit_value (c : ascii) : Z := code c - 48.

(** WhiteSpace and LineTerminator code units below 256: TAB, LF, VT, FF, CR,
    SP and NBSP.  This is what [\s], [String.prototype.trim] and the
    StringToNumber grammar skip. *)
Definition is_space (c : ascii) : bool :=
  let n := code c in
  ((9 <=? n) && (n <=? 13)) || (n =? 32) || (n =? 160).

Fixpoint trim_start (s : string) : string :=
  match s with
  | String c r => if is_space c then trim_start r else s
  | EmptyString => EmptyString
  end.

Fixpoint trim_end (s : string) : string :=
  match s with
  | String c r =>
      match trim_end r with
      | EmptyString => if is_space c then EmptyString else String c EmptyString
      | r' => String c r'
      end
  | EmptyString => EmptyString
  end.

Definition trim (s : string) : string := trim_end (trim_start s).

(** [s.replace(/\s/g, '')]: every white-space code unit removed. *)
Fixpoint remove_spaces (s : string) : string :=
  match s with
  | String c r => if is_space c then remove_spaces r else String c (remove_spaces r)
  | EmptyString => EmptyString
  end.

(** Longest prefix of decimal digits, and the rest. *)
Fixpoint span_digits (s : string) : string * string :=
  match s with
  | String c r =>
      if is_digit c then let '(d, t) := span_digits r in (String c d, t)
      else (EmptyString, s)
  | EmptyString => (EmptyString, EmptyString)
  end.

Fixpoint digits_value (acc : Z) (s : string) : Z :=
  match s with
  | String c r => digits_value (10 * acc + digit_value c) r
  | EmptyString => acc
  end.

Definition slen (s : string) : Z := Z.of_nat (String.length s).

Fixpoint all_digits (s : string) : bool :=
  match s with
  | String c r => is_digit c && all_digits r
  | EmptyString => true
  end.

(** The first code unit is a digit, [-], [N] or [I]: how the string of a
    Number starts. *)
Definition numeric_head (s : string) : bool :=
  match s with
  | String c _ => is_digit c || (code c =? 45) || (code c =? 78) || (code c =? 73)
  | EmptyString => false
  end.

(** *** Rounding an exact value to binary64 *)

(** The binary64 nearest to [N / D] (ties to even) for positive [N], [D]:
    the quotient is scaled to 53 significant bits (fewer in the subnormal
    range), rounded, and rebuilt with [Z.ldexp], which overflows to
    infinity. *)
Definition round_ratio (N D : Z) : float :=
  let e1 := Z.log2 N - Z.log2 D - 52 in
  let reaches (e : Z) :=
    if 0 <=? e then 2 ^ 52 * D * 2 ^ e <=? N else 2 ^ 52 * D <=? N * 2 ^ (- e) in
  let e2 := if reaches e1 then e1 else e1 - 1 in
  let e := Z.max e2 (-1074) in
  let num := if 0 <=? e then N else N * 2 ^ (- e) in
  let den := if 0 <=? e then D * 2 ^ e else D in
  let q := num / den in
  let r := num mod den in
  let q' := if (den <? 2 * r) || ((2 * r =? den) && Z.odd q) then q + 1 else q in
  Z.ldexp (PrimFloat.of_uint63 (Uint63.of_Z q')) e.

Definition signed (neg : bool) (x : float) : float :=
  if neg then PrimFloat.opp x else x.

(** The Number value of the decimal [m * 10 ^ e10], [0 <= m].  The two early
    exits only skip the big powers for exponents far outside the binary64
    range, where the rounded value is already known. *)
Definition of_decimal (neg : bool) (m e10 : Z) : float :=
  if m =? 0 then signed neg PrimFloat.zero
  else if 400 <? e10 then signed neg PrimFloat.infinity
  else if 0 <=? e10 then signed neg (round_ratio (m * 10 ^ e10) 1)
  else if Z.log2 m + 1 + 3 * e10 <? -1080 then signed neg PrimFloat.zero
  else signed neg (round_ratio m (10 ^ (- e10))).

(** *** StringToNumber, parseFloat, parseInt *)

(** StrUnsignedDecimalLiteral without [Infinity]: the longest prefix
    [digits [. digits] [e [sign] digits]] (at least one digit before the
    exponent), as mantissa, decimal exponent and the unread rest. *)
Definition scan_exponent (s : string) : Z * string :=
  match s with
  | String c r =>
      if (code c =? 101) || (code c =? 69) then
        let '(neg, r1) :=
          match r with
          | String sg r' =>
              if code sg =? 45 then (true, r')
              else if code sg =? 43 then (false, r')
              else (false, r)
          | EmptyString => (false, r)
          end in
        let '(x, r2) := span_digits r1 in
        match x with
        | EmptyString => (0, s)
        | _ => ((if neg then - digits_value 0 x else digits_value 0 x), r2)
        end
      else (0, s)
  | EmptyString => (0, s)
  end.

Definition scan_decimal (s : string) : option (Z * Z * string) :=
  let '(i, r1) := span_digits s in
  let body :=
    match r1 with
    | String c r =>
        if code c =? 46 then
          let '(f, r2) := span_digits r in
          match i, f with
          | EmptyString, EmptyString => None
          | _, _ => Some (digits_value 0 (i +:+ f), - slen f, r2)
          end
        else match i with EmptyString => None | _ => Some (digits_value 0 i, 0, r1) end
    | EmptyString => match i with EmptyString => None | _ => Some (digits_value 0 i, 0, r1) end
    end in
  match body with
  | Some (m, e, rest) => let '(x, rest') := scan_exponent rest in Some (m, e + x, rest')
  | None => None
  end.

Definition strip_sign (s : string) : bool * string :=
  match s with
  | String c r =>
      if code c =? 45 then (true, r) else if code c =? 43 then (false, r) else (false, s)
  | EmptyString => (false, s)
  end.

(** Digits of a non-decimal integer literal, all of radix [radix]. *)
Definition radix_digit (radix : Z) (c : ascii) : option Z :=
  let n := code c in
  let v := if is_digit c then n - 48
           else if (97 <=? n) && (n <=? 102) then n - 87
           else if (65 <=? n) && (n <=? 70) then n - 55
           else 16 in
  if v <? radix then Some v else None.

Fixpoint radix_value (radix acc : Z) (s : string) : option Z :=
  match s with
  | String c r =>
      match radix_digit radix c with
      | Some v => radix_value radix (radix * acc + v) r
      | None => None
      end
  | EmptyString => Some acc
  end.

Definition non_decimal (s : string) : option Z :=
  match s with
  | String z (String x (String c r)) =>
      if code z =? 48 then
        let n := code x in
        let radix := if (n =? 120) || (n =? 88) then 16
                     else if (n =? 111) || (n =? 79) then 8
                     else if (n =? 98) || (n =? 66) then 2 else 0 in
        if radix =? 0 then None else radix_value radix 0 (String c r)
      else None
  | _ => None
  end.

(** [Number(s)] for a string [s] (StringToNumber): white space trimmed at both
    ends, the empty string is [+0], a StrNumericLiteral has its rounded value
    and anything else is NaN. *)
Definition StringToNumber (s : string) : float :=
  let t := trim s in
  match t with
  | EmptyString => PrimFloat.zero
  | _ =>
      match non_decimal t with
      | Some n => of_decimal false n 0
      | None =>
          let '(neg, u) := strip_sign t in
          if String.eqb u "Infinity" then signed neg PrimFloat.infinity
          else match scan_decimal u with
               | Some (m, e, EmptyString) => of_decimal neg m e
               | _ => PrimFloat.nan
               end
      end
  end.

(** [parseFloat(s)]: leading white space skipped, then the longest prefix
    that is a StrDecimalLiteral; NaN when there is none. *)
Definition parseFloat (s : string) : float :=
  let '(neg, u) := strip_sign (trim_start s) in
  if String.prefix "Infinity" u then signed neg PrimFloat.infinity
  else match scan_decimal u with
       | Some (m, e, _) => of_decimal neg m e
       | None => PrimFloat.nan
       end.

(** [parseInt(s, 10)]: leading white space skipped, an optional sign, then
    the longest run of decimal digits; NaN when the run is empty. *)
Definition parseInt10 (s : string) : float :=
  let '(neg, u) := strip_sign (trim_start s) in
  match fst (span_digits u) with
  | EmptyString => PrimFloat.nan
  | d => of_decimal neg (digits_value 0 d) 0
  end.

Definition isNaN (x : float) : bool := PrimFloat.is_nan x.

Definition isFinite (x : float) : bool := PrimFloat.is_finite x.

(** [Number.isInteger]. *)
Definition isInteger (x : float) : bool :=
  match Prim2SF x with
  | S754_zero _ => true
  | S754_finite _ m e => (0 <=? e) || (Z.pos m mod 2 ^ (- e) =? 0)
  | _ => false
  end.

(** *** Number::toString and toFixed *)

Definition digit_char (d : Z) : ascii := ascii_of_N (Z.to_N (48 + d mod 10)).

(** The last [k] decimal digits of [s], most significant first, before [acc]. *)
Fixpoint digits_acc (k : nat) (s : Z) (acc : string) : string :=
  match k with
  | O => acc
  | S k' => digits_acc k' (s / 10) (String (digit_char s) acc)
  end.

Definition digits_of (k : nat) (s : Z) : string := digits_acc k s EmptyString.

(** Decimal numeral of a natural number, without leading zeros. *)
Fixpoint decimal_acc (fuel : nat) (n : Z) (acc : string) : string :=
  match fuel with
  | O => String (digit_char n) acc
  | S f =>
      if n <? 10 then String (digit_char n) acc
      else decimal_acc f (n / 10) (String (digit_char n) acc)
  end.

Definition decimal (n : Z) : string :=
  decimal_acc (Z.to_nat (Z.log2 n)) n EmptyString.

Fixpoint zeros (k : nat) : string :=
  match k with
  | O => EmptyString
  | S k' => String "0"%char (zeros k')
  end.

(** The same Number value (NaN is the same as NaN, [+0] is not [-0]). *)
Definition same_value (x y : float) : bool := PrimFloat.Leibniz.eqb x y.

(** The exact value of a finite float, as a fraction. *)
Definition exact (m : positive) (e : Z) : Z * Z :=
  if 0 <=? e then (Z.pos m * 2 ^ e, 1) else (Z.pos m, 2 ^ (- e)).

(** [n] with [10 ^ (n - 1) <= N / D < 10 ^ n]. *)
Fixpoint magnitude (fuel : nat) (N D n : Z) : Z :=
  match fuel with
  | O => n
  | S f =>
      if N <? D then magnitude f (10 * N) D (n - 1)
      else if 10 * D <=? N then magnitude f N (10 * D) (n + 1)
      else n
  end.

(** The candidates with [k] digits for the value [N / D] of [x], whose
    magnitude is [n]: the two multiples of [10 ^ (n - k)] around the value,
    the nearer one first (the even one on a tie), each kept when it has [k]
    digits and reads back as [x]. *)
Definition candidates (x : float) (N D n : Z) (k : nat) : list string :=
  let p := n - Z.of_nat k in
  let num := if 0 <=? p then N else N * 10 ^ (- p) in
  let den := if 0 <=? p then D * 10 ^ p else D in
  let lo := num / den in
  let r := num mod den in
  let hi := lo + 1 in
  let ordered :=
    if (2 * r <? den) || ((2 * r =? den) && Z.even lo) then [lo; hi] else [hi; lo] in
  let keep (s : Z) :=
    (10 ^ (Z.of_nat k - 1) <=? s) && (s <? 10 ^ Z.of_nat k)
    && same_value (of_decimal false (digits_value 0 (digits_of k s)) p) x in
  map (digits_of k) (List.filter keep ordered).

Definition floor_digits (N D n : Z) (k : nat) : string :=
  let p := n - Z.of_nat k in
  digits_of k (if 0 <=? p then N / (D * 10 ^ p) else (N * 10 ^ (- p)) / D).

(** Number::toString takes the least number of digits [k] for which some
    [s * 10 ^ (n - k)] reads back as [x]; 17 digits always do, and the last
    branch (the truncated 17 digits) only closes the recursion. *)
Fixpoint shortest_from (x : float) (N D n : Z) (k : nat) (more : nat) : string * Z :=
  match candidates x N D n k with
  | ds :: _ => (ds, n)
  | [] =>
      match more with
      | O => (floor_digits N D n k, n)
      | S more' => shortest_from x N D n (S k) more'
      end
  end.

(** The digits and the magnitude [n] of Number::toString for the positive
    finite [x] of exact value [N / D].  When the power of ten just above the
    value reads back as [x], the numeral is the single digit [1] with the
    next magnitude. *)
Definition shortest (x : float) (N D : Z) : string * Z :=
  let n := magnitude 400 N D 1 in
  if same_value (of_decimal false 1 n) x then ("1", n + 1)
  else shortest_from x N D n 1 16.

Definition take_str (n : Z) (s : string) : string := String.substring 0 (Z.to_nat n) s.

Definition drop_str (n : Z) (s : string) : string :=
  String.substring (Z.to_nat n) (String.length s - Z.to_nat n) s.

(** Number::toString, steps 6 to 10: the digits [ds] laid out for the
    magnitude [n]. *)
Definition layout (ds : string) (n : Z) : string :=
  let k := slen ds in
  if (k <=? n) && (n <=? 21) then ds +:+ zeros (Z.to_nat (n - k))
  else if (0 <? n) && (n <=? 21) then take_str n ds +:+ "." +:+ drop_str n ds
  else if (-6 <? n) && (n <=? 0) then "0." +:+ zeros (Z.to_nat (- n)) +:+ ds
  else
    let e := n - 1 in
    let ex := (if e <? 0 then "-" else "+") +:+ decimal (Z.abs e) in
    match ds with
    | String d EmptyString => String d ("e" +:+ ex)
    | String d rest => String d ("." +:+ rest +:+ "e" +:+ ex)
    | EmptyString => "e" +:+ ex
    end.

(** [String(x)] for a Number. *)
Definition number_to_string (x : float) : string :=
  match Prim2SF x with
  | S754_nan => "NaN"
  | S754_zero _ => "0"
  | S754_infinity neg => if neg then "-Infinity" else "Infinity"
  | S754_finite neg m e =>
      let '(N, D) := exact m e in
      let '(ds, n) := shortest (PrimFloat.abs x) N D in
      (if neg then "-" else "") +:+ layout ds n
  end.

(** [x.toFixed(f)]: the numeral of the integer nearest to [x * 10 ^ f] (the
    larger one on a tie) with the point before its last [f] digits;
    [String(x)] for NaN, the infinities and magnitudes from [1e21]. *)
Definition toFixed (x : float) (f : nat) : string :=
  match Prim2SF x with
  | S754_zero _ => "0" +:+ (if Nat.eqb f 0 then "" else "." +:+ zeros f)
  | S754_finite neg m e =>
      let '(N, D) := exact m e in
      if 10 ^ 21 * D <=? N then number_to_string x
      else
        let n := (2 * N * 10 ^ Z.of_nat f + D) / (2 * D) in
        let m0 := decimal n in
        let m1 := zeros (f + 1 - String.length m0) +:+ m0 in
        let k := slen m1 - Z.of_nat f in
        (if neg then "-" else "")
        +:+ take_str k m1 +:+ (if Nat.eqb f 0 then "" else "." +:+ drop_str k m1)
  | _ => number_to_string x
  end.

(** *** Values *)

#[local] Set Warnings "-register-all".

(** The values the two files handle: form values, what yup casts them to,
    and parsed JSON.  An object lists its own properties in insertion order,
    each key once. *)
Inductive value : Type :=
  | VUndefined
  | VNull
  | VBool (b : bool)
  | VNum (x : float)
  | VStr (s : string)
  | VArr (items : list value)
  | VObj (props : list (string * value)).

Fixpoint join (sep : string) (l : list string) : string :=
  match l with
  | [] => ""
  | [a] => a
  | a :: r => a +:+ sep +:+ join sep r
  end.

(** [ToString] and [ToNumber] bring an object to a primitive first.
    ToPrimitive calls the object's [toString] and [valueOf]: those of
    [Object.prototype], or of [Array.prototype] (which joins the strings of
    the items), unless the object has an own property of that name.  In a
    parsed JSON document an own [toString] is no function, and ToPrimitive
    then throws a TypeError, whatever the hint.  [coerces v] says that
    ToPrimitive ends on [v]; [ToString v] and [ToNumber v] are the results
    for such a [v], and the code that can meet another value tests
    [coerces] first. *)
Fixpoint coerces (v : value) : bool :=
  match v with
  | VArr items => forallb coerces items
  | VObj props => negb (existsb (fun kv => String.eqb (fst kv) "toString") props)
  | _ => true
  end.

(** [typeof v === 'object'], [null] apart. *)
Definition is_object (v : value) : bool :=
  match v with
  | VArr _ | VObj _ => true
  | _ => false
  end.

Fixpoint ToString (v : value) : string :=
  match v with
  | VUndefined => "undefined"
  | VNull => "null"
  | VBool b => if b then "true" else "false"
  | VNum x => number_to_string x
  | VStr s => s
  | VArr items =>
      join "," (map (fun i => match i with
                              | VUndefined | VNull => ""
                              | _ => ToString i
                              end) items)
  | VObj _ => "[object Object]"
  end.

Definition ToNumber (v : value) : float :=
  match v with
  | VUndefined => PrimFloat.nan
  | VNull => PrimFloat.zero
  | VBool b => if b then PrimFloat.one else PrimFloat.zero
  | VNum x => x
  | VStr s => StringToNumber s
  | VArr _ | VObj _ => StringToNumber (ToString v)
  end.

Definition ToBoolean (v : value) : bool :=
  match v with
  | VUndefined | VNull => false
  | VBool b => b
  | VNum x => negb (PrimFloat.is_zero x || PrimFloat.is_nan x)
  | VStr s => negb (String.eqb s "")
  | VArr _ | VObj _ => true
  end.

Fixpoint assoc (k : string) (props : list (string * value)) : option value :=
  match props with
  | [] => None
  | (k', v) :: r => if String.eqb k k' then Some v else assoc k r
  end.

(** [v.k] for a data property [k] of a plain object; [undefined] when [v]
    has no such property. *)
Definition get (v : value) (k : string) : value :=
  match v with
  | VObj props => default VUndefined (assoc k props)
  | _ => VUndefined
  end.

(** [o.k = v] on a property list: the value is replaced where the key
    stands, a new key goes last. *)
Fixpoint set_prop (k : string) (v : value) (props : list (string * value))
  : list (string * value) :=
  match props with
  | [] => [(k, v)]
  | (k', v') :: r =>
      if String.eqb k k' then (k', v) :: r else (k', v') :: set_prop k v r
  end.

(** The object literal [{ ...o, k1: v1, ..., kn: vn }]. *)
Definition spread_with (o : value) (overrides : list (string * value)) : value :=
  let own := match o with VObj props => props | _ => [] end in
  VObj (fold_left (fun acc kv => set_prop (fst kv) (snd kv) acc) overrides own).

(** A Number in JSON text: a finite one is written out ([-0] as [0]), NaN
    and the infinities are written [null]. *)
Definition json_number (x : float) : value :=
  if PrimFloat.is_finite x
  then VNum (if PrimFloat.is_zero x then PrimFloat.zero else x)
  else VNull.

(** [JSON.stringify(v)], kept as the JSON document that the text denotes: a
    finite number stands for itself, NaN and the infinities become [null],
    a property whose value is [undefined] is left out and an [undefined]
    array item becomes [null].  [None] is the result [undefined] of
    stringifying [undefined] itself. *)
Fixpoint JSON_stringify (v : value) : option value :=
  match v with
  | VUndefined => None
  | VNull => Some VNull
  | VBool b => Some (VBool b)
  | VNum x => Some (json_number x)
  | VStr s => Some (VStr s)
  | VArr items => Some (VArr (map (fun i => default VNull (JSON_stringify i)) items))
  | VObj props =>
      Some (VObj (omap (fun kv => match JSON_stringify (snd kv) with
                                  | Some d => Some (fst kv, d)
                                  | None => None
                                  end) props))
  end.

End JS.

(** ** yup: schemas, casting and validation *)

Module Yup.
Import JS.

(** What the two files use of yup.  A schema is built by chaining methods
    on [yup.string()] or [yup.number()].  Validating a value first casts it
    (the transforms run in the order in which they were added), then checks
    the cast value against the schema's type and presence flags, and only
    then runs the tests that the methods added.  The resolver validates
    with [abortEarly: false], so every failed test is reported. *)

(** A test of a schema: its name is the [type] of the error it raises;
    [skip_absent] tests pass on [null] and [undefined] without running. *)
Record Test := {
  test_name : string;
  skip_absent : bool;
  test_fn : value -> bool
}.

(** A schema for one value: the type's check, the transforms that [cast]
    runs in the order they were added, the presence flags, the [oneOf] list
    and the tests added by the builder methods.  [on_required] holds what
    [required()] adds for this type besides the presence flags. *)
Record Schema := {
  type_check : value -> bool;
  transforms : list (value -> value);
  optional : bool;
  nullable : bool;
  whitelist : option (list value);
  tests : list Test;
  on_required : list Test
}.

Definition is_absent (v : value) : bool :=
  match v with
  | VUndefined | VNull => true
  | _ => false
  end.

(** [!!value.length]. *)
Definition has_length (v : value) : bool :=
  match v with
  | VStr t => negb (String.eqb t "")
  | VArr items => match items with [] => false | _ => true end
  | VObj _ => ToBoolean (get v "length")
  | _ => false
  end.

(** [yup.string()]: the type is [typeof value === 'string']; the built-in
    transform turns any other value, arrays and plain objects apart, into
    its string. *)
Definition string_ : Schema := {|
  type_check := fun v => match v with VStr _ => true | _ => false end;
  transforms :=
    [fun v => match v with
              | VStr _ | VArr _ | VObj _ | VNull | VUndefined => v
              | _ => VStr (ToString v)
              end];
  optional := true;
  nullable := false;
  whitelist := None;
  tests := [];
  on_required :=
    [{| test_name := "required"; skip_absent := true; test_fn := has_length |}]
|}.

Definition is_number (v : value) : bool :=
  match v with
  | VNum x => negb (isNaN x)
  | _ => false
  end.

(** [yup.number()]: the type is [typeof value === 'number' && !isNaN(value)];
    the built-in transform removes all white space from a string and reads
    what is left with unary plus (the empty rest is NaN); a value that then
    is neither of the type nor [null] goes through [parseFloat]. *)
Definition number : Schema := {|
  type_check := is_number;
  transforms :=
    [fun v =>
       match v with
       | VStr t =>
           let t' := remove_spaces t in
           if String.eqb t' "" then VNum PrimFloat.nan
           else
             let parsed := VNum (StringToNumber t') in
             if is_number parsed then parsed else VNum (parseFloat (ToString parsed))
       | _ =>
           if is_number v || is_absent v then v else VNum (parseFloat (ToString v))
       end];
  optional := true;
  nullable := false;
  whitelist := None;
  tests := [];
  on_required := []
|}.

(** [.required()]: neither [undefined] nor [null], and the type's own tests. *)
Definition required (s : Schema) : Schema := {|
  type_check := type_check s;
  transforms := transforms s;
  optional := false;
  nullable := false;
  whitelist := whitelist s;
  tests := tests s ++ on_required s;
  on_required := on_required s
|}.

(** [.transform(f)]: [f] runs after the transforms already there. *)
Definition transform (f : value -> value) (s : Schema) : Schema := {|
  type_check := type_check s;
  transforms := transforms s ++ [f];
  optional := optional s;
  nullable := nullable s;
  whitelist := whitelist s;
  tests := tests s;
  on_required := on_required s
|}.

(** [.oneOf(values)]. *)
Definition oneOf (values : list value) (s : Schema) : Schema := {|
  type_check := type_check s;
  transforms := transforms s;
  optional := optional s;
  nullable := nullable s;
  whitelist := Some values;
  tests := tests s;
  on_required := on_required s
|}.

(** [.integer()]. *)
Definition integer (s : Schema) : Schema := {|
  type_check := type_check s;
  transforms := transforms s;
  optional := optional s;
  nullable := nullable s;
  whitelist := whitelist s;
  tests := tests s ++
    [{| test_name := "integer"; skip_absent := true;
        test_fn := fun v => match v with VNum x => isInteger x | _ => false end |}];
  on_required := on_required s
|}.

(** [schema.cast(raw)] without the final assertion: [undefined] is not
    transformed, and no default is set here. *)
Definition cast (s : Schema) (raw : value) : value :=
  match raw with
  | VUndefined => VUndefined
  | _ => fold_left (fun v f => f v) (transforms s) raw
  end.

(** [Set.prototype.has] on primitives (SameValueZero); two objects are never
    the same here, the list being built from literals. *)
Definition same_value_zero (a b : value) : bool :=
  match a, b with
  | VUndefined, VUndefined | VNull, VNull => true
  | VBool x, VBool y => Bool.eqb x y
  | VNum x, VNum y => PrimFloat.eqb x y || (isNaN x && isNaN y)
  | VStr x, VStr y => String.eqb x y
  | _, _ => false
  end.

Definition run_test (t : Test) (v : value) : list string :=
  if (skip_absent t && is_absent v) || test_fn t v then [] else [test_name t].

(** The tests that come with the type and the presence flags.  A value
    that fails one of them is not given to the other tests. *)
Definition internal_tests (s : Schema) : list Test :=
  [{| test_name := "typeError"; skip_absent := true; test_fn := type_check s |};
   {| test_name := "nullable"; skip_absent := false;
      test_fn := fun v => match v with VNull => nullable s | _ => true end |}]
  ++ match whitelist s with
     | Some values =>
         [{| test_name := "oneOf"; skip_absent := true;
             test_fn := fun v => existsb (same_value_zero v) values |}]
     | None => []
     end
  ++ [{| test_name := "optionality"; skip_absent := false;
         test_fn := fun v => match v with VUndefined => optional s | _ => true end |}].

(** [schema.validate(raw, { abortEarly: false })] for one value: the names
    of the failed tests (none when the value is valid). *)
Definition failures (s : Schema) (raw : value) : list string :=
  let v := cast s raw in
  match flat_map (fun t => run_test t v) (internal_tests s) with
  | [] => flat_map (fun t => run_test t v) (tests s)
  | errs => errs
  end.

(** [yup.object().shape(fields)] on an object: every field is cast, the
    cast fields that are not [undefined] make the cast object, and every
    field of the cast object is then validated with its own schema.  The
    cast object is a new one, filled in the order of the schema's nodes:
    [shape] sorts the fields with [toposort(...).reverse()], which for
    fields that do not refer to each other is the reverse of the order in
    which they are written.  This is the cast of the form values, which
    hold the keys of the shape and no other, and of which the cast changes
    at least the numeric fields (yup hands back the object it was given
    when the cast changes no field). *)
Definition shape := list (string * Schema).

Fixpoint field (fields : shape) (k : string) : option Schema :=
  match fields with
  | [] => None
  | (k', s) :: r => if String.eqb k k' then Some s else field r k
  end.

Definition nodes (fields : shape) : shape := rev fields.

Definition cast_object (fields : shape) (data : value) : value :=
  VObj (omap (fun kf => match cast (snd kf) (get data (fst kf)) with
                        | VUndefined => None
                        | v => Some (fst kf, v)
                        end) (nodes fields)).

Definition field_errors (fields : shape) (data : value) : list (string * list string) :=
  let parent := cast_object fields data in
  omap (fun kf => match failures (snd kf) (get parent (fst kf)) with
                  | [] => None
                  | errs => Some (fst kf, errs)
                  end) fields.

End Yup.

(** ** react-hook-form with the yup resolver *)

Module Hook.
Import JS.

(** What the resolver hands back: the cast values when every field is
    valid, and otherwise, for each failing path, the type of its first
    error ([formState.errors]). *)
Record Resolved := {
  values : value;
  errors_of : gmap string string
}.

Definition yupResolver (schema : Yup.shape) (data : value) : Resolved :=
  match Yup.field_errors schema data with
  | [] => {| values := Yup.cast_object schema data; errors_of := ∅ |}
  | errs =>
      {| values := VObj [];
         errors_of := list_to_map (map (fun ke => (fst ke, hd "" (snd ke))) errs) |}
  end.

(** The field at [k] has no error. *)
Definition valid_at (schema : Yup.shape) (data : value) (k : string) : Prop :=
  errors_of (yupResolver schema data) !! k = None.

End Hook.

(** ** The screen component: state, submission and display *)

Module Screen.
Import JS.

Record request := {
  url : string;
  method : string;
  headers : list (string * string);
  body : option value
}.

(** How a [fetch] call ends: the promise rejects, or it yields a response
    with a status whose [json()] either yields the parsed body or rejects
    ([None]: the body is not JSON). *)
Inductive outcome : Type :=
  | Rejected (err : string)
  | Response (status : Z) (json : option value).

(** The component's state: the two [useState] cells, the form's
    [formState.errors], the [fetch] calls that have not settled (by the
    order in which they were issued) and the lines given to
    [console.error].  [published] is the history of the arguments of
    [setResult], oldest first; it is kept to count the updates and is not
    read by the component. *)
Record state := {
  result : value;
  loading : bool;
  errors : gmap string string;
  in_flight : gmap nat request;
  issued : nat;
  console : list string;
  published : list value
}.

Definition initial : state := {|
  result := VNull;
  loading := false;
  errors := ∅;
  in_flight := ∅;
  issued := 0;
  console := [];
  published := []
|}.

(** Code that reads and writes the state and may throw. *)
Definition M (A : Type) : Type := state -> (string + A) * state.

Definition ret {A} (a : A) : M A := fun s => (inr a, s).

Definition bind {A B} (m : M A) (k : A -> M B) : M B :=
  fun s => match m s with
           | (inr a, s') => k a s'
           | (inl e, s') => (inl e, s')
           end.

Definition throw {A} (e : string) : M A := fun s => (inl e, s).

Definition try_catch {A} (block : M A) (handler : string -> M A) : M A :=
  fun s => match block s with
           | (inl e, s') => handler e s'
           | done => done
           end.

Definition try_finally {A} (block : M A) (final : M unit) : M A :=
  fun s => match block s with
           | (r, s') => match final s' with
                        | (inl e, s'') => (inl e, s'')
                        | (inr _, s'') => (r, s'')
                        end
           end.

Declare Scope screen_scope.
Delimit Scope screen_scope with screen.
Notation "'let*' x := m 'in' k" := (bind m (fun x => k))
  (at level 10, x name, m at level 100, k at level 200) : screen_scope.
Local Open Scope screen_scope.

Definition setResult (v : value) : M unit := fun s =>
  (inr tt, {| result := v; loading := loading s; errors := errors s;
              in_flight := in_flight s; issued := issued s; console := console s;
              published := published s ++ [v] |}).

Definition setLoading (b : bool) : M unit := fun s =>
  (inr tt, {| result := result s; loading := b; errors := errors s;
              in_flight := in_flight s; issued := issued s; console := console s;
              published := published s |}).

Definition setErrors (e : gmap string string) : M unit := fun s =>
  (inr tt, {| result := result s; loading := loading s; errors := e;
              in_flight := in_flight s; issued := issued s; console := console s;
              published := published s |}).

Definition console_error (line : string) : M unit := fun s =>
  (inr tt, {| result := result s; loading := loading s; errors := errors s;
              in_flight := in_flight s; issued := issued s;
              console := console s ++ [line]; published := published s |}).

(** [fetch(url, init)] sends the request; the call is known by its rank. *)
Definition fetch (r : request) : M nat := fun s =>
  (inr (issued s),
   {| result := result s; loading := loading s; errors := errors s;
      in_flight := <[issued s := r]> (in_flight s); issued := S (issued s);
      console := console s; published := published s |}).

Definition settled (id : nat) (s : state) : state :=
  {| result := result s; loading := loading s; errors := errors s;
     in_flight := delete id (in_flight s); issued := issued s;
     console := console s; published := published s |}.

(** [await fetch(...)] and [await res.json()] once the call has ended.  The
    line thrown for a body that is not JSON stands for the SyntaxError of
    the engine, whose wording differs from one engine to the other. *)
Definition await_fetch (o : outcome) : M (option value) :=
  match o with
  | Rejected err => throw err
  | Response _ json => ret json
  end.

Definition await_json (json : option value) : M value :=
  match json with
  | Some v => ret v
  | None => throw "SyntaxError: JSON Parse error"
  end.

Section Controller.

(** What differs between the two files: the schema, the object literal given
    to [JSON.stringify] and whether the button is [disabled] while
    [loading]. *)
Variable schema : Yup.shape.
Variable payload : value -> value.
Variable disabled_while_loading : bool.
Variable API_BASE : string.

Definition predict (data : value) : request := {|
  url := API_BASE +:+ "/predict";
  method := "POST";
  headers := [("Content-Type", "application/json")];
  body := JSON_stringify (payload data)
|}.

(** [onSubmit] (lines 98 to 121 of [App.tsx], 50 to 73 of the earlier
    version) up to its first [await]: the loading flag is set and the
    request is sent. *)
Definition onSubmit_call (data : value) : M nat :=
  let* _ := setLoading true in
  fetch (predict data).

(** [onSubmit] from the first [await] on, when the call has ended with [o]:
    the rest of the [try] block, the [catch] and the [finally]. *)
Definition onSubmit_resume (o : outcome) : M unit :=
  try_finally
    (try_catch
       (let* res := await_fetch o in
        let* json := await_json res in
        setResult json)
       (fun err => console_error err))
    (setLoading false).

(** [handleSubmit(onSubmit)]: the form values go through the resolver; its
    errors become [formState.errors], and [onSubmit] is called with the cast
    values only when there is none. *)
Definition handleSubmit (data : value) : M unit :=
  let r := Hook.yupResolver schema data in
  let* _ := setErrors (Hook.errors_of r) in
  if decide (Hook.errors_of r = ∅)
  then (let* _ := onSubmit_call (Hook.values r) in ret tt)
  else ret tt.

(** What happens to the component: the button is pressed with [data] in the
    form, [onSubmit] is called with [data], or the [fetch] call [id] ends. *)
Inductive event : Type :=
  | Press (data : value)
  | Call (data : value)
  | Settle (id : nat) (o : outcome).

Definition exec {A} (m : M A) (s : state) : state := snd (m s).

Definition step (s : state) (e : event) : state :=
  match e with
  | Press data =>
      if disabled_while_loading && loading s then s else exec (handleSubmit data) s
  | Call data => exec (onSubmit_call data) s
  | Settle id o =>
      match in_flight s !! id with
      | Some _ => exec (onSubmit_resume o) (settled id s)
      | None => s
      end
  end.

Definition run (s : state) (es : list event) : state := fold_left step es s.

End Controller.

(** [onSubmit] is called by something else than the button. *)
Definition is_call (e : event) : bool :=
  match e with
  | Call _ => true
  | _ => false
  end.

(** A value written as a child of a text element, [{v}] in JSX: [null],
    [undefined] and the booleans draw nothing, a string or a Number is
    drawn as its text, the items of an array are drawn one after the other,
    and React throws on a plain object ("Objects are not valid as a React
    child").  [None]: React throws. *)
Fixpoint child_text (v : value) : option string :=
  match v with
  | VUndefined | VNull | VBool _ => Some ""
  | VNum x => Some (number_to_string x)
  | VStr s => Some s
  | VArr items =>
      fold_right (fun i rest => match child_text i, rest with
                                | Some a, Some b => Some (a +:+ b)
                                | _, _ => None
                                end) (Some "") items
  | VObj _ => None
  end.

End Screen.

(** ** The form both files declare *)

Module Form.
Import JS.

(** [FormData]: what the six inputs hold, all text. *)
Record FormData := {
  Bet : string;
  TotalGames : string;
  TotalProfit : string;
  TotalLosses : string;
  CashedOut : string;
  model_name : string
}.

(** The form values as the object that react-hook-form keeps. *)
Definition form_values (d : FormData) : value :=
  VObj [("Bet", VStr (Bet d)); ("TotalGames", VStr (TotalGames d));
        ("TotalProfit", VStr (TotalProfit d)); ("TotalLosses", VStr (TotalLosses d));
        ("CashedOut", VStr (CashedOut d)); ("model_name", VStr (model_name d))].

Definition defaultValues : FormData := {|
  Bet := ""; TotalGames := ""; TotalProfit := ""; TotalLosses := "";
  CashedOut := ""; model_name := "logreg"
|}.

(** The text in the input named [k]. *)
Definition text_of (d : FormData) (k : string) : string :=
  ToString (get (form_values d) k).

(** The four amounts; [TotalGames] is the fifth numeric input. *)
Definition amount_fields : list string :=
  ["Bet"; "TotalProfit"; "TotalLosses"; "CashedOut"].

Definition model_names : list string :=
  ["logreg"; "randforest"; "gradboost"; "svm_rbf"; "mlp"].

(** [field.onChange(text)] of the [Controller] named [k]: the form value at
    [k] becomes [text]. *)
Definition onChange (k : string) (text : string) (d : FormData) : FormData := {|
  Bet := if String.eqb k "Bet" then text else Bet d;
  TotalGames := if String.eqb k "TotalGames" then text else TotalGames d;
  TotalProfit := if String.eqb k "TotalProfit" then text else TotalProfit d;
  TotalLosses := if String.eqb k "TotalLosses" then text else TotalLosses d;
  CashedOut := if String.eqb k "CashedOut" then text else CashedOut d;
  model_name := if String.eqb k "model_name" then text else model_name d
|}.

(** The mounted component: the form values that [useForm] keeps and the
    state of the screen. *)
Record view := {
  form : FormData;
  screen : Screen.state
}.

Definition mounted : view := {| form := defaultValues; screen := Screen.initial |}.

End Form.

(** ** src/App.tsx *)

Module App.
Import JS Form.

(** Lines 17 to 56: the base URL and the schema. *)

Definition API_BASE : string := "https://YOUR_NGROK_URL.ngrok-free.app".

(** The schema of the five numeric inputs:
    [yup.string().required().transform(value => isNaN(Number(value)) ? undefined : Number(value))]. *)
Definition numeric_text : Yup.Schema :=
  Yup.transform
    (fun v => if isNaN (ToNumber v) then VUndefined else VNum (ToNumber v))
    (Yup.required Yup.string_).

Definition schema : Yup.shape :=
  [("Bet", numeric_text);
   ("TotalGames", numeric_text);
   ("TotalProfit", numeric_text);
   ("TotalLosses", numeric_text);
   ("CashedOut", numeric_text);
   ("model_name", Yup.required (Yup.oneOf (map VStr model_names) Yup.string_))].

(** Lines 104 to 112: the object literal that [onSubmit] gives to
    [JSON.stringify], [{ ...data, Bet: Number(data.Bet), ... }], for the
    [data] of [handleSubmit] and of the type [FormData]: an object whose
    numeric fields coerce.  (On [null] or [undefined] the read [data.Bet]
    throws.) *)
Definition payload (data : value) : value :=
  spread_with data
    [("Bet", VNum (ToNumber (get data "Bet")));
     ("TotalGames", VNum (ToNumber (get data "TotalGames")));
     ("TotalProfit", VNum (ToNumber (get data "TotalProfit")));
     ("TotalLosses", VNum (ToNumber (get data "TotalLosses")));
     ("CashedOut", VNum (ToNumber (get data "CashedOut")))].

Definition predict := Screen.predict payload API_BASE.
Definition onSubmit_call := Screen.onSubmit_call payload API_BASE.
Definition onSubmit_resume := Screen.onSubmit_resume.
Definition handleSubmit := Screen.handleSubmit schema payload API_BASE.

(** Lines 220 to 230: the submit button calls [handleSubmit(onSubmit)] and
    is [disabled={loading}]. *)
Definition step := Screen.step schema payload true API_BASE.
Definition run := Screen.run schema payload true API_BASE.

(** Lines 123 to 136, [getRiskLevel]: the [levels] literal, read at the key
    [cluster], or the "Unknown" literal when the read is falsy.  The key is
    the string of [cluster]; [None]: [cluster] does not coerce and the read
    throws a TypeError.  A key that names a property of [Object.prototype]
    reads that property, an object without [label], [color] or [bg]. *)
Definition levels : list (string * value) :=
  [("0", VObj [("label", VStr "Low Risk"); ("color", VStr "#4CAF50");
               ("bg", VStr "#E8F5E8")]);
   ("1", VObj [("label", VStr "Medium Risk"); ("color", VStr "#FF9800");
               ("bg", VStr "#FFF3E0")]);
   ("2", VObj [("label", VStr "High Risk"); ("color", VStr "#F44336");
               ("bg", VStr "#FFEBEE")])].

Definition inherited : list string :=
  ["constructor"; "hasOwnProperty"; "isPrototypeOf"; "propertyIsEnumerable";
   "toLocaleString"; "toString"; "valueOf"; "__proto__"; "__defineGetter__";
   "__defineSetter__"; "__lookupGetter__"; "__lookupSetter__"].

Definition levels_at (key : string) : value :=
  match assoc key levels with
  | Some l => l
  | None => if existsb (String.eqb key) inherited then VObj [] else VUndefined
  end.

Definition getRiskLevel (cluster : value) : option value :=
  if coerces cluster then
    let found := levels_at (ToString cluster) in
    Some (if ToBoolean found then found
          else VObj [("label", VStr "Unknown"); ("color", VStr "#757575");
                     ("bg", VStr "#F5F5F5")])
  else None.

(** The expression under both the bar and the text of the confidence
    display, [result.confidence * 100]; [None]: the confidence does not
    coerce and the product throws a TypeError. *)
Definition confidencePercent (result : value) : option float :=
  if coerces (get result "confidence")
  then Some (PrimFloat.mul (ToNumber (get result "confidence")) 100%float)
  else None.

(** Lines 235 to 281: the results card, made when [result] is truthy: the
    badge (label and colours of the risk level), the text with the cluster,
    the width of the confidence bar and the confidence text.  [None]: no
    card is on the screen, because [result] is falsy or because making the
    card throws ([cardThrows]): [getRiskLevel] or the product throws, or
    React refuses the cluster as a child. *)
Record ResultCard := {
  badge : value;
  clusterText : string;
  barWidth : string;
  confidenceText : string
}.

Definition resultCard (result : value) : option ResultCard :=
  if ToBoolean result then
    match getRiskLevel (get result "cluster"),
          Screen.child_text (get result "cluster"),
          confidencePercent result with
    | Some level, Some cluster, Some percent =>
        Some {| badge := level;
                clusterText := "Cluster " +:+ cluster;
                barWidth := number_to_string percent +:+ "%";
                confidenceText := toFixed percent 1 +:+ "%" |}
    | _, _, _ => None
    end
  else None.

Definition cardThrows (result : value) : bool :=
  ToBoolean result &&
  negb (coerces (get result "cluster")
        && bool_decide (is_Some (Screen.child_text (get result "cluster")))
        && coerces (get result "confidence")).

(** Lines 58 to 64. *)
Definition modelOptions : list value :=
  [VObj [("value", VStr "logreg"); ("label", VStr "Logistic Regression")];
   VObj [("value", VStr "randforest"); ("label", VStr "Random Forest")];
   VObj [("value", VStr "gradboost"); ("label", VStr "Gradient Boosting")];
   VObj [("value", VStr "svm_rbf"); ("label", VStr "SVM RBF")];
   VObj [("value", VStr "mlp"); ("label", VStr "Neural Network")]].

(** Lines 66 to 72. *)
Definition inputFields : list value :=
  [VObj [("name", VStr "Bet"); ("label", VStr "Bet Amount"); ("icon", VStr "💰")];
   VObj [("name", VStr "TotalGames"); ("label", VStr "Total Games"); ("icon", VStr "🎮")];
   VObj [("name", VStr "TotalProfit"); ("label", VStr "Total Profit"); ("icon", VStr "📈")];
   VObj [("name", VStr "TotalLosses"); ("label", VStr "Total Losses"); ("icon", VStr "📉")];
   VObj [("name", VStr "CashedOut"); ("label", VStr "Cashed Out"); ("icon", VStr "💸")]].

(** Lines 161 to 177: the text input of [field] is marked [error] when
    [errors[field.name]] is set. *)
Definition inputError (s : Screen.state) (field : value) : bool :=
  bool_decide (is_Some (Screen.errors s !! ToString (get field "name"))).

(** Lines 195 to 212: the chip of [model] is selected, and drawn flat, when
    [value === model.value] for the form value of [model_name]. *)
Definition chipSelected (d : FormData) (model : value) : bool :=
  match get model "value" with
  | VStr v => String.eqb (model_name d) v
  | _ => false
  end.

Definition chipMode (d : FormData) (model : value) : string :=
  if chipSelected d model then "flat" else "outlined".

(** Lines 229 and 284: the label of the button and the loading indicator. *)
Definition buttonLabel (s : Screen.state) : string :=
  if Screen.loading s then "Analyzing..." else "Analyze Risk".

Definition loadingIndicator (s : Screen.state) : bool := Screen.loading s.

(** What the user and the network do to the mounted component: text is
    typed into the input of rank [input], the chip of rank [chip] or the
    button is pressed, the [fetch] call [id] ends.  The form's errors are
    those of the last press: what react-hook-form does to them when a
    field changes after a submission is left out. *)
Inductive action : Type :=
  | ChangeText (input : nat) (text : string)
  | PressChip (chip : nat)
  | PressButton
  | Settled (id : nat) (o : Screen.outcome).

Definition act (u : view) (a : action) : view :=
  match a with
  | ChangeText i text =>
      match inputFields !! i with
      | Some field =>
          {| form := onChange (ToString (get field "name")) text (form u);
             screen := screen u |}
      | None => u
      end
  | PressChip i =>
      match modelOptions !! i with
      | Some model =>
          {| form := onChange "model_name" (ToString (get model "value")) (form u);
             screen := screen u |}
      | None => u
      end
  | PressButton =>
      {| form := form u;
         screen := step (screen u) (Screen.Press (form_values (form u))) |}
  | Settled id o =>
      {| form := form u; screen := step (screen u) (Screen.Settle id o) |}
  end.

Definition interact (u : view) (l : list action) : view := fold_left act l u.

End App.

(** ** src/unnamed/part_000: the earlier single-card version *)

Module Part000.
Import JS Form.

(** Lines 8 to 32: the base URL and the schema. *)

Definition API_BASE : string := "https://YOUR_NGROK_URL.ngrok-free.app".

Definition schema : Yup.shape :=
  [("Bet", Yup.required Yup.number);
   ("TotalGames", Yup.required (Yup.integer Yup.number));
   ("TotalProfit", Yup.required Yup.number);
   ("TotalLosses", Yup.required Yup.number);
   ("CashedOut", Yup.required Yup.number);
   ("model_name", Yup.required (Yup.oneOf (map VStr model_names) Yup.string_))].

(** Lines 56 to 64: the object literal that [onSubmit] gives to
    [JSON.stringify].  [parseFloat(v)] and [parseInt(v, 10)] read the
    string of their argument, here a value that yup has cast.  As in
    [App.tsx], [data] is an object whose numeric fields coerce. *)
Definition payload (data : value) : value :=
  spread_with data
    [("Bet", VNum (parseFloat (ToString (get data "Bet"))));
     ("TotalGames", VNum (parseInt10 (ToString (get data "TotalGames"))));
     ("TotalProfit", VNum (parseFloat (ToString (get data "TotalProfit"))));
     ("TotalLosses", VNum (parseFloat (ToString (get data "TotalLosses"))));
     ("CashedOut", VNum (parseFloat (ToString (get data "CashedOut"))))].

Definition predict := Screen.predict payload API_BASE.
Definition onSubmit_call := Screen.onSubmit_call payload API_BASE.
Definition onSubmit_resume := Screen.onSubmit_resume.
Definition handleSubmit := Screen.handleSubmit schema payload API_BASE.

(** Lines 101 to 108: the button calls [handleSubmit(onSubmit)]; it shows
    [loading] and stays enabled. *)
Definition step := Screen.step schema payload false API_BASE.
Definition run := Screen.run schema payload false API_BASE.

Definition confidencePercent (result : value) : option float :=
  if coerces (get result "confidence")
  then Some (PrimFloat.mul (ToNumber (get result "confidence")) 100%float)
  else None.

(** Lines 110 to 122: the confidence line of the output card, made when
    [result] is truthy.  [None]: no card is on the screen, because
    [result] is falsy or because making the card throws ([cardThrows]):
    React refuses the cluster as a child, or the product throws. *)
Definition confidenceText (result : value) : option string :=
  if ToBoolean result then
    match Screen.child_text (get result "cluster"), confidencePercent result with
    | Some _, Some percent => Some (toFixed percent 2 +:+ "%")
    | _, _ => None
    end
  else None.

Definition cardThrows (result : value) : bool :=
  ToBoolean result &&
  negb (bool_decide (is_Some (Screen.child_text (get result "cluster")))
        && coerces (get result "confidence")).

(** Lines 83 to 99: one text input per field, the model name included. *)
Definition fields : list string :=
  ["Bet"; "TotalGames"; "TotalProfit"; "TotalLosses"; "CashedOut"; "model_name"].

(** What the user and the network do to the mounted component. *)
Inductive action : Type :=
  | ChangeText (input : nat) (text : string)
  | PressButton
  | Settled (id : nat) (o : Screen.outcome).

Definition act (u : view) (a : action) : view :=
  match a with
  | ChangeText i text =>
      match fields !! i with
      | Some field => {| form := onChange field text (form u); screen := screen u |}
      | None => u
      end
  | PressButton =>
      {| form := form u;
         screen := step (screen u) (Screen.Press (form_values (form u))) |}
  | Settled id o =>
      {| form := form u; screen := step (screen u) (Screen.Settle id o) |}
  end.

Definition interact (u : view) (l : list action) : view := fold_left act l u.

End Part000.

(** ** The specification's own definitions *)

(** Definitions that follow the words of the specification, to compare the
    code with. *)
Module Spec.
Import JS Form.

(** Section 4.3: the percentage "clamped into [0, 100]". *)
Definition clampPercent (x : float) : float :=
  if PrimFloat.ltb x 0%float then 0%float
  else if PrimFloat.ltb 100%float x then 100%float
  else x.

(** Section 4.1: the text "must parse as a finite real number (any sign);
    empty or non-numeric text fails". *)
Definition finite_real_text (t : string) : bool :=
  negb (String.eqb (trim t) "") && isFinite (StringToNumber t).

(** Section 4.1: the text "must parse as a finite integer >= 0". *)
Definition nonneg_integer_text (t : string) : bool :=
  finite_real_text t && isInteger (StringToNumber t)
  && PrimFloat.leb 0%float (StringToNumber t).

(** Section 4.1: "a case-sensitive exact match to one of the five
    enumerated identifiers". *)
Definition model_name_ok (m : string) : bool :=
  existsb (String.eqb m) model_names.

(** The names of the fields that fail their rule of section 4.1. *)
Definition malformed (d : FormData) : list string :=
  (if finite_real_text (Bet d) then [] else ["Bet"])
  ++ (if nonneg_integer_text (TotalGames d) then [] else ["TotalGames"])
  ++ (if finite_real_text (TotalProfit d) then [] else ["TotalProfit"])
  ++ (if finite_real_text (TotalLosses d) then [] else ["TotalLosses"])
  ++ (if finite_real_text (CashedOut d) then [] else ["CashedOut"])
  ++ (if model_name_ok (model_name d) then [] else ["model_name"]).

(** Section 4.3: the shape of a PredictionResult, "a non-negative integer
    [cluster] and a numeric [confidence]". *)
Definition is_prediction_result (body : value) : bool :=
  match get body "cluster", get body "confidence" with
  | VNum c, VNum p => isInteger c && PrimFloat.leb 0%float c && negb (isNaN p)
  | _, _ => false
  end.

End Spec.

(** ** Sample inputs *)

Module Examples.
Import JS Form.

Definition filled : FormData := {|
  Bet := "10"; TotalGames := "3"; TotalProfit := "5"; TotalLosses := "2";
  CashedOut := "4"; model_name := "logreg"
|}.

Definition with_Bet (t : string) : FormData := {|
  Bet := t; TotalGames := "3"; TotalProfit := "5"; TotalLosses := "2";
  CashedOut := "4"; model_name := "logreg"
|}.

Definition with_TotalGames (t : string) : FormData := {|
  Bet := "10"; TotalGames := t; TotalProfit := "5"; TotalLosses := "2";
  CashedOut := "4"; model_name := "logreg"
|}.

Definition with_model_name (m : string) : FormData := {|
  Bet := "10"; TotalGames := "3"; TotalProfit := "5"; TotalLosses := "2";
  CashedOut := "4"; model_name := m
|}.

(** A form with a non-numeric bet and a negative number of games. *)
Definition two_bad_fields : FormData := {|
  Bet := "abc"; TotalGames := "-3"; TotalProfit := "5"; TotalLosses := "2";
  CashedOut := "4"; model_name := "logreg"
|}.

(** Response bodies, as [res.json()] yields them. *)
Definition prediction (cluster confidence : string) : value :=
  VObj [("cluster", VNum (StringToNumber cluster));
        ("confidence", VNum (StringToNumber confidence))].

Definition cluster_as_text : value := VObj [("cluster", VStr "high")].

Definition cluster_only : value := VObj [("cluster", VNum 2%float)].

(** Two submissions are outstanding and the second one's response comes
    first: the button pressed twice in the earlier version, [onSubmit]
    called twice in [App.tsx]. *)
Definition pressed_twice : Screen.state :=
  Part000.run Screen.initial
    [Screen.Press (form_values filled); Screen.Press (form_values filled);
     Screen.Settle 1 (Screen.Response 200 (Some (prediction "2" "0.8")));
     Screen.Settle 0 (Screen.Response 200 (Some (prediction "0" "0.9")))].

Definition called_twice : Screen.state :=
  App.run Screen.initial
    [Screen.Call (form_values filled); Screen.Call (form_values filled);
     Screen.Settle 1 (Screen.Response 200 (Some (prediction "2" "0.8")));
     Screen.Settle 0 (Screen.Response 200 (Some (prediction "0" "0.9")))].

(** A response with status 500 and a body of the wrong shape. *)
Definition server_error : Screen.state :=
  App.run Screen.initial
    [Screen.Call (form_values filled);
     Screen.Settle 0 (Screen.Response 500 (Some cluster_as_text))].

(** A response without [confidence]. *)
Definition missing_confidence : Screen.state :=
  Part000.run Screen.initial
    [Screen.Press (form_values filled);
     Screen.Settle 0 (Screen.Response 200 (Some cluster_only))].

(** The request sent for a number of games written [1e21], and written with
    its 22 digits. *)
Definition exponent_games : option Screen.request :=
  Screen.in_flight
    (Part000.run Screen.initial [Screen.Press (form_values (with_TotalGames "1e21"))])
  !! 0%nat.

Definition long_games : option Screen.request :=
  Screen.in_flight
    (Part000.run Screen.initial
       [Screen.Press (form_values (with_TotalGames "1000000000000000000000"))])
  !! 0%nat.

End Examples.

(** * Properties *)

#[local] Arguments String.append : simpl nomatch.
#[local] Arguments JS.of_decimal : simpl never.
#[local] Arguments JS.magnitude : simpl never.
#[local] Arguments JS.candidates : simpl never.
#[local] Arguments JS.floor_digits : simpl never.
#[local] Arguments JS.shortest : simpl never.
#[local] Arguments JS.layout : simpl never.
#[local] Arguments JS.number_to_string : simpl never.
#[local] Arguments JS.StringToNumber : simpl never.
#[local] Arguments JS.parseFloat : simpl never.
#[local] Arguments JS.isNaN : simpl never.
#[local] Arguments JS.isInteger : simpl never.
#[local] Arguments JS.remove_spaces : simpl never.

(** ** Numbers and their strings *)

Module NumberFacts.
Import JS.

(** Floats: NaN is the only Number that differs from itself, and equality
    with a finite non-zero Number or with zero fixes the value. *)
Lemma SFeqb_refl_not_nan (a : spec_float) : a <> S754_nan -> SFeqb a a = true.
Proof.
  destruct a as [s | s | | s m e]; intros H; try easy.
  - destruct s; reflexivity.
  - unfold SFeqb, SFcompare.
    change (Pos.compare_cont Eq m m) with (Pos.compare m m).
    destruct s; rewrite Z.compare_refl, Pos.compare_refl; reflexivity.
Qed.

Lemma isNaN_nan (x : float) : isNaN x = true -> x = PrimFloat.nan.
Proof.
  unfold isNaN, PrimFloat.is_nan. rewrite FloatAxioms.eqb_spec. intros H.
  apply Prim2SF_inj.
  destruct (Prim2SF x) eqn:E; try reflexivity;
    rewrite SFeqb_refl_not_nan in H by discriminate; discriminate.
Qed.

Lemma SFeqb_finite_eq s m e a :
  SFeqb a (S754_finite s m e) = true -> a = S754_finite s m e.
Proof.
  unfold SFeqb, SFcompare.
  destruct a as [t | t | | t n f]; try (destruct t; discriminate); try discriminate.
  - destruct s; discriminate.
  - change (Pos.compare_cont Eq n m) with (Pos.compare n m).
    destruct t, s; try discriminate;
      destruct (Z.compare_spec f e); try discriminate;
      destruct (Pos.compare_spec n m); try discriminate; subst; reflexivity.
Qed.

Lemma eqb_finite_eq (x y : float) s m e :
  Prim2SF y = S754_finite s m e -> PrimFloat.eqb x y = true -> x = y.
Proof.
  intros Hy H. rewrite FloatAxioms.eqb_spec, Hy in H.
  apply Prim2SF_inj. rewrite Hy. now apply SFeqb_finite_eq.
Qed.

Lemma eqb_zero (x : float) :
  PrimFloat.eqb x 0%float = true <-> exists s, Prim2SF x = S754_zero s.
Proof.
  rewrite FloatAxioms.eqb_spec. change (Prim2SF 0%float) with (S754_zero false).
  destruct (Prim2SF x) as [s | s | | s m e]; unfold SFeqb; simpl; split;
    try discriminate; try (intros [? ?]; discriminate); eauto.
  - destruct s; discriminate.
  - destruct s; discriminate.
Qed.

(** [same_value] is equality. *)
Lemma same_value_eq (x y : float) : same_value x y = true -> x = y.
Proof. apply FloatAxioms.Leibniz.eqb_spec. Qed.

(** Numerals: [digits_of k s] has [k] characters, all of them digits. *)
Lemma digit_char_is_digit (d : Z) : is_digit (digit_char d) = true.
Proof.
  unfold digit_char.
  assert (H : 0 <= d mod 10 < 10) by (apply Z.mod_pos_bound; lia).
  assert (C : d mod 10 = 0 \/ d mod 10 = 1 \/ d mod 10 = 2 \/ d mod 10 = 3 \/ d mod 10 = 4
              \/ d mod 10 = 5 \/ d mod 10 = 6 \/ d mod 10 = 7 \/ d mod 10 = 8 \/ d mod 10 = 9) by lia.
  repeat (destruct C as [C | C]; [rewrite C; reflexivity |]).
  rewrite C; reflexivity.
Qed.

Lemma append_assoc (a b c : string) : (a +:+ b) +:+ c = a +:+ b +:+ c.
Proof. induction a as [|x a IH]; simpl; [reflexivity|]. now rewrite IH. Qed.

Lemma all_digits_app (a b : string) :
  all_digits (a +:+ b) = all_digits a && all_digits b.
Proof.
  induction a as [|c a IH]; cbn; [reflexivity|].
  rewrite IH. apply andb_assoc.
Qed.

Lemma digits_acc_app (k : nat) : forall s acc,
  digits_acc k s acc = digits_of k s +:+ acc.
Proof.
  unfold digits_of. induction k as [|k IH]; intros s acc; simpl; [reflexivity|].
  rewrite IH. rewrite (IH (s / 10) (String _ EmptyString)).
  rewrite append_assoc. reflexivity.
Qed.

Lemma digits_of_all (k : nat) : forall s, all_digits (digits_of k s) = true.
Proof.
  induction k as [|k IH]; intros s; [reflexivity|].
  unfold digits_of; simpl. rewrite digits_acc_app, all_digits_app, IH.
  simpl. now rewrite digit_char_is_digit.
Qed.

Lemma length_append (a b : string) :
  String.length (a +:+ b) = (String.length a + String.length b)%nat.
Proof. induction a; simpl; congruence. Qed.

Lemma digits_of_length (k : nat) : forall s, String.length (digits_of k s) = k.
Proof.
  induction k as [|k IH]; intros s; [reflexivity|].
  unfold digits_of; simpl. rewrite digits_acc_app, length_append, IH. simpl. lia.
Qed.

(** A candidate numeral has [k] digits and reads back as [x]. *)
Lemma candidates_valid x N D n k ds :
  In ds (candidates x N D n k) ->
  String.length ds = k /\ all_digits ds = true /\
  same_value (of_decimal false (digits_value 0 ds) (n - Z.of_nat k)) x = true.
Proof.
  unfold candidates. intros H. apply in_map_iff in H as (s & <- & H).
  apply filter_In in H as [_ H].
  apply andb_true_iff in H as [_ H].
  split; [apply digits_of_length|]. split; [apply digits_of_all|exact H].
Qed.

(** The search returns digits that read back as [x], unless it ran out of
    lengths and returned the longest numeral. *)
Lemma shortest_from_spec x N D n more : forall k ds n',
  shortest_from x N D n k more = (ds, n') ->
  n' = n /\ all_digits ds = true /\ (k <= String.length ds)%nat /\
  (same_value (of_decimal false (digits_value 0 ds) (n - slen ds)) x = true
   \/ String.length ds = (k + more)%nat).
Proof.
  induction more as [|more IH]; intros k ds n'; simpl;
    destruct (candidates x N D n k) as [|c cs] eqn:E.
  - intros [= <- <-]. unfold floor_digits.
    rewrite digits_of_all, digits_of_length. repeat split; lia.
  - intros [= <- <-].
    destruct (candidates_valid x N D n k c) as (L & A & V); [rewrite E; now left|].
    unfold slen. rewrite L. repeat split; auto.
  - intros H. apply IH in H as (-> & A & L & V). repeat split; auto; try lia.
    destruct V as [V|V]; [now left|right; lia].
  - intros [= <- <-].
    destruct (candidates_valid x N D n k c) as (L & A & V); [rewrite E; now left|].
    unfold slen. rewrite L. repeat split; auto.
Qed.

(** The digits of Number::toString are not empty, and a single digit reads
    back as [x]. *)
Lemma shortest_spec x N D ds n :
  shortest x N D = (ds, n) ->
  all_digits ds = true /\ ds <> "" /\
  (String.length ds = 1%nat ->
   same_value (of_decimal false (digits_value 0 ds) (n - 1)) x = true).
Proof.
  unfold shortest.
  destruct (same_value (of_decimal false 1 (magnitude 400 N D 1)) x) eqn:E.
  - intros [= <- <-]. split; [reflexivity|]. split; [discriminate|].
    intros _. change (digits_value 0 "1") with 1.
    replace (magnitude 400 N D 1 + 1 - 1) with (magnitude 400 N D 1) by lia.
    exact E.
  - intros H. apply shortest_from_spec in H as (-> & A & L & V).
    repeat split; auto.
    + intros ->. cbn [String.length] in L. lia.
    + intros L1. destruct V as [V|V]; [|lia].
      unfold slen in V. rewrite L1 in V. exact V.
Qed.

Lemma append_empty (a b : string) : a +:+ b = "" -> a = "" /\ b = "".
Proof. destruct a; simpl; [auto | discriminate]. Qed.

Lemma zeros_empty (k : nat) : zeros k = "" -> k = 0%nat.
Proof. destruct k; [reflexivity | discriminate]. Qed.

(** The layout of a non-empty numeral starts with a digit. *)
Lemma layout_head (ds : string) (n : Z) :
  ds <> "" -> all_digits ds = true ->
  exists d r, layout ds n = String d r /\ is_digit d = true.
Proof.
  intros Hne Hd. destruct ds as [|d r]; [congruence|].
  simpl in Hd. apply andb_true_iff in Hd as [Hd _].
  unfold layout.
  destruct ((slen (String d r) <=? n) && (n <=? 21)); [simpl; eauto|].
  destruct ((0 <? n) && (n <=? 21)) eqn:B.
  - apply andb_true_iff in B as [B _]. apply Z.ltb_lt in B.
    unfold take_str. destruct (Z.to_nat n) eqn:E; [lia|]. simpl. eauto.
  - destruct ((-6 <? n) && (n <=? 0)); [simpl; eauto|].
    destruct r; simpl; eauto.
Qed.

(** A layout of one character is the one digit of magnitude 1. *)
Lemma layout_single (ds : string) (n : Z) (c : ascii) :
  ds <> "" -> layout ds n = String c "" -> ds = String c "" /\ n = 1.
Proof.
  intros Hne. destruct ds as [|d r]; [congruence|]. unfold layout.
  destruct ((slen (String d r) <=? n) && (n <=? 21)) eqn:A.
  - simpl. intros [= -> H]. apply append_empty in H as [-> H].
    apply zeros_empty in H. apply andb_true_iff in A as [A _].
    apply Z.leb_le in A. unfold slen in *. simpl in *. split; [reflexivity|lia].
  - destruct ((0 <? n) && (n <=? 21)) eqn:B.
    + apply andb_true_iff in B as [B _]. apply Z.ltb_lt in B.
      unfold take_str. destruct (Z.to_nat n) eqn:E; [lia|]. simpl.
      intros [= _ H]. apply append_empty in H as [_ H]. discriminate.
    + destruct ((-6 <? n) && (n <=? 0)); [simpl; discriminate|].
      destruct r; simpl; discriminate.
Qed.

(** A positive Number is its own absolute value. *)
Lemma abs_positive (x : float) m e :
  Prim2SF x = S754_finite false m e -> PrimFloat.abs x = x.
Proof.
  intros H. apply Prim2SF_inj. rewrite abs_spec, H. reflexivity.
Qed.

(** [String(x)] starts with a digit, a minus sign, or is NaN or Infinity. *)
Lemma number_to_string_head (x : float) : numeric_head (number_to_string x) = true.
Proof.
  unfold number_to_string. destruct (Prim2SF x) as [s | s | | s m e] eqn:E;
    try reflexivity; try (destruct s; reflexivity).
  destruct (exact m e) as [N D]. destruct (shortest (PrimFloat.abs x) N D) as [ds n] eqn:S.
  apply shortest_spec in S as (A & Hne & _).
  destruct s; [reflexivity|]. simpl.
  destruct (layout_head ds n Hne A) as (d & r & -> & Hd). simpl. now rewrite Hd.
Qed.

(** A one-digit [String(x)] reads back as [x], the sign of zero apart. *)
Lemma number_to_string_digit (x : float) (c : ascii) :
  number_to_string x = String c "" -> is_digit c = true ->
  (exists s, Prim2SF x = S754_zero s) \/ x = of_decimal false (digit_value c) 0.
Proof.
  unfold number_to_string. destruct (Prim2SF x) as [s | s | | s m e] eqn:E.
  - eauto.
  - destruct s; discriminate.
  - discriminate.
  - destruct (exact m e) as [N D]. destruct (shortest (PrimFloat.abs x) N D) as [ds n] eqn:S.
    apply shortest_spec in S as (A & Hne & V).
    destruct s.
    + simpl. intros [= <- _]. discriminate.
    + simpl. intros H Hc. apply layout_single in H as [-> ->]; [|exact Hne].
      right. specialize (V eq_refl). apply same_value_eq in V.
      rewrite (abs_positive x m e E) in V. rewrite <- V.
      cbn [digits_value]. change (1 - 1) with 0. reflexivity.
Qed.

(** No string of a Number names a property of [Object.prototype]. *)
Lemma numeric_head_not_inherited (s : string) :
  numeric_head s = true -> existsb (String.eqb s) App.inherited = false.
Proof.
  destruct s as [|c r]; [discriminate|]. intros H.
  destruct c as [[] [] [] [] [] [] [] []]; vm_compute in H; try discriminate H; reflexivity.
Qed.

(** The Numbers whose string is one of the keys of [levels]. *)
Lemma number_key_zero (x : float) :
  number_to_string x = "0" -> PrimFloat.eqb x 0%float = true.
Proof.
  intros K. apply number_to_string_digit in K as [Hz | ->]; [|reflexivity|reflexivity].
  now apply eqb_zero.
Qed.

Lemma number_key_one (x : float) :
  number_to_string x = "1" -> PrimFloat.eqb x 0%float = true \/ x = 1%float.
Proof.
  intros K. apply number_to_string_digit in K as [Hz | ->]; [| |reflexivity].
  - left. now apply eqb_zero.
  - right. reflexivity.
Qed.

Lemma number_key_two (x : float) :
  number_to_string x = "2" -> PrimFloat.eqb x 0%float = true \/ x = 2%float.
Proof.
  intros K. apply number_to_string_digit in K as [Hz | ->]; [| |reflexivity].
  - left. now apply eqb_zero.
  - right. reflexivity.
Qed.

End NumberFacts.

(** ** Validation *)

Module ValidationFacts.
Import JS Form NumberFacts.

Section ObjectSchema.

Variable fields : Yup.shape.
Variable data : value.
Hypothesis distinct : NoDup (map fst fields).

(** A key that no kept entry carries is not found. *)
Lemma assoc_omap_None {A} (f : A -> option (string * value)) (l : list A) (k : string) :
  (forall a kv, In a l -> f a = Some kv -> fst kv <> k) -> assoc k (omap f l) = None.
Proof.
  induction l as [|a l IH]; intros H; [reflexivity|]. cbn [omap list_omap].
  destruct (f a) as [[k' v]|] eqn:E.
  - cbn [assoc]. pose proof (H a (k', v) (or_introl eq_refl) E) as Hk. cbn in Hk.
    apply not_eq_sym, String.eqb_neq in Hk. rewrite Hk.
    apply IH. intros b kv Hb. apply H. now right.
  - apply IH. intros b kv Hb. apply H. now right.
Qed.

(** The cast object holds, at a field of the shape, the cast of the field's
    value. *)
Lemma cast_object_get (k : string) (sch : Yup.Schema) :
  In (k, sch) fields ->
  get (Yup.cast_object fields data) k = Yup.cast sch (get data k).
Proof.
  intros Hin. unfold Yup.cast_object, Yup.nodes. cbn [get].
  assert (ND : NoDup (map fst (rev fields)))
    by (rewrite map_rev, <- Permutation_rev; exact distinct).
  apply in_rev in Hin. revert ND Hin. generalize (rev fields).
  induction l as [|[k0 s0] l IH]; intros ND; [intros []|].
  cbn [map fst] in ND. apply NoDup_cons in ND as [Hk0 ND]. rewrite list_elem_of_In in Hk0.
  intros [[= -> ->] | Hin]; cbn [omap list_omap fst snd].
  - assert (R : assoc k (omap (fun kf : string * Yup.Schema =>
                 match Yup.cast (snd kf) (get data (fst kf)) with
                 | VUndefined => None
                 | v => Some (fst kf, v)
                 end) l) = None).
    { apply assoc_omap_None. intros [k1 s1] kv H1. cbn [fst snd].
      intros E <-. apply Hk0. apply in_map_iff. exists (k1, s1). split; [|exact H1].
      destruct (Yup.cast s1 (get data k1)); try discriminate; now inversion E. }
    destruct (Yup.cast sch (get data k)); cbn [assoc]; rewrite ?String.eqb_refl, ?R; reflexivity.
  - assert (Hne : k <> k0).
    { intros ->. apply Hk0. apply in_map_iff. now exists (k0, sch). }
    apply String.eqb_neq in Hne.
    destruct (Yup.cast s0 (get data k0)); cbn [assoc]; rewrite ?Hne; now apply IH.
Qed.

(** The paths with errors are the fields whose schema rejects their value. *)
Lemma field_errors_paths (k : string) :
  In k (map fst (Yup.field_errors fields data)) <->
  exists sch, In (k, sch) fields /\ Yup.failures sch (Yup.cast sch (get data k)) <> [].
Proof.
  unfold Yup.field_errors.
  assert (G : forall l, (forall kf, In kf l -> In kf fields) ->
    (In k (map fst (omap (fun kf : string * Yup.Schema =>
        match Yup.failures (snd kf) (get (Yup.cast_object fields data) (fst kf)) with
        | [] => None
        | errs => Some (fst kf, errs)
        end) l)) <->
     exists sch, In (k, sch) l /\ Yup.failures sch (Yup.cast sch (get data k)) <> [])).
  { induction l as [|[k0 s0] l IH]; intros Hl.
    - cbn. split; [intros [] | intros (? & [] & _)].
    - cbn [omap list_omap fst snd].
      assert (Hl' : forall kf, In kf l -> In kf fields) by (intros; apply Hl; now right).
      specialize (IH Hl').
      rewrite (cast_object_get k0 s0) by (apply Hl; now left).
      destruct (Yup.failures s0 (Yup.cast s0 (get data k0))) as [|e es] eqn:F.
      + rewrite IH. split.
        * intros (sch & Hin & Hf). exists sch. split; [now right|exact Hf].
        * intros (sch & [[= <- <-] | Hin] & Hf); [congruence|]. now exists sch.
      + cbn [map fst]. split.
        * intros [<- | Hin].
          -- exists s0. split; [now left|]. now rewrite F.
          -- apply IH in Hin as (sch & Hin & Hf). exists sch. split; [now right|exact Hf].
        * intros (sch & [[= <- <-] | Hin] & Hf); [now left|].
          right. apply IH. now exists sch. }
  apply G. auto.
Qed.

(** Keeping the first error of each path keeps the paths. *)
Lemma first_errors_paths (errs : list (string * list string)) :
  (map (fun ke : string * list string => (fst ke, hd "" (snd ke))) errs).*1 = map fst errs.
Proof. induction errs as [|e errs IH]; [reflexivity|]. cbn. now rewrite <- IH. Qed.

(** [formState.errors] has an entry exactly at the paths with errors. *)
Lemma resolver_errors_paths (k : string) :
  is_Some (Hook.errors_of (Hook.yupResolver fields data) !! k) <->
  In k (map fst (Yup.field_errors fields data)).
Proof.
  unfold Hook.yupResolver.
  destruct (Yup.field_errors fields data) as [|e es] eqn:E; cbn [Hook.errors_of].
  - rewrite lookup_empty. split; [intros [? ?]; discriminate | intros []].
  - rewrite <- not_eq_None_Some, <- not_elem_of_list_to_map.
    rewrite first_errors_paths, list_elem_of_In.
    destruct (in_dec string_dec k (map fst (e :: es))); tauto.
Qed.

(** The resolver reports no error exactly when no field has one. *)
Lemma resolver_valid :
  Hook.errors_of (Hook.yupResolver fields data) = ∅ <-> Yup.field_errors fields data = [].
Proof.
  split.
  - intros H. destruct (Yup.field_errors fields data) as [|[k e] es] eqn:E; [reflexivity|].
    exfalso. assert (S : is_Some (Hook.errors_of (Hook.yupResolver fields data) !! k)).
    { apply resolver_errors_paths. rewrite E. now left. }
    rewrite H, lookup_empty in S. destruct S; discriminate.
  - intros H. unfold Hook.yupResolver. now rewrite H.
Qed.

End ObjectSchema.

Ltac yup_unfold :=
  unfold Yup.failures, Yup.cast, Yup.run_test, Yup.internal_tests, Yup.is_number; cbn.

(** An integer is not NaN. *)
Lemma isInteger_not_NaN (x : float) : isInteger x = true -> isNaN x = false.
Proof.
  intros H. destruct (isNaN x) eqn:E; [|reflexivity].
  apply isNaN_nan in E. subst x. discriminate H.
Qed.

(** [yup.number().required()] on a text: the cast, the failures of a cast
    Number, and the texts that are valid. *)
Lemma number_cast (t : string) :
  Yup.cast (Yup.required Yup.number) (VStr t) =
    if String.eqb (remove_spaces t) "" then VNum PrimFloat.nan
    else VNum (StringToNumber (remove_spaces t)).
Proof.
  yup_unfold. destruct (String.eqb (remove_spaces t) ""); [reflexivity|].
  destruct (isNaN (StringToNumber (remove_spaces t))) eqn:E; [|reflexivity].
  apply isNaN_nan in E. rewrite E. reflexivity.
Qed.

Lemma number_failures (x : float) :
  Yup.failures (Yup.required Yup.number) (VNum x) = [] <-> isNaN x = false.
Proof.
  destruct (isNaN x) eqn:E.
  - apply isNaN_nan in E. subst x. split; discriminate.
  - yup_unfold. repeat (rewrite E; cbn). split; reflexivity.
Qed.

Lemma number_text_valid (t : string) :
  Yup.failures (Yup.required Yup.number) (Yup.cast (Yup.required Yup.number) (VStr t)) = [] <->
  remove_spaces t <> "" /\ isNaN (StringToNumber (remove_spaces t)) = false.
Proof.
  rewrite number_cast. destruct (String.eqb_spec (remove_spaces t) "") as [E|E].
  - split; [discriminate | intros [H _]; contradiction].
  - rewrite number_failures. tauto.
Qed.

(** [yup.number().integer().required()] on a text. *)
Lemma integer_cast (t : string) :
  Yup.cast (Yup.required (Yup.integer Yup.number)) (VStr t) =
    if String.eqb (remove_spaces t) "" then VNum PrimFloat.nan
    else VNum (StringToNumber (remove_spaces t)).
Proof. exact (number_cast t). Qed.

Lemma integer_failures (x : float) :
  Yup.failures (Yup.required (Yup.integer Yup.number)) (VNum x) = [] <-> isInteger x = true.
Proof.
  destruct (isNaN x) eqn:E.
  - apply isNaN_nan in E. subst x. split; discriminate.
  - yup_unfold. repeat (rewrite E; cbn). destruct (isInteger x); cbn; split; congruence.
Qed.

Lemma integer_text_valid (t : string) :
  Yup.failures (Yup.required (Yup.integer Yup.number))
    (Yup.cast (Yup.required (Yup.integer Yup.number)) (VStr t)) = [] <->
  remove_spaces t <> "" /\ isInteger (StringToNumber (remove_spaces t)) = true.
Proof.
  rewrite integer_cast. destruct (String.eqb_spec (remove_spaces t) "") as [E|E].
  - split; [discriminate | intros [H _]; contradiction].
  - rewrite integer_failures. tauto.
Qed.

(** The schema of [model_name] accepts exactly the five identifiers. *)
Lemma model_name_valid (m : string) :
  let model_schema := Yup.required (Yup.oneOf (map VStr model_names) Yup.string_) in
  Yup.failures model_schema (Yup.cast model_schema (VStr m)) = [] <-> In m model_names.
Proof.
  cbn zeta. unfold model_names.
  destruct (String.eqb_spec m "logreg") as [->|N1]; [split; [intros _; cbn; tauto | reflexivity]|].
  destruct (String.eqb_spec m "randforest") as [->|N2]; [split; [intros _; cbn; tauto | reflexivity]|].
  destruct (String.eqb_spec m "gradboost") as [->|N3]; [split; [intros _; cbn; tauto | reflexivity]|].
  destruct (String.eqb_spec m "svm_rbf") as [->|N4]; [split; [intros _; cbn; tauto | reflexivity]|].
  destruct (String.eqb_spec m "mlp") as [->|N5]; [split; [intros _; cbn; tauto | reflexivity]|].
  split.
  - yup_unfold. apply String.eqb_neq in N1, N2, N3, N4, N5.
    rewrite N1, N2, N3, N4, N5. cbn. discriminate.
  - cbn. intros H. exfalso. intuition congruence.
Qed.

(** The schema of the numeric inputs of [App.tsx] on a text: the transform
    yields a Number, which is not of the schema's type, or [undefined],
    which [required()] refuses. *)
Lemma numeric_text_rejected (t : string) :
  Yup.failures App.numeric_text (Yup.cast App.numeric_text (VStr t)) <> [].
Proof.
  unfold App.numeric_text. yup_unfold. destruct (isNaN (StringToNumber t)); [discriminate|].
  cbn. destruct (isNaN (StringToNumber (number_to_string (StringToNumber t)))); discriminate.
Qed.

(** A text that is not a number fails as a missing value. *)
Lemma numeric_text_NaN (t : string) :
  isNaN (StringToNumber t) = true ->
  Yup.failures App.numeric_text (Yup.cast App.numeric_text (VStr t)) = ["optionality"].
Proof. intros H. unfold App.numeric_text. yup_unfold. rewrite H. reflexivity. Qed.

(** The two shapes name each field once. *)
Lemma App_schema_distinct : NoDup (map fst App.schema).
Proof. apply (bool_decide_unpack _). vm_compute. exact I. Qed.

Lemma Part000_schema_distinct : NoDup (map fst Part000.schema).
Proof. apply (bool_decide_unpack _). vm_compute. exact I. Qed.

(** In a shape that names each field once, a field has one schema, and it
    is valid exactly when that schema has no failure on its value. *)
Lemma schema_of_unique (fields : Yup.shape) (k : string) (a b : Yup.Schema) :
  NoDup (map fst fields) -> In (k, a) fields -> In (k, b) fields -> a = b.
Proof.
  induction fields as [|[k0 s0] l IH]; intros ND; [intros []|].
  cbn [map fst] in ND. apply NoDup_cons in ND as [Hk0 ND]. rewrite list_elem_of_In in Hk0.
  assert (Hin : forall c, In (k0, c) l -> False).
  { intros c Hc. apply Hk0. apply in_map_iff. now exists (k0, c). }
  intros [[= -> ->] | Ha] [[= <-] | Hb]; try reflexivity.
  - now destruct (Hin b).
  - subst. now destruct (Hin a).
  - now apply IH.
Qed.

Lemma valid_at_field (fields : Yup.shape) (data : value) (k : string) (sch : Yup.Schema) :
  NoDup (map fst fields) -> In (k, sch) fields ->
  Hook.valid_at fields data k <-> Yup.failures sch (Yup.cast sch (get data k)) = [].
Proof.
  intros ND Hin. unfold Hook.valid_at.
  rewrite eq_None_not_Some, resolver_errors_paths, field_errors_paths by exact ND.
  split.
  - intros H. destruct (Yup.failures sch (Yup.cast sch (get data k))) eqn:F; [reflexivity|].
    destruct H. exists sch. split; [exact Hin|]. now rewrite F.
  - intros H (sch' & Hin' & F). rewrite (schema_of_unique fields k sch' sch ND Hin' Hin) in F.
    contradiction.
Qed.

End ValidationFacts.

(** ** The submission controller *)

Module ScreenFacts.
Import JS Screen.

Section Controller.

Variable schema : Yup.shape.
Variable payload : value -> value.
Variable disabled_while_loading : bool.
Variable API_BASE : string.

(** What [onSubmit] does once its call has ended: with a JSON body, with a
    rejection, with a body that is not JSON. *)
Lemma resume_response (s : state) (status : Z) (v : value) :
  onSubmit_resume (Response status (Some v)) s =
    (inr tt, {| result := v; loading := false; errors := errors s;
                in_flight := in_flight s; issued := issued s; console := console s;
                published := published s ++ [v] |}).
Proof. reflexivity. Qed.

Lemma resume_rejected (s : state) (err : string) :
  onSubmit_resume (Rejected err) s =
    (inr tt, {| result := result s; loading := false; errors := errors s;
                in_flight := in_flight s; issued := issued s;
                console := console s ++ [err]; published := published s |}).
Proof. reflexivity. Qed.

Lemma resume_not_json (s : state) (status : Z) :
  onSubmit_resume (Response status None) s =
    (inr tt, {| result := result s; loading := false; errors := errors s;
                in_flight := in_flight s; issued := issued s;
                console := console s ++ ["SyntaxError: JSON Parse error"];
                published := published s |}).
Proof. reflexivity. Qed.

(** The end of a call that is in flight, as a step of the component. *)
Lemma settle_response (s : state) (id : nat) (r : request) (status : Z) (v : value) :
  in_flight s !! id = Some r ->
  Screen.step schema payload disabled_while_loading API_BASE s (Settle id (Response status (Some v))) =
    {| result := v; loading := false; errors := errors s;
       in_flight := delete id (in_flight s); issued := issued s; console := console s;
       published := published s ++ [v] |}.
Proof. intros H. cbn [Screen.step]. now rewrite H. Qed.

Lemma settle_failure (s : state) (id : nat) (r : request) (o : outcome) :
  in_flight s !! id = Some r ->
  (forall status v, o <> Response status (Some v)) ->
  exists line,
    Screen.step schema payload disabled_while_loading API_BASE s (Settle id o) =
      {| result := result s; loading := false; errors := errors s;
         in_flight := delete id (in_flight s); issued := issued s;
         console := console s ++ [line]; published := published s |}.
Proof.
  intros H Ho. cbn [Screen.step]. rewrite H.
  destruct o as [err | status [v|]]; [| now destruct (Ho status v) |]; eexists; reflexivity.
Qed.

(** Two calls of [onSubmit] in a row leave two requests in flight. *)
Lemma two_calls (s : state) (d1 d2 : value) :
  Screen.run schema payload disabled_while_loading API_BASE s [Call d1; Call d2] =
    {| result := result s; loading := true; errors := errors s;
       in_flight := <[S (issued s) := Screen.predict payload API_BASE d2]>
                      (<[issued s := Screen.predict payload API_BASE d1]> (in_flight s));
       issued := S (S (issued s)); console := console s; published := published s |}.
Proof. reflexivity. Qed.

(** With two calls outstanding, both responses are published, and the one
    that arrives last stays. *)
Lemma last_response_wins (s : state) (d1 d2 : value) (st1 st2 : Z) (j1 j2 : value) :
  let first := Settle (issued s) (Response st1 (Some j1)) in
  let second := Settle (S (issued s)) (Response st2 (Some j2)) in
  let in_order :=
    Screen.run schema payload disabled_while_loading API_BASE s
      [Call d1; Call d2; first; second] in
  let reversed :=
    Screen.run schema payload disabled_while_loading API_BASE s
      [Call d1; Call d2; second; first] in
  result in_order = j2 /\ published in_order = published s ++ [j1; j2] /\
  result reversed = j1 /\ published reversed = published s ++ [j2; j1].
Proof.
  cbn zeta. unfold Screen.run. cbn [fold_left].
  change (Screen.step schema payload disabled_while_loading API_BASE
            (Screen.step schema payload disabled_while_loading API_BASE s (Call d1)) (Call d2))
    with (Screen.run schema payload disabled_while_loading API_BASE s [Call d1; Call d2]).
  rewrite two_calls. set (r1 := Screen.predict payload API_BASE d1).
  set (r2 := Screen.predict payload API_BASE d2).
  set (s2 := {| result := result s; loading := true |}).
  assert (Ha : in_flight s2 !! issued s = Some r1).
  { cbn. rewrite lookup_insert_ne by lia. apply lookup_insert_eq. }
  assert (Hb : in_flight s2 !! S (issued s) = Some r2).
  { cbn. apply lookup_insert_eq. }
  rewrite (settle_response s2 (issued s) r1 st1 j1 Ha).
  rewrite (settle_response s2 (S (issued s)) r2 st2 j2 Hb).
  erewrite (settle_response _ (S (issued s)) r2 st2 j2);
    [|cbn [in_flight]; rewrite lookup_delete_ne by lia; exact Hb].
  erewrite (settle_response _ (issued s) r1 st1 j1);
    [|cbn [in_flight]; rewrite lookup_delete_ne by lia; exact Ha].
  cbn [result published s2]. rewrite <- !app_assoc. auto.
Qed.

(** A whole submission: [onSubmit] is called and its call ends, with a JSON
    body or without one. *)
Lemma call_then_response (s : state) (data : value) (status : Z) (v : value) :
  let after :=
    Screen.run schema payload disabled_while_loading API_BASE s
      [Call data; Settle (issued s) (Response status (Some v))] in
  result after = v /\ published after = published s ++ [v] /\
  loading after = false /\ console after = console s.
Proof.
  cbn zeta. unfold Screen.run. cbn [fold_left].
  erewrite settle_response; [repeat split|].
  cbn. apply lookup_insert_eq.
Qed.

Lemma call_then_failure (s : state) (data : value) (o : outcome) :
  (forall status v, o <> Response status (Some v)) ->
  let after :=
    Screen.run schema payload disabled_while_loading API_BASE s
      [Call data; Settle (issued s) o] in
  result after = result s /\ published after = published s /\ loading after = false.
Proof.
  intros Ho. cbn zeta. unfold Screen.run. cbn [fold_left].
  edestruct settle_failure as [line ->]; [|exact Ho|repeat split].
  cbn. apply lookup_insert_eq.
Qed.

(** [handleSubmit] with and without validation errors. *)
Lemma handleSubmit_rejected (s : state) (data : value) :
  Hook.errors_of (Hook.yupResolver schema data) <> ∅ ->
  Screen.handleSubmit schema payload API_BASE data s =
    setErrors (Hook.errors_of (Hook.yupResolver schema data)) s.
Proof.
  intros H. unfold Screen.handleSubmit, bind. cbn [setErrors].
  destruct (decide (Hook.errors_of (Hook.yupResolver schema data) = ∅)); [contradiction|].
  reflexivity.
Qed.

Lemma handleSubmit_accepted (s : state) (data : value) :
  Hook.errors_of (Hook.yupResolver schema data) = ∅ ->
  exec (Screen.handleSubmit schema payload API_BASE data) s =
    exec (Screen.onSubmit_call payload API_BASE (Hook.values (Hook.yupResolver schema data)))
         (exec (setErrors ∅) s).
Proof.
  intros H. unfold Screen.handleSubmit, bind, exec. cbn [setErrors]. rewrite H.
  destruct (decide (∅ = ∅)); [reflexivity|contradiction].
Qed.

End Controller.

End ScreenFacts.

(** ** The form of App.tsx *)

Module AppFacts.
Import JS Form NumberFacts ValidationFacts ScreenFacts Screen.

(** In [App.tsx] the transform hands yup's string schema a Number (or
    [undefined]), so every text in a numeric input is rejected, and pressing
    the button never reaches [onSubmit]. *)
Lemma App_form_always_rejected (s : state) (d : FormData) :
  is_Some (Hook.errors_of (Hook.yupResolver App.schema (form_values d)) !! "Bet") /\
  in_flight (exec (App.handleSubmit (form_values d)) s) = in_flight s.
Proof.
  assert (E : is_Some (Hook.errors_of (Hook.yupResolver App.schema (form_values d)) !! "Bet")).
  { apply resolver_errors_paths, field_errors_paths; [apply App_schema_distinct|].
    exists App.numeric_text. split; [cbn; auto|]. apply numeric_text_rejected. }
  split; [exact E|].
  unfold App.handleSubmit, exec. rewrite handleSubmit_rejected; [reflexivity|].
  intros H. rewrite H, lookup_empty in E. destruct E; discriminate.
Qed.

End AppFacts.

(** ** The claims of the specification *)

Import JS Form Examples NumberFacts ValidationFacts ScreenFacts Screen.

(** *** Overlapping submissions *)

(** Claim C1, as the code has it.  No call of [onSubmit] supersedes an
    earlier one: when two calls are outstanding, each response that arrives
    is published with [setResult], so there are two updates of the result
    and the one left on display is the body of the response that arrived
    last, the first submission's when the responses come in the reverse
    order.  This holds in both files.  In [App.tsx] the button is disabled
    while [loading] is set: a press then changes nothing. *)
Theorem overlapping_calls_last_response_wins
  (s : state) (d1 d2 : value) (st1 st2 : Z) (j1 j2 : value) :
  let first := Settle (issued s) (Response st1 (Some j1)) in
  let second := Settle (S (issued s)) (Response st2 (Some j2)) in
  (let in_order := App.run s [Call d1; Call d2; first; second] in
   let reversed := App.run s [Call d1; Call d2; second; first] in
   result in_order = j2 /\ published in_order = published s ++ [j1; j2] /\
   result reversed = j1 /\ published reversed = published s ++ [j2; j1]) /\
  (let in_order := Part000.run s [Call d1; Call d2; first; second] in
   let reversed := Part000.run s [Call d1; Call d2; second; first] in
   result in_order = j2 /\ published in_order = published s ++ [j1; j2] /\
   result reversed = j1 /\ published reversed = published s ++ [j2; j1]) /\
  App.step (exec (setLoading true) s) (Press d2) = exec (setLoading true) s.
Proof.
  cbn zeta. split; [|split].
  - apply (last_response_wins App.schema App.payload true App.API_BASE).
  - apply (last_response_wins Part000.schema Part000.payload false Part000.API_BASE).
  - reflexivity.
Qed.

(** Claim C1 as stated fails.  The button of the earlier version is pressed
    twice (or [onSubmit] of [App.tsx] is called twice) before any response;
    the second response arrives first and the first one last.  The result
    changes twice and ends as the first submission's prediction. *)
Lemma stale_response_replaces_result :
  prediction "0" "0.9" <> prediction "2" "0.8" /\
  result pressed_twice = prediction "0" "0.9" /\
  published pressed_twice = [prediction "2" "0.8"; prediction "0" "0.9"] /\
  result called_twice = prediction "0" "0.9" /\
  published called_twice = [prediction "2" "0.8"; prediction "0" "0.9"].
Proof.
  split.
  - intros H. apply (f_equal (fun v => ToString (get v "cluster"))) in H.
    vm_compute in H. discriminate H.
  - repeat split; vm_compute; reflexivity.
Qed.

(** *** The confidence display *)

(** Claim C2, as the code has it.  Both files display [confidence * 100]
    itself: nothing clamps it.  For a result with a numeric cluster and a
    numeric confidence, the text is that percentage with one decimal
    ([App.tsx]) or two (the earlier version) and the bar of [App.tsx] has
    that percentage as its width.  The percentage equals the clamped one
    exactly when it is neither below 0 nor above 100. *)
Theorem confidence_percent_unclamped (r : value) (c x : float) :
  get r "cluster" = VNum c -> get r "confidence" = VNum x ->
  let p := PrimFloat.mul x 100%float in
  App.confidencePercent r = Some p /\
  Part000.confidencePercent r = Some p /\
  option_map App.confidenceText (App.resultCard r) = Some (toFixed p 1 +:+ "%") /\
  option_map App.barWidth (App.resultCard r) = Some (number_to_string p +:+ "%") /\
  Part000.confidenceText r = Some (toFixed p 2 +:+ "%") /\
  (p = Spec.clampPercent p <->
   PrimFloat.ltb p 0%float = false /\ PrimFloat.ltb 100%float p = false).
Proof.
  intros Hc Hx. cbn zeta.
  assert (T : ToBoolean r = true) by (destruct r; try discriminate Hc; reflexivity).
  unfold App.resultCard, Part000.confidenceText, App.confidencePercent,
    Part000.confidencePercent, App.getRiskLevel.
  rewrite T, Hc, Hx. cbn [coerces child_text ToNumber option_map App.confidenceText
                           App.barWidth].
  repeat (split; [reflexivity|]).
  generalize (PrimFloat.mul x 100%float). intros p. unfold Spec.clampPercent.
  destruct (PrimFloat.ltb p 0%float) eqn:A.
  - split; [|intros [H _]; discriminate H].
    intros ->. discriminate A.
  - destruct (PrimFloat.ltb 100%float p) eqn:B.
    + split; [|intros [_ H]; discriminate H].
      intros ->. discriminate B.
    + split; auto.
Qed.

(** The prediction with cluster 2 and confidence 0.5. *)
Lemma confidence_of_prediction_shown :
  get (prediction "2" "0.5") "cluster" = VNum 2%float /\
  get (prediction "2" "0.5") "confidence" = VNum 0.5%float /\
  option_map App.confidenceText (App.resultCard (prediction "2" "0.5")) = Some "50.0%" /\
  Part000.confidenceText (prediction "2" "0.5") = Some "50.00%".
Proof.
  assert (Hc : get (prediction "2" "0.5") "cluster" = VNum 2%float)
    by (vm_compute; reflexivity).
  assert (Hx : get (prediction "2" "0.5") "confidence" = VNum 0.5%float)
    by (vm_compute; reflexivity).
  split; [exact Hc|]. split; [exact Hx|].
  destruct (confidence_percent_unclamped (prediction "2" "0.5") 2%float 0.5%float Hc Hx)
    as (_ & _ & A & _ & P & _).
  cbn zeta in A, P. rewrite A, P. split; vm_compute; reflexivity.
Defined.

(** Claim C2 as stated fails.  For the prediction with cluster 2 and
    confidence 1.4 the percentage is 140, shown as "140.0%" over a bar of
    width "140%" (and as "140.00%" in the earlier version), where the
    clamped value is 100; a confidence of -0.2 is shown as "-20.0%". *)
Lemma confidence_above_one_shown_unclamped :
  Spec.is_prediction_result (prediction "2" "1.4") = true /\
  App.confidencePercent (prediction "2" "1.4") = Some 140%float /\
  Spec.clampPercent 140%float = 100%float /\
  option_map App.confidenceText (App.resultCard (prediction "2" "1.4")) = Some "140.0%" /\
  option_map App.barWidth (App.resultCard (prediction "2" "1.4")) = Some "140%" /\
  Part000.confidenceText (prediction "2" "1.4") = Some "140.00%" /\
  option_map App.confidenceText (App.resultCard (prediction "0" "-0.2")) = Some "-20.0%".
Proof. repeat split; vm_compute; reflexivity. Qed.

(** *** The risk level *)

(** Claim C3.  [getRiskLevel] is a function of the cluster alone, defined on
    every Number: 0 (of either sign) gives "Low Risk", 1 gives "Medium
    Risk", 2 gives "High Risk" and every other Number, NaN and the
    infinities included, gives "Unknown", each with its two colours. *)
Theorem getRiskLevel_by_cluster (x : float) :
  App.getRiskLevel (VNum x) =
    Some (if PrimFloat.eqb x 0%float
          then VObj [("label", VStr "Low Risk"); ("color", VStr "#4CAF50");
                     ("bg", VStr "#E8F5E8")]
          else if PrimFloat.eqb x 1%float
          then VObj [("label", VStr "Medium Risk"); ("color", VStr "#FF9800");
                     ("bg", VStr "#FFF3E0")]
          else if PrimFloat.eqb x 2%float
          then VObj [("label", VStr "High Risk"); ("color", VStr "#F44336");
                     ("bg", VStr "#FFEBEE")]
          else VObj [("label", VStr "Unknown"); ("color", VStr "#757575");
                     ("bg", VStr "#F5F5F5")]).
Proof.
  destruct (PrimFloat.eqb x 0%float) eqn:Z0.
  - apply eqb_zero in Z0 as [s Hs].
    unfold App.getRiskLevel, ToString, number_to_string. rewrite Hs. reflexivity.
  - destruct (PrimFloat.eqb x 1%float) eqn:Z1.
    { apply (eqb_finite_eq x 1%float _ _ _ eq_refl) in Z1. subst x. reflexivity. }
    destruct (PrimFloat.eqb x 2%float) eqn:Z2.
    { apply (eqb_finite_eq x 2%float _ _ _ eq_refl) in Z2. subst x. reflexivity. }
    assert (K0 : number_to_string x <> "0").
    { intros K. apply number_key_zero in K. congruence. }
    assert (K1 : number_to_string x <> "1").
    { intros K. apply number_key_one in K as [K | ->]; [congruence|]. discriminate Z1. }
    assert (K2 : number_to_string x <> "2").
    { intros K. apply number_key_two in K as [K | ->]; [congruence|]. discriminate Z2. }
    unfold App.getRiskLevel, App.levels_at, App.levels. cbn [coerces ToString assoc].
    apply String.eqb_neq in K0, K1, K2. rewrite K0, K1, K2.
    rewrite numeric_head_not_inherited by apply number_to_string_head.
    reflexivity.
Qed.

(** *** Responses *)

(** Claim C4, as the code has it.  When the call ends with a response whose
    body is JSON, [onSubmit] publishes the body as the result, whatever the
    status and the shape of the body; nothing is logged and the handler
    ends normally.  So does a whole submission, from any state.  A response whose body is not JSON leaves the result as
    it was and is logged, whatever the status.  The two files share this
    code. *)
Theorem json_body_published (s : state) (data : value) (status : Z) (body : value) :
  let after := exec (App.onSubmit_resume (Response status (Some body))) s in
  let unread := exec (App.onSubmit_resume (Response status None)) s in
  let whole := App.run s [Call data; Settle (issued s) (Response status (Some body))] in
  let whole' := Part000.run s [Call data; Settle (issued s) (Response status (Some body))] in
  (result whole = body /\ published whole = published s ++ [body]) /\
  (result whole' = body /\ published whole' = published s ++ [body]) /\
  App.onSubmit_resume = Part000.onSubmit_resume /\
  fst (App.onSubmit_resume (Response status (Some body)) s) = inr tt /\
  result after = body /\ published after = published s ++ [body] /\
  loading after = false /\ console after = console s /\ errors after = errors s /\
  result unread = result s /\ published unread = published s /\
  console unread = console s ++ ["SyntaxError: JSON Parse error"].
Proof.
  cbn zeta. split; [|split].
  - split; apply (call_then_response App.schema App.payload true App.API_BASE).
  - split; apply (call_then_response Part000.schema Part000.payload false Part000.API_BASE).
  - repeat split.
Qed.

(** Claim C4 as stated fails.  A response with status 500 and the body
    [{cluster: "high"}] becomes the result and is shown with the level
    "Unknown"; in the earlier version a body without [confidence] becomes
    the result, which [App.tsx] would show as "High Risk". *)
Lemma malformed_body_published :
  Spec.is_prediction_result cluster_as_text = false /\
  result server_error = cluster_as_text /\ console server_error = [] /\
  option_map (fun c => get (App.badge c) "label") (App.resultCard (result server_error))
    = Some (VStr "Unknown") /\
  Spec.is_prediction_result cluster_only = false /\
  result missing_confidence = cluster_only /\
  option_map (fun c => get (App.badge c) "label") (App.resultCard cluster_only)
    = Some (VStr "High Risk").
Proof. repeat split; vm_compute; reflexivity. Qed.

(** *** Validation of the inputs *)

(** Claim C5, as the code has it.  There is no finiteness check.  In the
    earlier version each of the four amounts is valid exactly when its
    text, all white space removed, is not empty and converts to a Number
    that is not NaN, the infinities included.  In [App.tsx] the empty text
    and a text that converts to NaN are rejected. *)
Theorem amount_validation (d : FormData) (k : string) :
  In k amount_fields ->
  (Hook.valid_at Part000.schema (form_values d) k <->
     remove_spaces (text_of d k) <> "" /\
     isNaN (StringToNumber (remove_spaces (text_of d k))) = false) /\
  (isNaN (StringToNumber (text_of d k)) = true \/ text_of d k = "" ->
     ~ Hook.valid_at App.schema (form_values d) k).
Proof.
  intros Hk.
  assert (P : In (k, Yup.required Yup.number) Part000.schema)
    by (destruct Hk as [<- | [<- | [<- | [<- | []]]]]; cbn; auto 10).
  assert (A : In (k, App.numeric_text) App.schema)
    by (destruct Hk as [<- | [<- | [<- | [<- | []]]]]; cbn; auto 10).
  assert (G : get (form_values d) k = VStr (text_of d k))
    by (destruct Hk as [<- | [<- | [<- | [<- | []]]]]; reflexivity).
  split.
  - rewrite (valid_at_field _ _ k _ Part000_schema_distinct P), G.
    apply number_text_valid.
  - intros _. rewrite (valid_at_field _ _ k _ App_schema_distinct A), G.
    apply numeric_text_rejected.
Qed.

(** The bet "12.5" is one of the amounts. *)
Lemma amount_validation_witness :
  In "Bet" amount_fields /\
  (Hook.valid_at Part000.schema (form_values (with_Bet "12.5")) "Bet" <->
     remove_spaces (text_of (with_Bet "12.5") "Bet") <> "" /\
     isNaN (StringToNumber (remove_spaces (text_of (with_Bet "12.5") "Bet"))) = false) /\
  (isNaN (StringToNumber (text_of (with_Bet "12.5") "Bet")) = true
   \/ text_of (with_Bet "12.5") "Bet" = "" ->
     ~ Hook.valid_at App.schema (form_values (with_Bet "12.5")) "Bet").
Proof.
  assert (H : In "Bet" amount_fields) by (simpl; auto).
  split; [exact H|]. exact (amount_validation (with_Bet "12.5") "Bet" H).
Defined.

(** Claim C5 as stated fails.  The bet "Infinity" converts to the Number
    Infinity, which is not finite, and the earlier version accepts it. *)
Lemma infinite_bet_accepted :
  Hook.valid_at Part000.schema (form_values (with_Bet "Infinity")) "Bet" /\
  Spec.finite_real_text "Infinity" = false /\
  StringToNumber "Infinity" = PrimFloat.infinity.
Proof. split; [vm_compute; reflexivity|]. split; vm_compute; reflexivity. Qed.

(** Claim C6, as the code has it.  No rule asks for a number of games that
    is at least 0.  In the earlier version the field is valid exactly when
    its text, all white space removed, is not empty and converts to an
    integer, of either sign.  In [App.tsx] the field has the schema of the
    bet, with no rule about integers. *)
Theorem total_games_validation (d : FormData) :
  (Hook.valid_at Part000.schema (form_values d) "TotalGames" <->
     remove_spaces (TotalGames d) <> "" /\
     isInteger (StringToNumber (remove_spaces (TotalGames d))) = true) /\
  Yup.field App.schema "TotalGames" = Yup.field App.schema "Bet".
Proof.
  split; [|reflexivity].
  rewrite (valid_at_field _ _ "TotalGames" (Yup.required (Yup.integer Yup.number))
             Part000_schema_distinct) by (cbn; auto 10).
  apply integer_text_valid.
Qed.

(** Claim C6 as stated fails.  The earlier version accepts "-3" games. *)
Lemma negative_games_accepted :
  Hook.valid_at Part000.schema (form_values (with_TotalGames "-3")) "TotalGames" /\
  Spec.nonneg_integer_text "-3" = false.
Proof. split; vm_compute; reflexivity. Qed.

(** Claim C7.  When the model name is not one of the five identifiers,
    [handleSubmit] sends nothing: no [fetch] call is issued, the result and
    the loading flag stay as they were, and the form's errors hold an entry
    for [model_name].  This holds in both files. *)
Theorem unknown_model_not_sent (s : state) (d : FormData) :
  ~ In (model_name d) model_names ->
  let after := exec (App.handleSubmit (form_values d)) s in
  let after' := exec (Part000.handleSubmit (form_values d)) s in
  (in_flight after = in_flight s /\ issued after = issued s /\
   result after = result s /\ loading after = loading s /\
   is_Some (errors after !! "model_name")) /\
  (in_flight after' = in_flight s /\ issued after' = issued s /\
   result after' = result s /\ loading after' = loading s /\
   is_Some (errors after' !! "model_name")).
Proof.
  intros Hm. cbn zeta.
  assert (F : Yup.failures (Yup.required (Yup.oneOf (map VStr model_names) Yup.string_))
                (Yup.cast (Yup.required (Yup.oneOf (map VStr model_names) Yup.string_))
                   (get (form_values d) "model_name")) <> []).
  { intros E. apply Hm. now apply model_name_valid. }
  assert (EA : is_Some (Hook.errors_of (Hook.yupResolver App.schema (form_values d))
                          !! "model_name")).
  { apply resolver_errors_paths, field_errors_paths; [apply App_schema_distinct|].
    eexists. split; [|exact F]. cbn; auto 10. }
  assert (EP : is_Some (Hook.errors_of (Hook.yupResolver Part000.schema (form_values d))
                          !! "model_name")).
  { apply resolver_errors_paths, field_errors_paths; [apply Part000_schema_distinct|].
    eexists. split; [|exact F]. cbn; auto 10. }
  unfold App.handleSubmit, Part000.handleSubmit, exec.
  rewrite !handleSubmit_rejected.
  - cbn [setErrors snd in_flight issued result loading errors]. auto 10.
  - intros E. rewrite E, lookup_empty in EP. destruct EP; discriminate.
  - intros E. rewrite E, lookup_empty in EA. destruct EA; discriminate.
Qed.

(** The model name "bogus", submitted from the initial state. *)
Lemma bogus_model_not_sent :
  ~ In (model_name (with_model_name "bogus")) model_names /\
  (in_flight (exec (App.handleSubmit (form_values (with_model_name "bogus"))) initial)
     = in_flight initial /\
   issued (exec (App.handleSubmit (form_values (with_model_name "bogus"))) initial)
     = issued initial /\
   result (exec (App.handleSubmit (form_values (with_model_name "bogus"))) initial)
     = result initial /\
   loading (exec (App.handleSubmit (form_values (with_model_name "bogus"))) initial)
     = loading initial /\
   is_Some (errors (exec (App.handleSubmit (form_values (with_model_name "bogus"))) initial)
              !! "model_name")) /\
  (in_flight (exec (Part000.handleSubmit (form_values (with_model_name "bogus"))) initial)
     = in_flight initial /\
   issued (exec (Part000.handleSubmit (form_values (with_model_name "bogus"))) initial)
     = issued initial /\
   result (exec (Part000.handleSubmit (form_values (with_model_name "bogus"))) initial)
     = result initial /\
   loading (exec (Part000.handleSubmit (form_values (with_model_name "bogus"))) initial)
     = loading initial /\
   is_Some (errors (exec (Part000.handleSubmit (form_values (with_model_name "bogus"))) initial)
              !! "model_name")).
Proof.
  assert (H : ~ In (model_name (with_model_name "bogus")) model_names).
  { simpl. intros [H | [H | [H | [H | [H | []]]]]]; discriminate H. }
  split; [exact H|]. exact (unknown_model_not_sent initial (with_model_name "bogus") H).
Defined.

(** Claim C8, as the code has it.  The resolver validates with
    [abortEarly: false]: the errors it reports are at exactly the fields
    whose own schema rejects their value, all of them and no other.  The
    rules are the schemas' (the code's), not those of section 4.1. *)
Theorem errors_are_rejected_fields (d : FormData) (k : string) :
  (is_Some (Hook.errors_of (Hook.yupResolver App.schema (form_values d)) !! k) <->
   exists sch, In (k, sch) App.schema /\
               Yup.failures sch (Yup.cast sch (get (form_values d) k)) <> []) /\
  (is_Some (Hook.errors_of (Hook.yupResolver Part000.schema (form_values d)) !! k) <->
   exists sch, In (k, sch) Part000.schema /\
               Yup.failures sch (Yup.cast sch (get (form_values d) k)) <> []).
Proof.
  split.
  - rewrite resolver_errors_paths. apply field_errors_paths, App_schema_distinct.
  - rewrite resolver_errors_paths. apply field_errors_paths, Part000_schema_distinct.
Qed.

(** Claim C8 as stated fails.  With the bet "abc" and "-3" games, the fields
    malformed by the rules of section 4.1 are [Bet] and [TotalGames]; the
    fields with an error are not these two, in either file. *)
Lemma errors_differ_from_malformed :
  Spec.malformed two_bad_fields = ["Bet"; "TotalGames"] /\
  ~ (forall k, is_Some (Hook.errors_of (Hook.yupResolver App.schema
                                          (form_values two_bad_fields)) !! k)
               <-> In k (Spec.malformed two_bad_fields)) /\
  ~ (forall k, is_Some (Hook.errors_of (Hook.yupResolver Part000.schema
                                          (form_values two_bad_fields)) !! k)
               <-> In k (Spec.malformed two_bad_fields)).
Proof.
  split; [vm_compute; reflexivity|]. split.
  - intros H. specialize (H "TotalProfit"). destruct H as [H _].
    assert (S : is_Some (Hook.errors_of (Hook.yupResolver App.schema
                           (form_values two_bad_fields)) !! "TotalProfit"))
      by (vm_compute; eauto).
    apply H in S. vm_compute in S. intuition discriminate.
  - intros H. specialize (H "TotalGames"). destruct H as [_ H].
    assert (S : In "TotalGames" (Spec.malformed two_bad_fields)) by (vm_compute; auto).
    apply H in S. vm_compute in S. destruct S as [x S]. discriminate S.
Qed.

(** *** The request *)

(** The request of [App.tsx]: a POST to [API_BASE/predict] with the JSON
    content type, whose body holds the six keys of the form, each numeric
    one with the Number of its text. *)
Lemma App_request (d : FormData) :
  App.predict (form_values d) =
    {| url := "https://YOUR_NGROK_URL.ngrok-free.app/predict";
       method := "POST";
       headers := [("Content-Type", "application/json")];
       body := Some (VObj [("Bet", json_number (StringToNumber (Bet d)));
                           ("TotalGames", json_number (StringToNumber (TotalGames d)));
                           ("TotalProfit", json_number (StringToNumber (TotalProfit d)));
                           ("TotalLosses", json_number (StringToNumber (TotalLosses d)));
                           ("CashedOut", json_number (StringToNumber (CashedOut d)));
                           ("model_name", VStr (model_name d))]) |}.
Proof. reflexivity. Qed.

(** Claim C9 at a number of games written "1e21".  Every field is well
    formed by section 4.1 and the earlier version accepts the form; yup
    casts the text to the Number 1e21, [parseInt] reads the string "1e+21"
    of that Number up to the [e], and the body carries [TotalGames: 1].
    The same happens when the number is written with its 22 digits.
    [App.tsx] converts with [Number] and would send 1e21. *)
Lemma exponent_games_truncated :
  Spec.malformed (with_TotalGames "1e21") = [] /\
  StringToNumber "1e21" = 1e21%float /\
  option_map (fun b => get b "TotalGames") (exponent_games ≫= body)
    = Some (VNum 1%float) /\
  Spec.malformed (with_TotalGames "1000000000000000000000") = [] /\
  option_map (fun b => get b "TotalGames") (long_games ≫= body)
    = Some (VNum 1%float) /\
  option_map (fun b => get b "TotalGames")
             (body (App.predict (form_values (with_TotalGames "1e21"))))
    = Some (VNum 1e21%float).
Proof. repeat split; vm_compute; reflexivity. Qed.

(** *** Failed calls *)

(** Claim C10.  When the [fetch] call rejects, or the body of the response
    is not JSON, [onSubmit] leaves the result as it was (and publishes
    nothing), logs the error, clears the loading flag and ends normally:
    the error does not leave the handler.  A whole submission whose call
    rejects leaves the result of the state it started from.  The two files
    share this code. *)
Theorem failed_call_keeps_result (s : state) (data : value) (err : string) (status : Z) :
  let thrown := App.onSubmit_resume (Rejected err) s in
  let unreadable := App.onSubmit_resume (Response status None) s in
  let whole := App.run s [Call data; Settle (issued s) (Rejected err)] in
  let whole' := Part000.run s [Call data; Settle (issued s) (Rejected err)] in
  (result whole = result s /\ published whole = published s /\ loading whole = false) /\
  (result whole' = result s /\ published whole' = published s /\ loading whole' = false) /\
  (fst thrown = inr tt /\ result (snd thrown) = result s /\
   published (snd thrown) = published s /\ errors (snd thrown) = errors s /\
   console (snd thrown) = console s ++ [err] /\ loading (snd thrown) = false) /\
  (fst unreadable = inr tt /\ result (snd unreadable) = result s /\
   published (snd unreadable) = published s /\ errors (snd unreadable) = errors s /\
   loading (snd unreadable) = false) /\
  Part000.onSubmit_resume = App.onSubmit_resume.
Proof.
  cbn zeta. split; [|split].
  - apply (call_then_failure App.schema App.payload true App.API_BASE). discriminate.
  - apply (call_then_failure Part000.schema Part000.payload false Part000.API_BASE).
    discriminate.
  - repeat split.
Qed.

(** * Further properties of the two files *)

#[local] Arguments JS.parseInt10 : simpl never.

(** ** Objects and the request body *)

Module ObjectFacts.
Import JS.

(** Reading a property after writing it, and after writing another one. *)
Lemma assoc_set_prop_eq (k : string) (v : value) (props : list (string * value)) :
  assoc k (set_prop k v props) = Some v.
Proof.
  induction props as [|[k' v'] r IH]; cbn [set_prop assoc].
  - now rewrite String.eqb_refl.
  - destruct (String.eqb k k') eqn:E; cbn [assoc]; rewrite E; auto.
Qed.

Lemma assoc_set_prop_ne (k k' : string) (v : value) (props : list (string * value)) :
  k <> k' -> assoc k (set_prop k' v props) = assoc k props.
Proof.
  intros H. apply String.eqb_neq in H.
  induction props as [|[k0 v0] r IH]; cbn [set_prop assoc].
  - now rewrite H.
  - destruct (String.eqb k' k0) eqn:E; cbn [assoc].
    + apply String.eqb_eq in E. subst k0. now rewrite H.
    + now rewrite IH.
Qed.

(** A property that holds a Number is written to the JSON document under
    its key. *)
Lemma assoc_stringify_number (k : string) (x : float) (props : list (string * value)) :
  assoc k props = Some (VNum x) ->
  assoc k (omap (fun kv : string * value =>
                   match JSON_stringify (snd kv) with
                   | Some d => Some (fst kv, d)
                   | None => None
                   end) props) = Some (json_number x).
Proof.
  induction props as [|[k0 v0] r IH]; cbn [assoc]; [discriminate|].
  cbn [omap list_omap fst snd].
  destruct (String.eqb k k0) eqn:E.
  - intros [= ->]. cbn [JSON_stringify assoc]. now rewrite E.
  - intros H. destruct (JSON_stringify v0); cbn [assoc]; rewrite ?E; auto.
Qed.

(** A Number in a JSON document is finite; NaN and the infinities are
    written [null]. *)
Lemma json_number_cases (x : float) :
  (isFinite x = false /\ json_number x = VNull) \/
  (isFinite x = true /\ exists y, json_number x = VNum y /\ isFinite y = true).
Proof.
  unfold json_number, isFinite. destruct (PrimFloat.is_finite x) eqn:F; [right|left; auto].
  split; [reflexivity|].
  destruct (PrimFloat.is_zero x); eexists; split; eauto.
Qed.

(** The body of the request at a numeric key, in each file. *)
Lemma App_body_at (data : value) (k : string) :
  In k ["Bet"; "TotalGames"; "TotalProfit"; "TotalLosses"; "CashedOut"] ->
  option_map (fun b => get b k) (Screen.body (App.predict data))
    = Some (json_number (ToNumber (get data k))).
Proof.
  intros Hk. unfold App.predict, Screen.predict, App.payload, spread_with.
  cbn [Screen.body fold_left fst snd JSON_stringify option_map get]. f_equal.
  erewrite assoc_stringify_number; [reflexivity|].
  destruct Hk as [<- | [<- | [<- | [<- | [<- | []]]]]];
    repeat first [rewrite assoc_set_prop_eq | rewrite assoc_set_prop_ne by discriminate];
    reflexivity.
Qed.

Lemma Part000_body_at (data : value) (k : string) :
  In k ["Bet"; "TotalProfit"; "TotalLosses"; "CashedOut"] ->
  option_map (fun b => get b k) (Screen.body (Part000.predict data))
    = Some (json_number (parseFloat (ToString (get data k)))).
Proof.
  intros Hk. unfold Part000.predict, Screen.predict, Part000.payload, spread_with.
  cbn [Screen.body fold_left fst snd JSON_stringify option_map get]. f_equal.
  erewrite assoc_stringify_number; [reflexivity|].
  destruct Hk as [<- | [<- | [<- | [<- | []]]]];
    repeat first [rewrite assoc_set_prop_eq | rewrite assoc_set_prop_ne by discriminate];
    reflexivity.
Qed.

Lemma Part000_body_at_TotalGames (data : value) :
  option_map (fun b => get b "TotalGames") (Screen.body (Part000.predict data))
    = Some (json_number (parseInt10 (ToString (get data "TotalGames")))).
Proof.
  unfold Part000.predict, Screen.predict, Part000.payload, spread_with.
  cbn [Screen.body fold_left fst snd JSON_stringify option_map get]. f_equal.
  erewrite assoc_stringify_number; [reflexivity|].
  repeat first [rewrite assoc_set_prop_eq | rewrite assoc_set_prop_ne by discriminate];
    reflexivity.
Qed.

End ObjectFacts.

(** ** The forms that the resolver accepts *)

Module FormFacts.
Import JS Form NumberFacts ValidationFacts ScreenFacts Screen ObjectFacts.

(** The resolver reports no error exactly when no field of the shape has a
    failure on its value. *)
Lemma resolver_accepts_iff (fields : Yup.shape) (data : value) :
  NoDup (map fst fields) ->
  Hook.errors_of (Hook.yupResolver fields data) = ∅ <->
  Forall (fun kf => Yup.failures (snd kf) (Yup.cast (snd kf) (get data (fst kf))) = []) fields.
Proof.
  intros ND. rewrite resolver_valid, Forall_forall. split.
  - intros E [k sch] Hin. apply list_elem_of_In in Hin. cbn [fst snd].
    destruct (Yup.failures sch (Yup.cast sch (get data k))) eqn:F; [reflexivity|].
    assert (I : In k (map fst (Yup.field_errors fields data))).
    { apply field_errors_paths; [exact ND|]. exists sch. split; [exact Hin|]. now rewrite F. }
    rewrite E in I. destruct I.
  - intros H. destruct (Yup.field_errors fields data) as [|[k e] es] eqn:E; [reflexivity|].
    assert (I : In k (map fst (Yup.field_errors fields data))) by (rewrite E; now left).
    apply field_errors_paths in I as (sch & Hin & F); [|exact ND].
    destruct F. apply (H (k, sch)). now apply list_elem_of_In.
Qed.

(** The forms that the earlier version accepts. *)
Lemma Part000_accepts_iff (d : FormData) :
  Hook.errors_of (Hook.yupResolver Part000.schema (form_values d)) = ∅ <->
  Forall (fun k => remove_spaces (text_of d k) <> "" /\
                   isNaN (StringToNumber (remove_spaces (text_of d k))) = false)
         amount_fields /\
  (remove_spaces (TotalGames d) <> "" /\
   isInteger (StringToNumber (remove_spaces (TotalGames d))) = true) /\
  In (model_name d) model_names.
Proof.
  rewrite (resolver_accepts_iff _ _ Part000_schema_distinct).
  unfold Part000.schema, amount_fields. rewrite !Forall_cons, !Forall_nil.
  cbn [fst snd].
  change (get (form_values d) "Bet") with (VStr (Bet d)).
  change (get (form_values d) "TotalGames") with (VStr (TotalGames d)).
  change (get (form_values d) "TotalProfit") with (VStr (TotalProfit d)).
  change (get (form_values d) "TotalLosses") with (VStr (TotalLosses d)).
  change (get (form_values d) "CashedOut") with (VStr (CashedOut d)).
  change (get (form_values d) "model_name") with (VStr (model_name d)).
  change (text_of d "Bet") with (Bet d).
  change (text_of d "TotalProfit") with (TotalProfit d).
  change (text_of d "TotalLosses") with (TotalLosses d).
  change (text_of d "CashedOut") with (CashedOut d).
  rewrite !number_text_valid, integer_text_valid.
  pose proof (model_name_valid (model_name d)) as M. cbn zeta in M. rewrite M.
  tauto.
Qed.

(** What yup casts an accepted form to: the Number of each numeric text
    without its white space, and the model name. *)
Lemma Part000_cast_values (d : FormData) :
  Hook.errors_of (Hook.yupResolver Part000.schema (form_values d)) = ∅ ->
  Hook.values (Hook.yupResolver Part000.schema (form_values d)) =
    VObj [("model_name", VStr (model_name d));
          ("CashedOut", VNum (StringToNumber (remove_spaces (CashedOut d))));
          ("TotalLosses", VNum (StringToNumber (remove_spaces (TotalLosses d))));
          ("TotalProfit", VNum (StringToNumber (remove_spaces (TotalProfit d))));
          ("TotalGames", VNum (StringToNumber (remove_spaces (TotalGames d))));
          ("Bet", VNum (StringToNumber (remove_spaces (Bet d))))].
Proof.
  intros H.
  assert (V : Hook.values (Hook.yupResolver Part000.schema (form_values d))
              = Yup.cast_object Part000.schema (form_values d)).
  { apply resolver_valid in H.
    unfold Hook.yupResolver. now rewrite H. }
  rewrite V. apply Part000_accepts_iff in H as (A & (G & _) & _).
  unfold amount_fields in A. rewrite !Forall_cons in A.
  destruct A as ((B & _) & (P & _) & (L & _) & (C & _) & _).
  change (text_of d "Bet") with (Bet d) in B.
  change (text_of d "TotalProfit") with (TotalProfit d) in P.
  change (text_of d "TotalLosses") with (TotalLosses d) in L.
  change (text_of d "CashedOut") with (CashedOut d) in C.
  apply String.eqb_neq in B, P, L, C, G.
  unfold Yup.cast_object, Yup.nodes, Part000.schema.
  cbn [rev app omap list_omap fst snd].
  change (get (form_values d) "Bet") with (VStr (Bet d)).
  change (get (form_values d) "TotalGames") with (VStr (TotalGames d)).
  change (get (form_values d) "TotalProfit") with (VStr (TotalProfit d)).
  change (get (form_values d) "TotalLosses") with (VStr (TotalLosses d)).
  change (get (form_values d) "CashedOut") with (VStr (CashedOut d)).
  change (get (form_values d) "model_name") with (VStr (model_name d)).
  rewrite !number_cast, integer_cast, B, P, L, C, G. reflexivity.
Qed.

(** In [App.tsx] the resolver accepts no form. *)
Lemma App_resolver_rejects (d : FormData) :
  Hook.errors_of (Hook.yupResolver App.schema (form_values d)) <> ∅.
Proof.
  intros H. apply (resolver_accepts_iff _ _ App_schema_distinct) in H.
  unfold App.schema in H. rewrite Forall_cons in H. destruct H as [H _].
  revert H. apply numeric_text_rejected.
Qed.

(** The errors after [handleSubmit] are the resolver's, and [handleSubmit]
    leaves the result, the console and the history of results alone. *)
Lemma handleSubmit_errors (schema : Yup.shape) (payload : value -> value) (base : string)
    (s : state) (data : value) :
  let after := exec (Screen.handleSubmit schema payload base data) s in
  errors after = Hook.errors_of (Hook.yupResolver schema data) /\
  result after = result s /\ console after = console s /\ published after = published s.
Proof.
  cbn zeta. unfold Screen.handleSubmit, bind, exec. cbn [setErrors].
  destruct (decide (Hook.errors_of (Hook.yupResolver schema data) = ∅)); repeat split.
Qed.

End FormFacts.

(** ** Runs of the component *)

Module RunFacts.
Import JS Screen ScreenFacts FormFacts.

Section Controller.

Variable schema : Yup.shape.
Variable payload : value -> value.
Variable disabled_while_loading : bool.
Variable API_BASE : string.

(** Only the end of a call with a JSON body changes the result. *)
Lemma step_result (s : state) (e : event) :
  result (Screen.step schema payload disabled_while_loading API_BASE s e) = result s \/
  exists id status v,
    e = Settle id (Response status (Some v)) /\
    result (Screen.step schema payload disabled_while_loading API_BASE s e) = v.
Proof.
  destruct e as [data | data | id o]; cbn [Screen.step].
  - left. destruct (disabled_while_loading && loading s); [reflexivity|].
    apply handleSubmit_errors.
  - left. reflexivity.
  - destruct (in_flight s !! id) eqn:L; [|now left].
    destruct o as [err | status [v|]]; [now left | | now left].
    right. exists id, status, v. split; reflexivity.
Qed.

Lemma run_result (es : list event) : forall s,
  result (Screen.run schema payload disabled_while_loading API_BASE s es) = result s \/
  exists id status v,
    In (Settle id (Response status (Some v))) es /\
    result (Screen.run schema payload disabled_while_loading API_BASE s es) = v.
Proof.
  induction es as [|e es IH]; intros s; [now left|].
  unfold Screen.run. cbn [fold_left].
  destruct (IH (Screen.step schema payload disabled_while_loading API_BASE s e))
    as [E | (id & status & v & Hin & E)].
  - unfold Screen.run in E. rewrite E.
    destruct (step_result s e) as [R | (id & status & v & -> & R)]; [now left|].
    right. exists id, status, v. split; [now left | exact R].
  - right. exists id, status, v. split; [now right | exact E].
Qed.

(** With two calls outstanding, the end of the first one clears the loading
    flag while the second one is still in flight. *)
Lemma first_end_clears_loading (s : state) (d1 d2 : value) (o : outcome) :
  let after :=
    Screen.run schema payload disabled_while_loading API_BASE s
      [Call d1; Call d2; Settle (issued s) o] in
  loading after = false /\
  in_flight after !! S (issued s) = Some (Screen.predict payload API_BASE d2).
Proof.
  cbn zeta. unfold Screen.run. cbn [fold_left].
  change (Screen.step schema payload disabled_while_loading API_BASE
            (Screen.step schema payload disabled_while_loading API_BASE s (Call d1)) (Call d2))
    with (Screen.run schema payload disabled_while_loading API_BASE s [Call d1; Call d2]).
  rewrite two_calls. cbn [Screen.step in_flight].
  rewrite lookup_insert_ne by lia. rewrite lookup_insert_eq.
  destruct o as [err | status [v|]]; cbn; (split; [reflexivity|]);
    rewrite lookup_delete_ne by lia; apply lookup_insert_eq.
Qed.

(** Every request in flight was built by [onSubmit]. *)
Lemma run_in_flight (P : request -> Prop) :
  (forall data, P (Screen.predict payload API_BASE data)) ->
  forall es s,
    map_Forall (fun _ => P) (in_flight s) ->
    map_Forall (fun _ => P)
      (in_flight (Screen.run schema payload disabled_while_loading API_BASE s es)).
Proof.
  intros HP. induction es as [|e es IH]; intros s Hs; [exact Hs|].
  unfold Screen.run. cbn [fold_left]. apply IH.
  destruct e as [data | data | id o]; cbn [Screen.step].
  - destruct (disabled_while_loading && loading s); [exact Hs|].
    unfold exec, Screen.handleSubmit, bind. cbn [setErrors].
    destruct (decide (Hook.errors_of (Hook.yupResolver schema data) = ∅)); [|exact Hs].
    cbn. apply map_Forall_insert_2; auto.
  - cbn. apply map_Forall_insert_2; auto.
  - destruct (in_flight s !! id) eqn:L; [|exact Hs].
    destruct o as [err | status [v|]]; cbn; now apply map_Forall_delete.
Qed.

(** When the button is disabled while loading, pressing it and the end of
    calls keep at most one request in flight, and the loading flag is set
    exactly while there is one. *)
Lemma button_step_single (s : state) (e : event) :
  is_call e = false ->
  (loading s = false /\ in_flight s = ∅) \/
  (loading s = true /\ exists id r, in_flight s = {[id := r]}) ->
  (loading (Screen.step schema payload true API_BASE s e) = false /\
   in_flight (Screen.step schema payload true API_BASE s e) = ∅) \/
  (loading (Screen.step schema payload true API_BASE s e) = true /\
   exists id r, in_flight (Screen.step schema payload true API_BASE s e) = {[id := r]}).
Proof.
  intros He H. destruct e as [data | data | id o]; [| discriminate He |]; cbn [Screen.step andb].
  - destruct H as [[L F] | [L (id & r & F)]]; rewrite L.
    + unfold exec, Screen.handleSubmit, bind. cbn [setErrors].
      destruct (decide (Hook.errors_of (Hook.yupResolver schema data) = ∅)); cbn.
      * right. split; [reflexivity|]. rewrite F, insert_empty. eauto.
      * left. auto.
    + right. eauto.
  - destruct H as [[L F] | [L (id0 & r & F)]].
    + rewrite F, lookup_empty. left. auto.
    + rewrite F. destruct (decide (id = id0)) as [->|N].
      * rewrite lookup_singleton_eq.
        destruct o as [err | status [v|]]; cbn; left; rewrite F, delete_singleton_eq; auto.
      * rewrite lookup_singleton_ne by congruence. right. eauto.
Qed.

Lemma button_run_single (es : list event) : forall s,
  existsb is_call es = false ->
  (loading s = false /\ in_flight s = ∅) \/
  (loading s = true /\ exists id r, in_flight s = {[id := r]}) ->
  (loading (Screen.run schema payload true API_BASE s es) = false /\
   in_flight (Screen.run schema payload true API_BASE s es) = ∅) \/
  (loading (Screen.run schema payload true API_BASE s es) = true /\
   exists id r, in_flight (Screen.run schema payload true API_BASE s es) = {[id := r]}).
Proof.
  induction es as [|e es IH]; intros s He H; [exact H|].
  cbn [existsb] in He. apply orb_false_iff in He as [He Hes].
  unfold Screen.run. cbn [fold_left]. apply IH; [exact Hes|].
  now apply button_step_single.
Qed.

End Controller.

End RunFacts.

(** ** The mounted components *)

Module ViewFacts.
Import JS Form NumberFacts ValidationFacts ScreenFacts Screen FormFacts.

(** [App.tsx]: the model name is always one of the five identifiers, and
    nothing is ever sent. *)
Lemma App_act_invariant (u : view) (a : App.action) :
  (In (model_name (form u)) model_names /\
   in_flight (screen u) = ∅ /\ issued (screen u) = 0%nat /\ loading (screen u) = false /\
   result (screen u) = VNull /\ console (screen u) = []) ->
  In (model_name (form (App.act u a))) model_names /\
  in_flight (screen (App.act u a)) = ∅ /\ issued (screen (App.act u a)) = 0%nat /\
  loading (screen (App.act u a)) = false /\ result (screen (App.act u a)) = VNull /\
  console (screen (App.act u a)) = [].
Proof.
  intros (M & F & I & L & R & C). destruct a as [i text | i | | id o].
  - destruct i as [|[|[|[|[|i]]]]]; cbn; auto 10.
  - destruct i as [|[|[|[|[|i]]]]]; cbn; auto 15.
  - cbn [App.act form screen]. unfold App.step. cbn [Screen.step]. rewrite L. cbn [andb].
    unfold exec. rewrite handleSubmit_rejected by apply App_resolver_rejects.
    cbn [setErrors snd in_flight issued loading result console]. auto 10.
  - cbn [App.act form screen]. unfold App.step. cbn [Screen.step].
    rewrite F, lookup_empty. auto 10.
Qed.

Lemma App_interact_invariant (l : list App.action) : forall u,
  (In (model_name (form u)) model_names /\
   in_flight (screen u) = ∅ /\ issued (screen u) = 0%nat /\ loading (screen u) = false /\
   result (screen u) = VNull /\ console (screen u) = []) ->
  In (model_name (form (App.interact u l))) model_names /\
  in_flight (screen (App.interact u l)) = ∅ /\ issued (screen (App.interact u l)) = 0%nat /\
  loading (screen (App.interact u l)) = false /\ result (screen (App.interact u l)) = VNull /\
  console (screen (App.interact u l)) = [].
Proof.
  induction l as [|a l IH]; intros u H; [exact H|].
  unfold App.interact. cbn [fold_left]. apply IH. now apply App_act_invariant.
Qed.

Lemma App_mounted_invariant :
  In (model_name (form mounted)) model_names /\
  in_flight (screen mounted) = ∅ /\ issued (screen mounted) = 0%nat /\
  loading (screen mounted) = false /\ result (screen mounted) = VNull /\
  console (screen mounted) = [].
Proof. cbn. auto 10. Qed.

(** Every numeric input of [App.tsx] has an error after validation. *)
Lemma App_errors_at_inputs (d : FormData) :
  Forall (fun field =>
            is_Some (Hook.errors_of (Hook.yupResolver App.schema (form_values d))
                       !! ToString (get field "name")))
         App.inputFields.
Proof.
  unfold App.inputFields.
  rewrite !Forall_cons, Forall_nil. repeat split;
    (apply resolver_errors_paths, field_errors_paths; [apply App_schema_distinct|];
     exists App.numeric_text; split; [cbn; auto 10|]; apply numeric_text_rejected).
Qed.

(** The chip that shows the model name is the only one selected. *)
Lemma one_chip_selected (d : FormData) :
  In (model_name d) model_names ->
  List.filter (App.chipSelected d) App.modelOptions
    = [VObj [("value", VStr (model_name d));
             ("label", default VUndefined
                         (assoc (model_name d)
                            [("logreg", VStr "Logistic Regression");
                             ("randforest", VStr "Random Forest");
                             ("gradboost", VStr "Gradient Boosting");
                             ("svm_rbf", VStr "SVM RBF");
                             ("mlp", VStr "Neural Network")]))]].
Proof.
  intros [H | [H | [H | [H | [H | []]]]]]; unfold App.chipSelected; rewrite <- H; reflexivity.
Qed.

(** Removing the white space of a text that has none changes nothing. *)
Lemma remove_spaces_idempotent (t : string) :
  remove_spaces (remove_spaces t) = remove_spaces t.
Proof.
  unfold remove_spaces. induction t as [|c t IH]; [reflexivity|].
  destruct (is_space c) eqn:E; [exact IH|].
  cbn. fold remove_spaces in *. rewrite E. now rewrite IH.
Qed.

(** The earlier version: the six texts typed into the mounted form are the
    form values. *)
Lemma Part000_typed (d : FormData) (u : view) :
  form (Part000.interact u
          [Part000.ChangeText 0 (Bet d); Part000.ChangeText 1 (TotalGames d);
           Part000.ChangeText 2 (TotalProfit d); Part000.ChangeText 3 (TotalLosses d);
           Part000.ChangeText 4 (CashedOut d); Part000.ChangeText 5 (model_name d)]) = d /\
  screen (Part000.interact u
          [Part000.ChangeText 0 (Bet d); Part000.ChangeText 1 (TotalGames d);
           Part000.ChangeText 2 (TotalProfit d); Part000.ChangeText 3 (TotalLosses d);
           Part000.ChangeText 4 (CashedOut d); Part000.ChangeText 5 (model_name d)]) = screen u.
Proof. destruct d. split; reflexivity. Qed.

(** The request of the earlier version for a form that the resolver
    accepts. *)
Lemma Part000_accepted_press (s : state) (d : FormData) :
  Hook.errors_of (Hook.yupResolver Part000.schema (form_values d)) = ∅ ->
  Part000.step s (Press (form_values d)) =
    {| result := result s; loading := true; errors := ∅;
       in_flight :=
         <[issued s :=
             Part000.predict (Hook.values (Hook.yupResolver Part000.schema (form_values d)))]>
           (in_flight s);
       issued := S (issued s); console := console s; published := published s |}.
Proof.
  intros H. unfold Part000.step. cbn [Screen.step andb].
  unfold exec, Screen.handleSubmit, bind. cbn [setErrors]. rewrite H.
  destruct (decide (∅ = ∅)); [reflexivity|contradiction].
Qed.

Lemma Part000_rejected_press (s : state) (d : FormData) :
  Hook.errors_of (Hook.yupResolver Part000.schema (form_values d)) <> ∅ ->
  Part000.step s (Press (form_values d)) =
    {| result := result s; loading := loading s;
       errors := Hook.errors_of (Hook.yupResolver Part000.schema (form_values d));
       in_flight := in_flight s; issued := issued s; console := console s;
       published := published s |}.
Proof.
  intros H. unfold Part000.step. cbn [Screen.step andb].
  unfold exec. now rewrite handleSubmit_rejected.
Qed.

Lemma Part000_request (d : FormData) :
  Hook.errors_of (Hook.yupResolver Part000.schema (form_values d)) = ∅ ->
  Part000.predict (Hook.values (Hook.yupResolver Part000.schema (form_values d))) =
    {| url := "https://YOUR_NGROK_URL.ngrok-free.app/predict";
       method := "POST";
       headers := [("Content-Type", "application/json")];
       body :=
         Some (VObj
           [("model_name", VStr (model_name d));
            ("CashedOut", json_number (parseFloat (number_to_string
                       (StringToNumber (remove_spaces (CashedOut d))))));
            ("TotalLosses", json_number (parseFloat (number_to_string
                       (StringToNumber (remove_spaces (TotalLosses d))))));
            ("TotalProfit", json_number (parseFloat (number_to_string
                       (StringToNumber (remove_spaces (TotalProfit d))))));
            ("TotalGames", json_number (parseInt10 (number_to_string
                       (StringToNumber (remove_spaces (TotalGames d))))));
            ("Bet", json_number (parseFloat (number_to_string
                       (StringToNumber (remove_spaces (Bet d))))))]) |}.
Proof. intros H. rewrite (Part000_cast_values d H). reflexivity. Qed.

(** The resolver sees the form only through the values that yup casts. *)
Lemma resolver_by_cast (fields : Yup.shape) (data data' : value) :
  Yup.cast_object fields data = Yup.cast_object fields data' ->
  Hook.yupResolver fields data = Hook.yupResolver fields data'.
Proof. intros H. unfold Hook.yupResolver, Yup.field_errors. now rewrite H. Qed.

(** What the earlier version casts a form to, accepted or not. *)
Lemma Part000_cast_object (d : FormData) :
  Yup.cast_object Part000.schema (form_values d) =
    VObj (omap (fun kv : string * value =>
                  match snd kv with
                  | VUndefined => None
                  | v => Some (fst kv, v)
                  end)
            [("model_name", VStr (model_name d));
             ("CashedOut", Yup.cast (Yup.required Yup.number) (VStr (remove_spaces (CashedOut d))));
             ("TotalLosses", Yup.cast (Yup.required Yup.number) (VStr (remove_spaces (TotalLosses d))));
             ("TotalProfit", Yup.cast (Yup.required Yup.number) (VStr (remove_spaces (TotalProfit d))));
             ("TotalGames", Yup.cast (Yup.required Yup.number) (VStr (remove_spaces (TotalGames d))));
             ("Bet", Yup.cast (Yup.required Yup.number) (VStr (remove_spaces (Bet d))))]).
Proof.
  unfold Yup.cast_object, Yup.nodes, Part000.schema.
  cbn [rev app omap list_omap fst snd].
  change (get (form_values d) "Bet") with (VStr (Bet d)).
  change (get (form_values d) "TotalGames") with (VStr (TotalGames d)).
  change (get (form_values d) "TotalProfit") with (VStr (TotalProfit d)).
  change (get (form_values d) "TotalLosses") with (VStr (TotalLosses d)).
  change (get (form_values d) "CashedOut") with (VStr (CashedOut d)).
  change (get (form_values d) "model_name") with (VStr (model_name d)).
  rewrite integer_cast, !number_cast, !remove_spaces_idempotent. reflexivity.
Qed.

End ViewFacts.

(** ** Infinite Numbers *)

Module InfinityFacts.
Import JS NumberFacts.

(** A Number that is neither finite nor NaN is one of the two infinities. *)
Lemma infinite_cases (x : float) :
  isFinite x = false -> isNaN x = false ->
  x = PrimFloat.infinity \/ x = PrimFloat.neg_infinity.
Proof.
  unfold isFinite, isNaN, PrimFloat.is_finite. intros F N. rewrite N in F.
  cbn [orb] in F. apply negb_false_iff in F. unfold PrimFloat.is_infinity in F.
  rewrite FloatAxioms.eqb_spec, abs_spec in F.
  change (Prim2SF PrimFloat.infinity) with (S754_infinity false) in F.
  destruct (Prim2SF x) as [s | s | | s m e] eqn:E; try discriminate F.
  destruct s; [right | left]; apply Prim2SF_inj; rewrite E; reflexivity.
Qed.

(** The earlier version re-reads the string of an infinity as that
    infinity, and JSON has no numeral for it. *)
Lemma infinite_reread (x : float) :
  isFinite x = false -> isNaN x = false ->
  json_number (parseFloat (number_to_string x)) = VNull.
Proof.
  intros F N. destruct (infinite_cases x F N) as [-> | ->]; vm_compute; reflexivity.
Qed.

End InfinityFacts.

(** ** The properties *)

Import ObjectFacts FormFacts RunFacts ViewFacts InfinityFacts.

(** *** The form of App.tsx *)

(** Property X1.  In [App.tsx], whatever has been typed and chosen, pressing
    the button marks each of the five numeric inputs as an error: the
    schema turns the text of each into a Number, which its string type
    refuses. *)
Theorem App_press_marks_every_input (l : list App.action) :
  let u := App.act (App.interact mounted l) App.PressButton in
  Forall (fun field => App.inputError (screen u) field = true) App.inputFields /\
  in_flight (screen u) = ∅.
Proof.
  cbn zeta.
  destruct (App_interact_invariant l mounted App_mounted_invariant)
    as (M & F & I & L & R & C).
  cbn [App.act form screen]. unfold App.step. cbn [Screen.step]. rewrite L. cbn [andb].
  unfold exec. rewrite handleSubmit_rejected by apply App_resolver_rejects.
  cbn [setErrors snd errors in_flight]. split; [|exact F].
  eapply Forall_impl; [apply (App_errors_at_inputs (form (App.interact mounted l)))|].
  intros field H. unfold App.inputError. cbn [errors]. now apply bool_decide_eq_true_2.
Qed.

(** Property X2.  No use of the mounted screen of [App.tsx] (typing,
    choosing a model, pressing the button, in any order) sends a request:
    no call is ever in flight, the loading flag stays clear, the result
    stays [null] and the results card is never shown. *)
Theorem App_interaction_sends_nothing (l : list App.action) :
  let s := screen (App.interact mounted l) in
  in_flight s = ∅ /\ issued s = 0%nat /\ loading s = false /\ result s = VNull /\
  console s = [] /\ App.resultCard (result s) = None /\
  App.buttonLabel s = "Analyze Risk" /\ App.loadingIndicator s = false.
Proof.
  cbn zeta.
  destruct (App_interact_invariant l mounted App_mounted_invariant)
    as (M & F & I & L & R & C).
  unfold App.buttonLabel, App.loadingIndicator. rewrite R, L. auto 10.
Qed.

(** Property X3.  In [App.tsx] the model name is only set by the chips, whose
    values are the identifiers that the schema allows: after any use of
    the screen the model name is one of the five and the schema accepts
    it. *)
Theorem App_model_name_stays_valid (l : list App.action) :
  let u := App.interact mounted l in
  In (model_name (form u)) model_names /\
  Hook.valid_at App.schema (form_values (form u)) "model_name".
Proof.
  cbn zeta.
  destruct (App_interact_invariant l mounted App_mounted_invariant)
    as (M & F & I & L & R & C).
  split; [exact M|].
  apply (valid_at_field App.schema (form_values (form (App.interact mounted l))) "model_name"
           (Yup.required (Yup.oneOf (map VStr model_names) Yup.string_))
           App_schema_distinct); [cbn; auto 10|].
  now apply model_name_valid.
Qed.

(** Property X4.  After any use of the screen of [App.tsx] exactly one chip
    is selected, and pressing a chip makes it the selected one, drawn
    flat. *)
Theorem App_one_chip_selected (l : list App.action) (i : nat) :
  let u := App.interact mounted l in
  let pressed := App.act u (App.PressChip i) in
  length (List.filter (App.chipSelected (form u)) App.modelOptions) = 1%nat /\
  match App.modelOptions !! i with
  | Some model =>
      List.filter (App.chipSelected (form pressed)) App.modelOptions = [model] /\
      App.chipMode (form pressed) model = "flat"
  | None => pressed = u
  end.
Proof.
  cbn zeta.
  destruct (App_interact_invariant l mounted App_mounted_invariant) as (M & _).
  split; [now rewrite one_chip_selected|].
  destruct i as [|[|[|[|[|i]]]]]; cbn [lookup list_lookup App.modelOptions];
    [split; reflexivity .. | reflexivity].
Qed.

(** *** The form of the earlier version *)

(** Property X5.  In the earlier version, pressing the button sends a request
    exactly when the four amounts, all white space removed, are not empty
    and convert to a Number that is not NaN, the number of games likewise
    converts to an integer, and the model name is one of the five
    identifiers.  Otherwise nothing is sent and the loading flag is left as
    it was; the result is kept in both cases. *)
Theorem Part000_press_sends_iff_valid (s : state) (d : FormData) :
  let after := Part000.step s (Press (form_values d)) in
  let valid :=
    Forall (fun k => remove_spaces (text_of d k) <> "" /\
                     isNaN (StringToNumber (remove_spaces (text_of d k))) = false)
           amount_fields /\
    (remove_spaces (TotalGames d) <> "" /\
     isInteger (StringToNumber (remove_spaces (TotalGames d))) = true) /\
    In (model_name d) model_names in
  (valid <-> issued after = S (issued s)) /\
  (valid <-> errors after = ∅) /\
  (issued after = S (issued s) ->
   loading after = true /\ is_Some (in_flight after !! issued s)) /\
  (issued after <> S (issued s) ->
   in_flight after = in_flight s /\ issued after = issued s /\ loading after = loading s) /\
  result after = result s.
Proof.
  cbn zeta. rewrite <- Part000_accepts_iff.
  destruct (decide (Hook.errors_of (Hook.yupResolver Part000.schema (form_values d)) = ∅))
    as [H | H].
  - rewrite (Part000_accepted_press s d H). cbn [issued errors loading in_flight result].
    rewrite lookup_insert_eq. repeat split; eauto; intros; congruence.
  - rewrite (Part000_rejected_press s d H). cbn [issued errors loading in_flight result].
    repeat split; auto; try (intros; exfalso; lia); try contradiction.
Qed.

(** Property X6.  In the earlier version, typing six texts that the schema
    accepts and pressing the button sends one POST to [API_BASE/predict]
    whose body holds the six keys, in the order in which yup fills the cast
    object, the model name first: each number is re-read with [parseFloat]
    ([parseInt] for the games) from the string of the Number that yup made
    of the text without its white space, and the model name is the text
    typed. *)
Theorem Part000_typed_form_request (d : FormData) :
  Hook.errors_of (Hook.yupResolver Part000.schema (form_values d)) = ∅ ->
  let u :=
    Part000.interact mounted
      [Part000.ChangeText 0 (Bet d); Part000.ChangeText 1 (TotalGames d);
       Part000.ChangeText 2 (TotalProfit d); Part000.ChangeText 3 (TotalLosses d);
       Part000.ChangeText 4 (CashedOut d); Part000.ChangeText 5 (model_name d);
       Part000.PressButton] in
  form u = d /\ loading (screen u) = true /\
  in_flight (screen u) =
    {[ 0%nat :=
       {| url := "https://YOUR_NGROK_URL.ngrok-free.app/predict";
          method := "POST";
          headers := [("Content-Type", "application/json")];
          body :=
            Some (VObj
              [("model_name", VStr (model_name d));
               ("CashedOut", json_number (parseFloat (number_to_string
                          (StringToNumber (remove_spaces (CashedOut d))))));
               ("TotalLosses", json_number (parseFloat (number_to_string
                          (StringToNumber (remove_spaces (TotalLosses d))))));
               ("TotalProfit", json_number (parseFloat (number_to_string
                          (StringToNumber (remove_spaces (TotalProfit d))))));
               ("TotalGames", json_number (parseInt10 (number_to_string
                          (StringToNumber (remove_spaces (TotalGames d))))));
               ("Bet", json_number (parseFloat (number_to_string
                          (StringToNumber (remove_spaces (Bet d))))))]) |} ]}.
Proof.
  intros H. cbn zeta.
  change (Part000.interact mounted
            [Part000.ChangeText 0 (Bet d); Part000.ChangeText 1 (TotalGames d);
             Part000.ChangeText 2 (TotalProfit d); Part000.ChangeText 3 (TotalLosses d);
             Part000.ChangeText 4 (CashedOut d); Part000.ChangeText 5 (model_name d);
             Part000.PressButton])
    with (Part000.act
            (Part000.interact mounted
               [Part000.ChangeText 0 (Bet d); Part000.ChangeText 1 (TotalGames d);
                Part000.ChangeText 2 (TotalProfit d); Part000.ChangeText 3 (TotalLosses d);
                Part000.ChangeText 4 (CashedOut d); Part000.ChangeText 5 (model_name d)])
            Part000.PressButton).
  destruct (Part000_typed d mounted) as [F S]. cbn [Part000.act form screen].
  rewrite F, S. split; [reflexivity|].
  rewrite (Part000_accepted_press _ d H), (Part000_request d H).
  cbn [loading in_flight]. split; [reflexivity|]. apply insert_empty.
Qed.

(** The form filled with "10", "3", "5", "2", "4" and "logreg" is
    accepted. *)
Lemma filled_form_request :
  Hook.errors_of (Hook.yupResolver Part000.schema (form_values filled)) = ∅ /\
  in_flight
    (screen (Part000.interact mounted
       [Part000.ChangeText 0 "10"; Part000.ChangeText 1 "3"; Part000.ChangeText 2 "5";
        Part000.ChangeText 3 "2"; Part000.ChangeText 4 "4"; Part000.ChangeText 5 "logreg";
        Part000.PressButton])) !! 0%nat ≫= body =
    Some (VObj [("model_name", VStr "logreg"); ("CashedOut", VNum 4%float);
                ("TotalLosses", VNum 2%float); ("TotalProfit", VNum 5%float);
                ("TotalGames", VNum 3%float); ("Bet", VNum 10%float)]).
Proof.
  assert (H : Hook.errors_of (Hook.yupResolver Part000.schema (form_values filled)) = ∅)
    by (vm_compute; reflexivity).
  split; [exact H|].
  destruct (Part000_typed_form_request filled H) as (_ & _ & E).
  cbn zeta in E. change (Bet filled) with "10" in E. change (TotalGames filled) with "3" in E.
  change (TotalProfit filled) with "5" in E. change (TotalLosses filled) with "2" in E.
  change (CashedOut filled) with "4" in E. change (model_name filled) with "logreg" in E.
  rewrite E, lookup_singleton_eq. vm_compute. reflexivity.
Defined.

(** Property X7.  In the earlier version an amount whose text converts to an
    infinity passes validation, and the request carries [null] under its
    key. *)
Theorem infinite_amount_sent_as_null (s : state) (d : FormData) (k : string) :
  In k amount_fields ->
  Hook.errors_of (Hook.yupResolver Part000.schema (form_values d)) = ∅ ->
  isFinite (StringToNumber (remove_spaces (text_of d k))) = false ->
  option_map (fun b => get b k)
    (in_flight (Part000.step s (Press (form_values d))) !! issued s ≫= body) = Some VNull.
Proof.
  intros Hk H F. rewrite (Part000_accepted_press s d H). cbn [in_flight].
  rewrite lookup_insert_eq. cbn [mbind option_bind].
  rewrite Part000_body_at by exact Hk. f_equal.
  rewrite (Part000_cast_values d H).
  apply Part000_accepts_iff in H as (A & _). rewrite Forall_forall in A.
  destruct (A k) as [_ N]; [now apply list_elem_of_In|].
  assert (G : ToString (get (VObj
                [("model_name", VStr (model_name d));
                 ("CashedOut", VNum (StringToNumber (remove_spaces (CashedOut d))));
                 ("TotalLosses", VNum (StringToNumber (remove_spaces (TotalLosses d))));
                 ("TotalProfit", VNum (StringToNumber (remove_spaces (TotalProfit d))));
                 ("TotalGames", VNum (StringToNumber (remove_spaces (TotalGames d))));
                 ("Bet", VNum (StringToNumber (remove_spaces (Bet d))))]) k)
              = number_to_string (StringToNumber (remove_spaces (text_of d k))))
    by (destruct Hk as [<- | [<- | [<- | [<- | []]]]]; reflexivity).
  rewrite G. now apply infinite_reread.
Qed.

(** The bet "Infinity". *)
Lemma infinite_bet_sent_as_null :
  In "Bet" amount_fields /\
  Hook.errors_of (Hook.yupResolver Part000.schema (form_values (with_Bet "Infinity"))) = ∅ /\
  isFinite (StringToNumber (remove_spaces (text_of (with_Bet "Infinity") "Bet"))) = false /\
  option_map (fun b => get b "Bet")
    (in_flight (Part000.step initial (Press (form_values (with_Bet "Infinity"))))
       !! issued initial ≫= body) = Some VNull.
Proof.
  assert (Hk : In "Bet" amount_fields) by (simpl; auto).
  assert (H : Hook.errors_of
                (Hook.yupResolver Part000.schema (form_values (with_Bet "Infinity"))) = ∅)
    by (vm_compute; reflexivity).
  assert (F : isFinite (StringToNumber
                (remove_spaces (text_of (with_Bet "Infinity") "Bet"))) = false)
    by (vm_compute; reflexivity).
  split; [exact Hk|]. split; [exact H|]. split; [exact F|].
  exact (infinite_amount_sent_as_null initial (with_Bet "Infinity") "Bet" Hk H F).
Defined.

(** *** The request *)

(** Property X8.  Called with an object whose five numeric properties coerce,
    [onSubmit] sends a body that is a JSON object and holds each of the
    five numeric keys: in [App.tsx] with the [Number] of the value given,
    in the earlier version with [parseFloat] ([parseInt] for the games) of
    its string.  Such a value is never NaN or an infinity in the body: it
    is [null] instead. *)
Theorem request_body_numbers (props : list (string * value)) :
  let data := VObj props in
  Forall (fun k => coerces (get data k) = true) ("TotalGames" :: amount_fields) ->
  Forall (fun k => option_map (fun b => get b k) (body (App.predict data))
                   = Some (json_number (ToNumber (get data k))))
         ("TotalGames" :: amount_fields) /\
  Forall (fun k => option_map (fun b => get b k) (body (Part000.predict data))
                   = Some (json_number (parseFloat (ToString (get data k)))))
         amount_fields /\
  option_map (fun b => get b "TotalGames") (body (Part000.predict data))
    = Some (json_number (parseInt10 (ToString (get data "TotalGames")))) /\
  (exists sent, body (App.predict data) = Some (VObj sent)) /\
  (exists sent, body (Part000.predict data) = Some (VObj sent)) /\
  (forall x, (isFinite x = false /\ json_number x = VNull) \/
             (isFinite x = true /\ exists y, json_number x = VNum y /\ isFinite y = true)).
Proof.
  cbn zeta. intros _.
  split; [|split; [|split; [|split; [|split]]]].
  - rewrite Forall_forall. intros k Hk. apply list_elem_of_In in Hk.
    apply App_body_at. unfold amount_fields in Hk. cbn in Hk |- *. tauto.
  - rewrite Forall_forall. intros k Hk. apply list_elem_of_In in Hk.
    now apply Part000_body_at.
  - apply Part000_body_at_TotalGames.
  - eexists. reflexivity.
  - eexists. reflexivity.
  - apply json_number_cases.
Qed.

(** The values that yup casts the filled form to. *)
Lemma cast_values_body_numbers :
  Forall (fun k => coerces (get (VObj [("model_name", VStr "logreg");
                                      ("CashedOut", VNum 4%float);
                                      ("TotalLosses", VNum 2%float);
                                      ("TotalProfit", VNum 5%float);
                                      ("TotalGames", VNum 3%float);
                                      ("Bet", VNum 10%float)]) k) = true)
         ("TotalGames" :: amount_fields) /\
  option_map (fun b => get b "Bet")
    (body (Part000.predict (VObj [("model_name", VStr "logreg");
                                  ("CashedOut", VNum 4%float);
                                  ("TotalLosses", VNum 2%float);
                                  ("TotalProfit", VNum 5%float);
                                  ("TotalGames", VNum 3%float);
                                  ("Bet", VNum 10%float)])))
    = Some (VNum 10%float).
Proof.
  assert (H : Forall (fun k => coerces (get (VObj [("model_name", VStr "logreg");
                                                 ("CashedOut", VNum 4%float);
                                                 ("TotalLosses", VNum 2%float);
                                                 ("TotalProfit", VNum 5%float);
                                                 ("TotalGames", VNum 3%float);
                                                 ("Bet", VNum 10%float)]) k) = true)
                     ("TotalGames" :: amount_fields))
    by (repeat constructor).
  split; [exact H|].
  destruct (request_body_numbers _ H) as (_ & B & _).
  unfold amount_fields in B. rewrite Forall_cons in B. destruct B as [B _].
  rewrite B. vm_compute. reflexivity.
Defined.

(** Property X9.  [onSubmit] of [App.tsx] converts with [Number]: called with
    form values, it sends a blank text (empty, or white space only) as 0
    and a text that is not a number as [null]. *)
Theorem blank_text_sent_as_zero (data : value) (k t : string) :
  In k ("TotalGames" :: amount_fields) -> get data k = VStr t ->
  (trim t = "" ->
   option_map (fun b => get b k) (body (App.predict data)) = Some (VNum 0%float)) /\
  (isNaN (StringToNumber t) = true ->
   option_map (fun b => get b k) (body (App.predict data)) = Some VNull).
Proof.
  intros Hk G.
  assert (B : option_map (fun b => get b k) (body (App.predict data))
              = Some (json_number (StringToNumber t))).
  { rewrite App_body_at by (unfold amount_fields in Hk; cbn in Hk |- *; tauto).
    now rewrite G. }
  rewrite B. split.
  - intros E. unfold StringToNumber. rewrite E. reflexivity.
  - intros N. apply isNaN_nan in N. rewrite N. reflexivity.
Qed.

(** A bet of two spaces. *)
Lemma blank_bet_sent_as_zero :
  In "Bet" ("TotalGames" :: amount_fields) /\
  get (form_values (with_Bet "  ")) "Bet" = VStr "  " /\
  trim "  " = "" /\
  option_map (fun b => get b "Bet") (body (App.predict (form_values (with_Bet "  "))))
    = Some (VNum 0%float).
Proof.
  assert (Hk : In "Bet" ("TotalGames" :: amount_fields)) by (simpl; auto).
  assert (G : get (form_values (with_Bet "  ")) "Bet" = VStr "  ") by reflexivity.
  assert (E : trim "  " = "") by reflexivity.
  split; [exact Hk|]. split; [exact G|]. split; [exact E|].
  exact (proj1 (blank_text_sent_as_zero (form_values (with_Bet "  ")) "Bet" "  " Hk G) E).
Defined.

(** Property X13.  Every request that is in flight, after any sequence of
    presses, calls and ends of calls, is a POST to [API_BASE/predict] with
    the JSON content type and a JSON object as its body, in both
    files. *)
Theorem requests_are_predict_posts (es : list event) :
  map_Forall (fun _ r =>
                url r = "https://YOUR_NGROK_URL.ngrok-free.app/predict" /\
                method r = "POST" /\
                headers r = [("Content-Type", "application/json")] /\
                exists props, body r = Some (VObj props))
             (in_flight (App.run initial es)) /\
  map_Forall (fun _ r =>
                url r = "https://YOUR_NGROK_URL.ngrok-free.app/predict" /\
                method r = "POST" /\
                headers r = [("Content-Type", "application/json")] /\
                exists props, body r = Some (VObj props))
             (in_flight (Part000.run initial es)).
Proof.
  split.
  - apply (run_in_flight App.schema App.payload true App.API_BASE).
    + intros data. repeat split. eexists. reflexivity.
    + apply map_Forall_empty.
  - apply (run_in_flight Part000.schema Part000.payload false Part000.API_BASE).
    + intros data. repeat split. eexists. reflexivity.
    + apply map_Forall_empty.
Qed.

(** *** Submissions and the loading flag *)

(** Property X10.  When the button is disabled while the loading flag is set,
    as in [App.tsx], presses of the button and ends of calls never leave
    more than one request in flight, whatever the schema accepts; the
    loading flag is set, and the button reads "Analyzing...", exactly while
    a request is in flight. *)
Theorem disabled_button_single_flight
    (schema : Yup.shape) (payload : value -> value) (base : string) (es : list event) :
  existsb is_call es = false ->
  let s := Screen.run schema payload true base initial es in
  (size (in_flight s) <= 1)%nat /\
  (loading s = true <-> in_flight s <> ∅) /\
  (App.buttonLabel s = "Analyzing..." <-> in_flight s <> ∅).
Proof.
  intros He. cbn zeta.
  destruct (button_run_single schema payload base es initial He) as [[L F] | [L (id & r & F)]].
  - left. split; reflexivity.
  - unfold App.buttonLabel. rewrite L, F, map_size_empty.
    repeat split; try lia; try discriminate; intros H; now destruct H.
  - unfold App.buttonLabel. rewrite L, F, map_size_singleton.
    repeat split; try lia; intros _; apply map_non_empty_singleton.
Qed.

(** The button pressed twice on an accepted form, with the schema of the
    earlier version and the button of [App.tsx]. *)
Lemma second_press_sends_nothing :
  existsb is_call [Press (form_values filled); Press (form_values filled)] = false /\
  (size (in_flight (Screen.run Part000.schema Part000.payload true App.API_BASE initial
                      [Press (form_values filled); Press (form_values filled)])) <= 1)%nat.
Proof.
  assert (H : existsb is_call [Press (form_values filled); Press (form_values filled)] = false)
    by reflexivity.
  split; [exact H|].
  exact (proj1 (disabled_button_single_flight Part000.schema Part000.payload App.API_BASE
                  [Press (form_values filled); Press (form_values filled)] H)).
Defined.

(** Property X11.  With two calls of [onSubmit] outstanding, the end of the
    first one, however it ends, clears the loading flag (and hides the
    loading indicator) while the second request is still in flight, in
    both files. *)
Theorem first_end_hides_loading (s : state) (d1 d2 : value) (o : outcome) :
  let after := App.run s [Call d1; Call d2; Settle (issued s) o] in
  let after' := Part000.run s [Call d1; Call d2; Settle (issued s) o] in
  (loading after = false /\ App.loadingIndicator after = false /\
   in_flight after !! S (issued s) = Some (App.predict d2)) /\
  (loading after' = false /\
   in_flight after' !! S (issued s) = Some (Part000.predict d2)).
Proof.
  cbn zeta. unfold App.loadingIndicator.
  destruct (first_end_clears_loading App.schema App.payload true App.API_BASE s d1 d2 o)
    as [A B].
  destruct (first_end_clears_loading Part000.schema Part000.payload false Part000.API_BASE
              s d1 d2 o) as [A' B'].
  auto.
Qed.

(** Property X12.  The result only changes when a call ends with a JSON body:
    after any sequence of presses, calls and ends of calls it is the result
    the sequence started from or one of the bodies received.  Neither a new
    submission nor a failed call clears it. *)
Theorem result_is_a_received_body (s : state) (es : list event) :
  (result (App.run s es) = result s \/
   exists id status v,
     In (Settle id (Response status (Some v))) es /\ result (App.run s es) = v) /\
  (result (Part000.run s es) = result s \/
   exists id status v,
     In (Settle id (Response status (Some v))) es /\ result (Part000.run s es) = v).
Proof.
  split.
  - apply (run_result App.schema App.payload true App.API_BASE).
  - apply (run_result Part000.schema Part000.payload false Part000.API_BASE).
Qed.

(** *** The results card *)

(** Property X14.  A truthy result whose cluster is no object and whose
    confidence is not numeric (the key is missing, or its value converts to
    NaN) is shown, without an exception, with the confidence text "NaN%"
    and a bar of width "NaN%". *)
Theorem missing_confidence_shows_NaN (r : value) :
  ToBoolean r = true -> is_object (get r "cluster") = false ->
  coerces (get r "confidence") = true ->
  isNaN (ToNumber (get r "confidence")) = true ->
  option_map App.confidenceText (App.resultCard r) = Some "NaN%" /\
  option_map App.barWidth (App.resultCard r) = Some "NaN%" /\
  Part000.confidenceText r = Some "NaN%" /\
  App.cardThrows r = false /\ Part000.cardThrows r = false.
Proof.
  intros T O C N. apply isNaN_nan in N.
  unfold App.resultCard, Part000.confidenceText, App.confidencePercent,
    Part000.confidencePercent, App.getRiskLevel, App.cardThrows, Part000.cardThrows.
  rewrite T, C, N.
  destruct (get r "cluster") as [| | b | x | t | items | props]; try discriminate O;
    repeat split.
Qed.

(** The body [{cluster: 2}]. *)
Lemma cluster_only_shows_NaN :
  ToBoolean cluster_only = true /\
  is_object (get cluster_only "cluster") = false /\
  coerces (get cluster_only "confidence") = true /\
  isNaN (ToNumber (get cluster_only "confidence")) = true /\
  option_map App.confidenceText (App.resultCard cluster_only) = Some "NaN%".
Proof.
  assert (T : ToBoolean cluster_only = true) by reflexivity.
  assert (O : is_object (get cluster_only "cluster") = false) by reflexivity.
  assert (C : coerces (get cluster_only "confidence") = true) by reflexivity.
  assert (N : isNaN (ToNumber (get cluster_only "confidence")) = true) by reflexivity.
  split; [exact T|]. split; [exact O|]. split; [exact C|]. split; [exact N|].
  exact (proj1 (missing_confidence_shows_NaN cluster_only T O C N)).
Defined.

(** Property X15.  [getRiskLevel] reads the cluster as a key.  It throws
    exactly when the cluster does not coerce (an object with an own
    [toString], or an array that holds one), and never returns a falsy
    value.  A cluster that is missing, [null], a boolean or an object
    without an own [toString] gives "Unknown", and a cluster that coerces
    gives what its string gives, so the texts "0", "1" and "2" give the
    three levels.  Unless the string names a property of
    [Object.prototype], the label is one of the four texts. *)
Theorem getRiskLevel_other_clusters (c : value) :
  (App.getRiskLevel c = None <-> coerces c = false) /\
  (forall l, App.getRiskLevel c = Some l -> ToBoolean l = true) /\
  (coerces c = true -> App.getRiskLevel c = App.getRiskLevel (VStr (ToString c))) /\
  match c with
  | VUndefined | VNull | VBool _ =>
      App.getRiskLevel c
        = Some (VObj [("label", VStr "Unknown"); ("color", VStr "#757575");
                      ("bg", VStr "#F5F5F5")])
  | VObj props =>
      App.getRiskLevel c
        = if existsb (fun kv => String.eqb (fst kv) "toString") props then None
          else Some (VObj [("label", VStr "Unknown"); ("color", VStr "#757575");
                           ("bg", VStr "#F5F5F5")])
  | _ => True
  end /\
  (forall l, App.getRiskLevel c = Some l ->
   existsb (String.eqb (ToString c)) App.inherited = false ->
   In (get l "label")
      [VStr "Low Risk"; VStr "Medium Risk"; VStr "High Risk"; VStr "Unknown"]).
Proof.
  split; [|split; [|split; [|split]]].
  - unfold App.getRiskLevel. destruct (coerces c); split; congruence.
  - unfold App.getRiskLevel. intros l. destruct (coerces c); [|discriminate].
    destruct (ToBoolean (App.levels_at (ToString c))) eqn:E; intros [= <-];
      [exact E | reflexivity].
  - intros C. unfold App.getRiskLevel. rewrite C. reflexivity.
  - destruct c as [| | b | x | t | items | props]; try exact I; try reflexivity.
    + destruct b; reflexivity.
    + unfold App.getRiskLevel. cbn [coerces].
      destruct (existsb (fun kv : string * value => String.eqb (fst kv) "toString") props);
        reflexivity.
  - intros l. unfold App.getRiskLevel, App.levels_at, App.levels.
    destruct (coerces c); [|discriminate]. cbn [assoc].
    destruct (String.eqb (ToString c) "0"); [intros [= <-] _; cbn; auto|].
    destruct (String.eqb (ToString c) "1"); [intros [= <-] _; cbn; auto|].
    destruct (String.eqb (ToString c) "2"); [intros [= <-] _; cbn; auto|].
    intros E H. rewrite H in E. injection E as <-. cbn. auto.
Qed.

(** *** More on the form of the earlier version *)

(** Property X16.  The earlier version reads a numeric text without its white
    space, wherever it stands: two forms whose numeric texts differ only in
    white space are validated alike and send the same request. *)
Theorem white_space_in_numbers_ignored (s : state) (d d' : FormData) :
  Forall (fun k => remove_spaces (text_of d k) = remove_spaces (text_of d' k))
         ("TotalGames" :: amount_fields) ->
  model_name d = model_name d' ->
  Part000.step s (Press (form_values d)) = Part000.step s (Press (form_values d')).
Proof.
  intros H M. unfold amount_fields in H. rewrite !Forall_cons in H.
  destruct H as (G & B & P & L & C & _).
  change (text_of d "TotalGames") with (TotalGames d) in G.
  change (text_of d' "TotalGames") with (TotalGames d') in G.
  change (text_of d "Bet") with (Bet d) in B. change (text_of d' "Bet") with (Bet d') in B.
  change (text_of d "TotalProfit") with (TotalProfit d) in P.
  change (text_of d' "TotalProfit") with (TotalProfit d') in P.
  change (text_of d "TotalLosses") with (TotalLosses d) in L.
  change (text_of d' "TotalLosses") with (TotalLosses d') in L.
  change (text_of d "CashedOut") with (CashedOut d) in C.
  change (text_of d' "CashedOut") with (CashedOut d') in C.
  assert (R : Hook.yupResolver Part000.schema (form_values d)
              = Hook.yupResolver Part000.schema (form_values d')).
  { apply resolver_by_cast. rewrite !Part000_cast_object. now rewrite G, B, P, L, C, M. }
  unfold Part000.step. cbn [Screen.step andb]. unfold exec, Screen.handleSubmit.
  now rewrite R.
Qed.

(** A bet typed "1 000" and a bet typed "1000". *)
Lemma spaced_bet_sent_alike :
  Forall (fun k => remove_spaces (text_of (with_Bet "1 000") k)
                   = remove_spaces (text_of (with_Bet "1000") k))
         ("TotalGames" :: amount_fields) /\
  model_name (with_Bet "1 000") = model_name (with_Bet "1000") /\
  Part000.step initial (Press (form_values (with_Bet "1 000")))
    = Part000.step initial (Press (form_values (with_Bet "1000"))).
Proof.
  assert (H : Forall (fun k => remove_spaces (text_of (with_Bet "1 000") k)
                               = remove_spaces (text_of (with_Bet "1000") k))
                     ("TotalGames" :: amount_fields))
    by (repeat constructor).
  assert (M : model_name (with_Bet "1 000") = model_name (with_Bet "1000")) by reflexivity.
  split; [exact H|]. split; [exact M|].
  exact (white_space_in_numbers_ignored initial (with_Bet "1 000") (with_Bet "1000") H M).
Defined.

(** Property X17.  The button of the earlier version stays enabled while
    loading: pressed twice on a form that the schema accepts, it sends the
    same request twice, and both are in flight. *)
Theorem Part000_second_press_sends_again (s : state) (d : FormData) :
  Hook.errors_of (Hook.yupResolver Part000.schema (form_values d)) = ∅ ->
  let after := Part000.run s [Press (form_values d); Press (form_values d)] in
  issued after = S (S (issued s)) /\
  is_Some (in_flight after !! issued s) /\
  in_flight after !! S (issued s) = in_flight after !! issued s.
Proof.
  intros H. cbn zeta. unfold Part000.run, Screen.run. cbn [fold_left].
  change (Screen.step Part000.schema Part000.payload false Part000.API_BASE)
    with Part000.step.
  rewrite !(Part000_accepted_press _ d H). cbn [issued in_flight].
  rewrite lookup_insert_eq, lookup_insert_ne by lia. rewrite lookup_insert_eq.
  split; [reflexivity|]. split; [eauto|reflexivity].
Qed.

(** The filled form, pressed twice from the start. *)
Lemma filled_form_pressed_twice :
  Hook.errors_of (Hook.yupResolver Part000.schema (form_values filled)) = ∅ /\
  issued (Part000.run initial [Press (form_values filled); Press (form_values filled)])
    = 2%nat.
Proof.
  assert (H : Hook.errors_of (Hook.yupResolver Part000.schema (form_values filled)) = ∅)
    by (vm_compute; reflexivity).
  split; [exact H|].
  exact (proj1 (Part000_second_press_sends_again initial filled H)).
Defined.



(** ** Digit strings, printed and re-read *)

Module DigitFacts.
Import JS NumberFacts.

(** Digits and their values. *)
Lemma digit_value_char (d : Z) : digit_value (digit_char d) = d mod 10.
Proof.
  unfold digit_value, digit_char, code.
  assert (H : 0 <= d mod 10 < 10) by (apply Z.mod_pos_bound; lia).
  rewrite N_ascii_embedding by lia. rewrite Z2N.id by lia. lia.
Qed.

Lemma slen_String (c : ascii) (s : string) : slen (String c s) = slen s + 1.
Proof. unfold slen. cbn [String.length]. lia. Qed.

Lemma slen_nonneg (s : string) : 0 <= slen s.
Proof. unfold slen. lia. Qed.

Lemma digits_value_shift (s : string) : forall acc,
  digits_value acc s = acc * 10 ^ slen s + digits_value 0 s.
Proof.
  induction s as [|c s IH]; intros acc; cbn [digits_value].
  - change (slen "") with 0. lia.
  - rewrite IH, (IH (10 * 0 + digit_value c)), slen_String.
    rewrite Z.pow_add_r by (pose proof (slen_nonneg s); lia). lia.
Qed.

Lemma digits_value_app (a b : string) : forall acc,
  digits_value acc (a +:+ b) = digits_value (digits_value acc a) b.
Proof. induction a as [|c a IH]; intros acc; cbn; [reflexivity|]. apply IH. Qed.

Lemma slen_app (a b : string) : slen (a +:+ b) = slen a + slen b.
Proof. unfold slen. rewrite length_append. lia. Qed.

Lemma digit_value_bounds (c : ascii) : is_digit c = true -> 0 <= digit_value c <= 9.
Proof. unfold is_digit, digit_value. intros H. apply andb_true_iff in H as [A B]. lia. Qed.

Lemma digits_value_bounds (s : string) :
  all_digits s = true -> 0 <= digits_value 0 s < 10 ^ slen s.
Proof.
  induction s as [|c s IH]; cbn [all_digits digits_value].
  - intros _. change (slen "") with 0. lia.
  - intros H. apply andb_true_iff in H as [Hc Hs]. specialize (IH Hs).
    apply digit_value_bounds in Hc.
    rewrite digits_value_shift, slen_String.
    rewrite Z.pow_add_r by (pose proof (slen_nonneg s); lia). nia.
Qed.

Lemma digits_value_of (k : nat) : forall s,
  0 <= s -> digits_value 0 (digits_of k s) = s mod 10 ^ Z.of_nat k.
Proof.
  induction k as [|k IH]; intros s Hs.
  - cbn. now rewrite Z.mod_1_r.
  - unfold digits_of. cbn [digits_acc]. rewrite digits_acc_app, digits_value_app.
    rewrite IH by (apply Z.div_pos; lia). cbn [digits_value]. rewrite digit_value_char.
    rewrite Nat2Z.inj_succ, Z.pow_succ_r by lia.
    rewrite (Z.rem_mul_r s 10 (10 ^ Z.of_nat k)) by lia. lia.
Qed.

Lemma all_digits_zeros (k : nat) : all_digits (zeros k) = true.
Proof. induction k as [|k IH]; [reflexivity|]. cbn. exact IH. Qed.

Lemma slen_zeros (k : nat) : slen (zeros k) = Z.of_nat k.
Proof. unfold slen. f_equal. induction k as [|k IH]; cbn; congruence. Qed.

Lemma digits_value_zeros (k : nat) : digits_value 0 (zeros k) = 0.
Proof. induction k as [|k IH]; [reflexivity|]. cbn. exact IH. Qed.

Lemma span_all_digits (s : string) : all_digits s = true -> span_digits s = (s, "").
Proof.
  induction s as [|c s IH]; cbn; [reflexivity|]. intros H.
  apply andb_true_iff in H as [Hc Hs]. now rewrite Hc, IH.
Qed.

(** A digit is no white space, sign or letter. *)
Lemma digit_not_space (c : ascii) : is_digit c = true -> is_space c = false.
Proof.
  unfold is_digit, is_space. intros H. apply andb_true_iff in H as [A B].
  apply Z.leb_le in A, B.
  apply orb_false_iff. split; [apply orb_false_iff; split|].
  - apply andb_false_iff. right. apply Z.leb_gt. lia.
  - apply Z.eqb_neq. lia.
  - apply Z.eqb_neq. lia.
Qed.

Lemma trim_start_digits (c : ascii) (s : string) :
  is_digit c = true -> trim_start (String c s) = String c s.
Proof. intros H. cbn. now rewrite digit_not_space. Qed.

Lemma trim_end_digits (s : string) : all_digits s = true -> trim_end s = s.
Proof.
  induction s as [|c s IH]; [reflexivity|]. cbn. intros H.
  apply andb_true_iff in H as [Hc Hs]. rewrite IH by exact Hs.
  destruct s; [now rewrite digit_not_space | reflexivity].
Qed.

Lemma strip_sign_digits (c : ascii) (s : string) :
  is_digit c = true -> strip_sign (String c s) = (false, String c s).
Proof.
  unfold is_digit, strip_sign. intros H. apply andb_true_iff in H as [A B].
  apply Z.leb_le in A, B.
  destruct (Z.eqb_spec (code c) 45); [lia|]. destruct (Z.eqb_spec (code c) 43); [lia|].
  reflexivity.
Qed.

(** Reading a string of digits, with each of the three readers. *)
Lemma parseInt10_digits (s : string) :
  all_digits s = true -> s <> "" ->
  parseInt10 s = of_decimal false (digits_value 0 s) 0.
Proof.
  intros H Hne. destruct s as [|c s]; [congruence|].
  pose proof H as H'. cbn [all_digits] in H'. apply andb_true_iff in H' as [Hc Hs].
  unfold parseInt10. rewrite trim_start_digits, strip_sign_digits by exact Hc.
  rewrite span_all_digits by exact H. reflexivity.
Qed.

Lemma scan_decimal_digits (s : string) :
  all_digits s = true -> s <> "" -> scan_decimal s = Some (digits_value 0 s, 0, "").
Proof.
  intros H Hne. unfold scan_decimal. rewrite span_all_digits by exact H.
  destruct s as [|c s]; [congruence|]. reflexivity.
Qed.

Lemma parseFloat_digits (s : string) :
  all_digits s = true -> s <> "" ->
  parseFloat s = of_decimal false (digits_value 0 s) 0.
Proof.
  intros H Hne. pose proof (scan_decimal_digits s H Hne) as S.
  destruct s as [|c s]; [congruence|].
  pose proof H as H'. cbn [all_digits] in H'. apply andb_true_iff in H' as [Hc Hs].
  unfold parseFloat. rewrite trim_start_digits, strip_sign_digits by exact Hc.
  rewrite S.
  assert (P : String.prefix "Infinity" (String c s) = false).
  { clear -Hc. destruct c as [[] [] [] [] [] [] [] []]; vm_compute in Hc;
      try discriminate Hc; reflexivity. }
  now rewrite P.
Qed.

Lemma StringToNumber_digits (s : string) :
  all_digits s = true -> s <> "" ->
  StringToNumber s = of_decimal false (digits_value 0 s) 0.
Proof.
  intros H Hne. pose proof (scan_decimal_digits s H Hne) as S.
  destruct s as [|c s]; [congruence|].
  pose proof H as H'. cbn [all_digits] in H'. apply andb_true_iff in H' as [Hc Hs].
  unfold StringToNumber, trim. rewrite trim_start_digits by exact Hc.
  rewrite trim_end_digits by exact H. rewrite strip_sign_digits by exact Hc. rewrite S.
  assert (I : String.eqb (String c s) "Infinity" = false).
  { clear -Hc. destruct c as [[] [] [] [] [] [] [] []]; vm_compute in Hc;
      try discriminate Hc; reflexivity. }
  rewrite I.
  assert (N : non_decimal (String c s) = None).
  { unfold non_decimal. destruct s as [|x [|y r]]; try reflexivity.
    destruct (code c =? 48); [|reflexivity].
    cbn [all_digits] in Hs. apply andb_true_iff in Hs as [Hx _].
    unfold is_digit in Hx. apply andb_true_iff in Hx as [A B]. apply Z.leb_le in A, B.
    destruct (Z.eqb_spec (code x) 120); [lia|]. destruct (Z.eqb_spec (code x) 88); [lia|].
    destruct (Z.eqb_spec (code x) 111); [lia|]. destruct (Z.eqb_spec (code x) 79); [lia|].
    destruct (Z.eqb_spec (code x) 98); [lia|]. destruct (Z.eqb_spec (code x) 66); [lia|].
    reflexivity. }
  now rewrite N.
Qed.

Lemma remove_spaces_digits (s : string) : all_digits s = true -> remove_spaces s = s.
Proof.
  unfold remove_spaces. induction s as [|c s IH]; [reflexivity|]. cbn [all_digits].
  intros H. apply andb_true_iff in H as [Hc Hs]. fold remove_spaces in *.
  rewrite digit_not_space by exact Hc. now rewrite IH.
Qed.

(** A power of ten moves from the mantissa to the exponent. *)
Lemma of_decimal_scale (m j : Z) :
  0 <= m -> 0 <= j <= 400 -> of_decimal false (m * 10 ^ j) 0 = of_decimal false m j.
Proof.
  intros Hm Hj. unfold of_decimal.
  assert (P : 0 < 10 ^ j) by (apply Z.pow_pos_nonneg; lia).
  destruct (Z.eqb_spec m 0) as [->|Hm0]; [reflexivity|].
  destruct (Z.eqb_spec (m * 10 ^ j) 0) as [E|_]; [nia|].
  destruct (Z.ltb_spec 400 0); [lia|]. destruct (Z.ltb_spec 400 j); [lia|].
  destruct (Z.leb_spec 0 0); [|lia]. destruct (Z.leb_spec 0 j); [|lia].
  now rewrite Z.pow_0_r, Z.mul_1_r.
Qed.

End DigitFacts.

(** ** Integers as Numbers *)

Module IntegerFacts.
Import JS NumberFacts DigitFacts.

(** The number of binary digits of a mantissa. *)
Lemma digits2_size (p : positive) : digits2_pos p = Pos.size p.
Proof. induction p as [p IH | p IH |]; cbn; congruence. Qed.

Lemma log2_size (p : positive) : Z.log2 (Z.pos p) = Z.pos (Pos.size p) - 1.
Proof. destruct p as [p | p |]; cbn [Z.log2 Pos.size]; lia. Qed.

(** A mantissa of 53 bits with an exponent in range is a Number. *)
Lemma Prim2SF_ldexp (q e : Z) :
  2 ^ 52 <= q < 2 ^ 53 -> -1074 <= e <= 971 ->
  Prim2SF (Z.ldexp (PrimFloat.of_uint63 (Uint63.of_Z q)) e)
    = S754_finite false (Z.to_pos q) e.
Proof.
  intros Hq He. destruct q as [|p|p]; try lia.
  change (Z.ldexp (PrimFloat.of_uint63 (Uint63.of_Z (Z.pos p))) e)
    with (SF2Prim (S754_finite false p e)).
  rewrite Prim2SF_SF2Prim; [reflexivity|].
  unfold valid_binary, bounded, canonical_mantissa, fexp, FloatOps.emin, SpecFloat.emin.
  rewrite digits2_size.
  assert (L : Z.log2 (Z.pos p) = 52) by (apply Z.log2_unique; lia).
  rewrite log2_size in L.
  apply andb_true_iff. split; [apply Z.eqb_eq | apply Z.leb_le];
    unfold FloatOps.prec, FloatOps.emax; lia.
Qed.

(** The Number of a positive integer below [2 ^ 53] is that integer. *)
Lemma of_decimal_integer (n : Z) :
  0 < n < 2 ^ 53 ->
  Prim2SF (of_decimal false n 0)
    = S754_finite false (Z.to_pos (n * 2 ^ (52 - Z.log2 n))) (Z.log2 n - 52).
Proof.
  intros Hn.
  assert (L : 0 <= Z.log2 n <= 52).
  { split; [apply Z.log2_nonneg|]. apply Z.lt_succ_r. apply Z.log2_lt_pow2; lia. }
  assert (S : 2 ^ Z.log2 n <= n < 2 ^ (Z.log2 n + 1)).
  { pose proof (Z.log2_spec n) as S. unfold Z.succ in S. apply S. lia. }
  assert (Q : 2 ^ 52 <= n * 2 ^ (52 - Z.log2 n) < 2 ^ 53).
  { replace (2 ^ 52) with (2 ^ Z.log2 n * 2 ^ (52 - Z.log2 n))
      by (rewrite <- Z.pow_add_r by lia; f_equal; lia).
    replace (2 ^ 53) with (2 ^ (Z.log2 n + 1) * 2 ^ (52 - Z.log2 n))
      by (rewrite <- Z.pow_add_r by lia; f_equal; lia).
    assert (P : 0 < 2 ^ (52 - Z.log2 n)) by (apply Z.pow_pos_nonneg; lia).
    nia. }
  rewrite <- (Prim2SF_ldexp (n * 2 ^ (52 - Z.log2 n)) (Z.log2 n - 52)) by lia.
  f_equal. unfold of_decimal.
  destruct (Z.eqb_spec n 0); [lia|]. cbn [Z.ltb Z.leb Z.compare signed].
  rewrite Z.pow_0_r, Z.mul_1_r. unfold round_ratio. change (Z.log2 1) with 0.
  cbv zeta.
  replace (Z.log2 n - 0 - 52) with (Z.log2 n - 52) by lia.
  destruct (Z.leb_spec 0 (Z.log2 n - 52)) as [E|E].
  - assert (E52 : Z.log2 n = 52) by lia. rewrite E52 in *.
    change (52 - 52) with 0 in *. rewrite Z.pow_0_r, !Z.mul_1_r in *.
    destruct (Z.leb_spec (2 ^ 52) n); [|lia].
    change (Z.max 0 (-1074)) with 0. cbn [Z.leb Z.compare]. rewrite Z.pow_0_r.
    rewrite Z.div_1_r, Z.mod_1_r. reflexivity.
  - replace (- (Z.log2 n - 52)) with (52 - Z.log2 n) by lia.
    rewrite Z.mul_1_r.
    destruct (Z.leb_spec (2 ^ 52) (n * 2 ^ (52 - Z.log2 n))); [|lia].
    rewrite Z.max_l by lia.
    destruct (Z.leb_spec 0 (Z.log2 n - 52)); [lia|].
    replace (- (Z.log2 n - 52)) with (52 - Z.log2 n) by lia.
    rewrite Z.div_1_r, Z.mod_1_r. reflexivity.
Qed.

End IntegerFacts.

(** ** The string of an integer, re-read *)

Module ReadBackFacts.
Import JS NumberFacts DigitFacts IntegerFacts.

Lemma magnitude_step (fuel : nat) (N D n : Z) :
  magnitude (S fuel) N D n =
    if N <? D then magnitude fuel (10 * N) D (n - 1)
    else if 10 * D <=? N then magnitude fuel N (10 * D) (n + 1)
    else n.
Proof. reflexivity. Qed.

(** The magnitude of a value that is at least 1. *)
Lemma magnitude_up (fuel : nat) : forall N D n0,
  0 < D -> D <= N -> N < D * 10 ^ Z.of_nat fuel ->
  n0 <= magnitude fuel N D n0 /\
  D * 10 ^ (magnitude fuel N D n0 - n0) <= N /\
  N < D * 10 ^ (magnitude fuel N D n0 - n0 + 1).
Proof.
  induction fuel as [|fuel IH]; intros N D n0 HD HN Hf.
  - cbn in Hf. lia.
  - rewrite magnitude_step.
    destruct (Z.ltb_spec N D); [lia|].
    destruct (Z.leb_spec (10 * D) N) as [H10|H10].
    + destruct (IH N (10 * D) (n0 + 1)) as (A & B & C); [lia | lia | |].
      { rewrite Nat2Z.inj_succ, Z.pow_succ_r in Hf by lia. lia. }
      set (r := magnitude fuel N (10 * D) (n0 + 1)) in *.
      split; [lia|].
      replace (r - n0) with (Z.succ (r - (n0 + 1))) by lia.
      replace (Z.succ (r - (n0 + 1)) + 1) with (Z.succ (r - (n0 + 1) + 1)) by lia.
      rewrite !Z.pow_succ_r by lia. lia.
    + replace (n0 - n0) with 0 by lia. rewrite Z.pow_0_r. change (10 ^ (0 + 1)) with 10. lia.
Qed.

Lemma same_value_refl (x : float) : same_value x x = true.
Proof. now apply FloatAxioms.Leibniz.eqb_spec. Qed.

(** The search stops at the first length that has a candidate. *)
Lemma shortest_from_found (x : float) (N D n : Z) : forall more k k0,
  (k <= k0 <= k + more)%nat -> candidates x N D n k0 <> [] ->
  exists ds,
    shortest_from x N D n k more = (ds, n) /\ (k <= String.length ds <= k0)%nat /\
    all_digits ds = true /\
    same_value (of_decimal false (digits_value 0 ds) (n - slen ds)) x = true.
Proof.
  induction more as [|more IH]; intros k k0 Hk Hc; cbn [shortest_from];
    destruct (candidates x N D n k) as [|c cs] eqn:E.
  - assert (k0 = k) by lia. subst k0. congruence.
  - destruct (candidates_valid x N D n k c) as (L & A & V); [rewrite E; now left|].
    exists c. unfold slen. rewrite L. repeat split; auto; lia.
  - assert (k0 <> k) by (intros ->; congruence).
    destruct (IH (S k) k0) as (ds & S & L & A & V); [lia | exact Hc |].
    exists ds. repeat split; auto; lia.
  - destruct (candidates_valid x N D n k c) as (L & A & V); [rewrite E; now left|].
    exists c. unfold slen. rewrite L. repeat split; auto; lia.
Qed.

(** The digits of an integer are a candidate for its Number. *)
Lemma candidates_integer (n D : Z) (k : nat) :
  0 < D -> 10 ^ (Z.of_nat k - 1) <= n < 10 ^ Z.of_nat k ->
  candidates (of_decimal false n 0) (n * D) D (Z.of_nat k) k <> [].
Proof.
  intros HD Hn. unfold candidates. cbv zeta.
  replace (Z.of_nat k - Z.of_nat k) with 0 by lia. cbn [Z.leb Z.compare].
  rewrite Z.pow_0_r, Z.mul_1_r, Z.div_mul, Z.mod_mul by lia.
  destruct (Z.ltb_spec (2 * 0) D); [|lia]. cbn [orb List.filter].
  assert (P : 0 <= n).
  { assert (0 <= 10 ^ (Z.of_nat k - 1)) by (apply Z.pow_nonneg; lia). lia. }
  rewrite digits_value_of, Z.mod_small by lia.
  destruct (Z.leb_spec (10 ^ (Z.of_nat k - 1)) n); [|lia].
  destruct (Z.ltb_spec n (10 ^ Z.of_nat k)); [|lia].
  rewrite same_value_refl. cbn [andb]. destruct (_ && _); discriminate.
Qed.

(** The layout of digits whose magnitude is at most 21 pads them with
    zeros. *)
Lemma layout_integer (ds : string) (n : Z) :
  slen ds <= n <= 21 -> layout ds n = ds +:+ zeros (Z.to_nat (n - slen ds)).
Proof.
  intros H. unfold layout. cbv zeta.
  destruct (Z.leb_spec (slen ds) n); [|lia]. destruct (Z.leb_spec n 21); [|lia].
  reflexivity.
Qed.

(** Digits padded with zeros are read as the digits times a power of
    ten. *)
Lemma padded_value (ds : string) (j : nat) :
  digits_value 0 (ds +:+ zeros j) = digits_value 0 ds * 10 ^ Z.of_nat j.
Proof.
  rewrite digits_value_app, digits_value_shift, slen_zeros, digits_value_zeros. lia.
Qed.

Lemma padded_digits (ds : string) (j : nat) :
  all_digits ds = true -> ds <> "" ->
  all_digits (ds +:+ zeros j) = true /\ ds +:+ zeros j <> "".
Proof.
  intros A Hne. split; [now rewrite all_digits_app, A, all_digits_zeros|].
  destruct ds; [congruence | discriminate].
Qed.

(** The string of the Number of a positive integer below [10 ^ 15] is a
    string of digits that reads as this Number. *)
Lemma integer_string (n : Z) :
  0 < n < 10 ^ 15 ->
  exists s,
    number_to_string (of_decimal false n 0) = s /\ all_digits s = true /\ s <> "" /\
    of_decimal false (digits_value 0 s) 0 = of_decimal false n 0.
Proof.
  intros Hn. assert (H53 : 0 < n < 2 ^ 53) by lia.
  pose proof (of_decimal_integer n H53) as E.
  assert (L : 0 <= Z.log2 n <= 52).
  { split; [apply Z.log2_nonneg|]. apply Z.lt_succ_r. apply Z.log2_lt_pow2; lia. }
  set (D := 2 ^ (52 - Z.log2 n)) in *.
  assert (HD : 0 < D) by (apply Z.pow_pos_nonneg; lia).
  assert (X : exact (Z.to_pos (n * D)) (Z.log2 n - 52) = (n * D, D)).
  { unfold exact. rewrite Z2Pos.id by nia.
    destruct (Z.leb_spec 0 (Z.log2 n - 52)) as [A|A].
    - assert (Z.log2 n = 52) by lia. subst D.
      replace (52 - Z.log2 n) with 0 by lia. replace (Z.log2 n - 52) with 0 by lia.
      now rewrite Z.pow_0_r, !Z.mul_1_r.
    - subst D. f_equal. f_equal. lia. }
  unfold number_to_string. rewrite E, X.
  rewrite (abs_positive _ _ _ E).
  set (x := of_decimal false n 0) in *.
  destruct (magnitude_up 400 (n * D) D 1) as (M1 & M2 & M3); [lia | nia | |].
  { change (Z.of_nat 400) with 400.
    assert (10 ^ 15 < 10 ^ 400) by (apply Z.pow_lt_mono_r; lia). nia. }
  set (r := magnitude 400 (n * D) D 1) in *.
  replace (r - 1 + 1) with r in M3 by lia.
  assert (R1 : 10 ^ (r - 1) <= n) by nia.
  assert (R2 : n < 10 ^ r) by nia.
  assert (R15 : r <= 15).
  { destruct (Z.le_gt_cases r 15) as [|G]; [assumption|].
    assert (10 ^ 15 <= 10 ^ (r - 1)) by (apply Z.pow_le_mono_r; lia). lia. }
  unfold shortest. fold r. cbv zeta.
  destruct (same_value (of_decimal false 1 r) x) eqn:One.
  - (* the power of ten itself *)
    apply same_value_eq in One.
    exists ("1" +:+ zeros (Z.to_nat r)). split.
    { cbn [String.append]. rewrite layout_integer by (change (slen "1") with 1; lia).
      change (slen "1") with 1. do 3 f_equal. lia. }
    destruct (padded_digits "1" (Z.to_nat r)) as [A B]; [reflexivity | discriminate |].
    split; [exact A|]. split; [exact B|].
    rewrite padded_value. change (digits_value 0 "1") with 1.
    rewrite Z2Nat.id by lia. rewrite of_decimal_scale by lia. exact One.
  - destruct (shortest_from_found x (n * D) D r 16 1 (Z.to_nat r)) as (ds & S & Len & A & V).
    { lia. }
    { replace r with (Z.of_nat (Z.to_nat r)) at 1 by lia. subst x.
      apply candidates_integer; [exact HD|]. rewrite Z2Nat.id by lia. lia. }
    rewrite S. cbn [String.append].
    assert (Hne : ds <> "") by (intros ->; cbn in Len; lia).
    assert (Ls : 1 <= slen ds <= r) by (unfold slen; lia).
    rewrite layout_integer by lia.
    exists (ds +:+ zeros (Z.to_nat (r - slen ds))). split; [reflexivity|].
    destruct (padded_digits ds (Z.to_nat (r - slen ds)) A Hne) as [A' B'].
    split; [exact A'|]. split; [exact B'|].
    rewrite padded_value, Z2Nat.id by lia.
    rewrite of_decimal_scale by (pose proof (digits_value_bounds ds A); lia).
    now apply same_value_eq.
Qed.

(** Read back with [parseInt] and with [parseFloat], the string of the
    Number of a text of at most 15 digits is that Number, which is finite
    and an integer. *)
Lemma digits_read_back (t : string) :
  all_digits t = true -> t <> "" -> (String.length t <= 15)%nat ->
  parseInt10 (number_to_string (StringToNumber t)) = StringToNumber t /\
  parseFloat (number_to_string (StringToNumber t)) = StringToNumber t /\
  json_number (StringToNumber t) = VNum (StringToNumber t) /\
  isNaN (StringToNumber t) = false /\ isInteger (StringToNumber t) = true.
Proof.
  intros A Hne Len. rewrite StringToNumber_digits by assumption.
  pose proof (digits_value_bounds t A) as B.
  assert (B15 : digits_value 0 t < 10 ^ 15).
  { assert (10 ^ slen t <= 10 ^ 15) by (apply Z.pow_le_mono_r; unfold slen; lia). lia. }
  destruct (Z.eq_dec (digits_value 0 t) 0) as [Z0 | Z0].
  - rewrite Z0. repeat split; vm_compute; reflexivity.
  - destruct (integer_string (digits_value 0 t)) as (s & S & As & Ns & V); [lia|].
    rewrite S, parseInt10_digits, parseFloat_digits, V by assumption.
    split; [reflexivity|]. split; [reflexivity|].
    pose proof (of_decimal_integer (digits_value 0 t)) as E.
    assert (H53 : 0 < digits_value 0 t < 2 ^ 53) by lia. specialize (E H53).
    assert (L : 0 <= Z.log2 (digits_value 0 t) <= 52).
    { split; [apply Z.log2_nonneg|]. apply Z.lt_succ_r. apply Z.log2_lt_pow2; lia. }
    set (x := of_decimal false (digits_value 0 t) 0) in *.
    assert (N : isNaN x = false).
    { unfold isNaN, PrimFloat.is_nan. rewrite FloatAxioms.eqb_spec, E.
      now rewrite SFeqb_refl_not_nan. }
    assert (I : isInteger x = true).
    { unfold isInteger. rewrite E. apply orb_true_iff. right. apply Z.eqb_eq.
      rewrite Z2Pos.id.
      - replace (- (Z.log2 (digits_value 0 t) - 52)) with (52 - Z.log2 (digits_value 0 t)) by lia.
        apply Z.mod_mul. apply Z.pow_nonzero; lia.
      - assert (0 < 2 ^ (52 - Z.log2 (digits_value 0 t))) by (apply Z.pow_pos_nonneg; lia).
        nia. }
    split; [|split; assumption].
    unfold json_number, PrimFloat.is_finite, PrimFloat.is_infinity, PrimFloat.is_zero.
    unfold isNaN in N. rewrite N. rewrite !FloatAxioms.eqb_spec, abs_spec, E.
    reflexivity.
Qed.

End ReadBackFacts.

(** ** Whole Numbers, printed and re-read *)

Module WholeNumberFacts.
Import JS NumberFacts DigitFacts IntegerFacts ReadBackFacts.

Lemma of_decimal_signed (neg : bool) (m e : Z) :
  of_decimal neg m e = signed neg (of_decimal false m e).
Proof.
  unfold of_decimal. destruct (m =? 0); [reflexivity|]. destruct (400 <? e); [reflexivity|].
  destruct (0 <=? e); [reflexivity|]. destruct (_ <? -1080); reflexivity.
Qed.

(** The string of the opposite of a positive Number. *)
Lemma number_to_string_opp (y : float) (p : positive) (e : Z) :
  Prim2SF y = S754_finite false p e ->
  number_to_string (PrimFloat.opp y) = "-" +:+ number_to_string y.
Proof.
  intros E.
  assert (A : PrimFloat.abs (PrimFloat.opp y) = y).
  { apply Prim2SF_inj. now rewrite abs_spec, FloatAxioms.opp_spec, E. }
  unfold number_to_string. rewrite FloatAxioms.opp_spec, E. cbn [SFopp negb]. rewrite A.
  rewrite (abs_positive y p e E).
  destruct (exact p e) as [N D]. destruct (shortest y N D) as [ds n]. reflexivity.
Qed.

Lemma prefix_Infinity_digits (c : ascii) (s : string) :
  is_digit c = true -> String.prefix "Infinity" (String c s) = false.
Proof.
  intros Hc. destruct c as [[] [] [] [] [] [] [] []]; vm_compute in Hc;
    try discriminate Hc; reflexivity.
Qed.

(** Reading a minus sign before digits. *)
Lemma parseInt10_negative (s : string) :
  all_digits s = true -> s <> "" ->
  parseInt10 ("-" +:+ s) = of_decimal true (digits_value 0 s) 0.
Proof.
  intros H Hne. unfold parseInt10. cbn [String.append].
  change (strip_sign (trim_start (String "-" s))) with (true, s). cbv beta iota.
  rewrite span_all_digits by exact H. destruct s; [congruence | reflexivity].
Qed.

Lemma parseFloat_negative (s : string) :
  all_digits s = true -> s <> "" ->
  parseFloat ("-" +:+ s) = of_decimal true (digits_value 0 s) 0.
Proof.
  intros H Hne. unfold parseFloat. cbn [String.append].
  change (strip_sign (trim_start (String "-" s))) with (true, s). cbv beta iota.
  rewrite scan_decimal_digits by assumption.
  destruct s as [|c s]; [congruence|].
  cbn [all_digits] in H. apply andb_true_iff in H as [Hc _].
  now rewrite prefix_Infinity_digits.
Qed.

(** Read back with [parseInt] and with [parseFloat], the string of the
    Number of a non-zero integer below [10 ^ 15] in magnitude is that
    Number. *)
Lemma integer_read_back (neg : bool) (n : Z) :
  0 < n < 10 ^ 15 ->
  parseInt10 (number_to_string (of_decimal neg n 0)) = of_decimal neg n 0 /\
  parseFloat (number_to_string (of_decimal neg n 0)) = of_decimal neg n 0.
Proof.
  intros Hn. destruct (integer_string n Hn) as (s & S & A & Hne & V).
  destruct neg.
  - rewrite (of_decimal_signed true n 0). cbn [signed].
    assert (H53 : 0 < n < 2 ^ 53) by lia.
    rewrite (number_to_string_opp _ _ _ (of_decimal_integer n H53)), S.
    rewrite parseInt10_negative, parseFloat_negative by assumption.
    rewrite (of_decimal_signed true (digits_value 0 s) 0), V. auto.
  - rewrite S, parseInt10_digits, parseFloat_digits, V by assumption. auto.
Qed.

(** A Number that is an integer and below [1e15] in magnitude is a zero or
    the Number of a non-zero integer below [10 ^ 15]. *)
Lemma whole_number_cases (x : float) :
  isInteger x = true -> PrimFloat.ltb (PrimFloat.abs x) 1e15%float = true ->
  (exists s, Prim2SF x = S754_zero s) \/
  (exists neg n, 0 < n < 10 ^ 15 /\ x = of_decimal neg n 0).
Proof.
  unfold isInteger. intros I B. rewrite FloatAxioms.ltb_spec, FloatAxioms.abs_spec in B.
  pose proof (Prim2SF_valid x) as V.
  destruct (Prim2SF x) as [s | s | | s p e] eqn:E; try discriminate I.
  - left. eauto.
  - right.
    replace (Prim2SF 1e15%float) with (S754_finite false 8000000000000000 (-3)) in B
      by (vm_compute; reflexivity).
    cbn [SFabs] in B. unfold SFltb, SFcompare in B.
    assert (Be : e < -3 \/ (e = -3 /\ Z.pos p < 8000000000000000)).
    { destruct (Z.compare_spec e (-3)); [right | left; assumption | discriminate B].
      split; [assumption|].
      destruct (Pos.compare_cont Eq p 8000000000000000) eqn:C; try discriminate B.
      apply Pos2Z.pos_lt_pos. exact C. }
    clear B.
    destruct (Z.leb_spec 0 e) as [|He]; [lia|]. cbn [orb] in I. apply Z.eqb_eq in I.
    unfold valid_binary, bounded, canonical_mantissa, fexp, SpecFloat.emin in V.
    apply andb_true_iff in V as [C _]. apply Z.eqb_eq in C.
    rewrite digits2_size in C. pose proof (log2_size p) as Lp.
    unfold FloatOps.prec, FloatOps.emax in C.
    assert (P2 : 0 < 2 ^ (- e)) by (apply Z.pow_pos_nonneg; lia).
    apply Z.mod_divide in I; [|lia]. destruct I as [n Hn].
    assert (Hn0 : 0 < n) by nia.
    assert (D53 : Z.log2 (Z.pos p) = 52).
    { destruct (Z.eq_dec e (-1074)) as [->|Ne]; [|lia].
      exfalso.
      assert (Z.pos p < 2 ^ 53).
      { apply Z.log2_lt_pow2; lia. }
      assert (2 ^ 53 < 2 ^ (- -1074)) by (apply Z.pow_lt_mono_r; lia).
      nia. }
    assert (Pb : 2 ^ 52 <= Z.pos p < 2 ^ 53).
    { pose proof (Z.log2_spec (Z.pos p)) as S. rewrite D53 in S. apply S. lia. }
    assert (E52 : -52 <= e).
    { destruct (Z.le_gt_cases (-52) e) as [|G]; [assumption|].
      assert (2 ^ 53 <= 2 ^ (- e)) by (apply Z.pow_le_mono_r; lia). nia. }
    assert (Ln : Z.log2 n = 52 + e).
    { apply Z.log2_unique; [lia|].
      replace (2 ^ 52) with (2 ^ (52 + e) * 2 ^ (- e)) in Pb
        by (rewrite <- Z.pow_add_r by lia; f_equal; lia).
      replace (2 ^ 53) with (2 ^ (52 + e + 1) * 2 ^ (- e)) in Pb
        by (rewrite <- Z.pow_add_r by lia; f_equal; lia).
      unfold Z.succ. nia. }
    assert (N15 : n < 10 ^ 15).
    { destruct Be as [Lt | [-> Lt]].
      - assert (2 ^ 4 <= 2 ^ (- e)) by (apply Z.pow_le_mono_r; lia).
        change (2 ^ 53) with (562949953421312 * 2 ^ 4) in Pb. nia.
      - change (2 ^ (- -3)) with 8 in *. lia. }
    exists s, n. split; [lia|].
    assert (H53 : 0 < n < 2 ^ 53) by lia.
    pose proof (of_decimal_integer n H53) as F. rewrite Ln in F.
    replace (52 - (52 + e)) with (- e) in F by lia.
    replace (52 + e - 52) with e in F by lia.
    rewrite <- Hn, Pos2Z.id in F.
    apply Prim2SF_inj. rewrite E, of_decimal_signed.
    destruct s; cbn [signed]; [rewrite FloatAxioms.opp_spec|]; rewrite F; reflexivity.
Qed.

(** A whole Number below [1e15] in magnitude is written to the JSON
    document as it is after [parseInt] or [parseFloat] has re-read its
    string. *)
Lemma whole_number_read_back (x : float) :
  isInteger x = true -> PrimFloat.ltb (PrimFloat.abs x) 1e15%float = true ->
  json_number (parseInt10 (number_to_string x)) = json_number x /\
  json_number (parseFloat (number_to_string x)) = json_number x.
Proof.
  intros I B. destruct (whole_number_cases x I B) as [[s Z0] | (neg & n & Hn & ->)].
  - assert (S : number_to_string x = "0") by (unfold number_to_string; now rewrite Z0).
    assert (J : json_number x = VNum PrimFloat.zero).
    { unfold json_number, PrimFloat.is_finite, PrimFloat.is_nan, PrimFloat.is_infinity,
        PrimFloat.is_zero.
      rewrite !FloatAxioms.eqb_spec, abs_spec, Z0. destruct s; reflexivity. }
    rewrite S, J. split; vm_compute; reflexivity.
  - destruct (integer_read_back neg n Hn) as [A B']. now rewrite A, B'.
Qed.

End WholeNumberFacts.

Import DigitFacts ReadBackFacts WholeNumberFacts.

(** *** Whole numbers in the request of the earlier version *)

(** Property X19.  In the earlier version, a numeric field of an accepted form
    whose Number is an integer below 1e15 in magnitude, however it was
    typed, is sent as that Number: [parseFloat] and [parseInt] read the
    whole of its string back.  (From 1e21 on [parseInt] stops at the
    exponent.) *)
Theorem Part000_whole_numbers_sent_exactly (s : state) (d : FormData) (k : string) :
  In k ("TotalGames" :: amount_fields) ->
  Hook.errors_of (Hook.yupResolver Part000.schema (form_values d)) = ∅ ->
  isInteger (StringToNumber (remove_spaces (text_of d k))) = true ->
  PrimFloat.ltb (PrimFloat.abs (StringToNumber (remove_spaces (text_of d k)))) 1e15%float
    = true ->
  option_map (fun b => get b k)
    (in_flight (Part000.step s (Press (form_values d))) !! issued s ≫= body)
    = Some (json_number (StringToNumber (remove_spaces (text_of d k)))).
Proof.
  intros Hk H I B. rewrite (Part000_accepted_press s d H). cbn [in_flight].
  rewrite lookup_insert_eq. cbn [mbind option_bind].
  destruct (whole_number_read_back _ I B) as [PI PF].
  rewrite (Part000_cast_values d H).
  destruct Hk as [<- | Hk].
  - rewrite Part000_body_at_TotalGames. f_equal. exact PI.
  - rewrite Part000_body_at by exact Hk. f_equal.
    destruct Hk as [<- | [<- | [<- | [<- | []]]]]; exact PF.
Qed.

(** Three games. *)
Lemma three_games_sent_exactly :
  In "TotalGames" ("TotalGames" :: amount_fields) /\
  Hook.errors_of (Hook.yupResolver Part000.schema (form_values filled)) = ∅ /\
  option_map (fun b => get b "TotalGames")
    (in_flight (Part000.step initial (Press (form_values filled))) !! issued initial ≫= body)
    = Some (VNum 3%float).
Proof.
  assert (Hk : In "TotalGames" ("TotalGames" :: amount_fields)) by (simpl; auto).
  assert (H : Hook.errors_of (Hook.yupResolver Part000.schema (form_values filled)) = ∅)
    by (vm_compute; reflexivity).
  assert (I : isInteger (StringToNumber (remove_spaces (text_of filled "TotalGames"))) = true)
    by (vm_compute; reflexivity).
  assert (B : PrimFloat.ltb (PrimFloat.abs (StringToNumber
                (remove_spaces (text_of filled "TotalGames")))) 1e15%float = true)
    by (vm_compute; reflexivity).
  split; [exact Hk|]. split; [exact H|].
  rewrite (Part000_whole_numbers_sent_exactly initial filled "TotalGames" Hk H I B).
  vm_compute. reflexivity.
Defined.

(** Property X20.  A form whose five numeric texts are made of 1 to 15 digits,
    with one of the five model names, is accepted by the earlier version,
    and the request it sends is the one that [onSubmit] of [App.tsx] builds
    from the same form values, but for the order of the keys: the same URL,
    method and header, and a body with the same six properties, each
    number being the Number of its text, written in the reverse order. *)
Theorem digit_forms_sent_alike (s : state) (d : FormData) :
  Forall (fun k => all_digits (text_of d k) = true /\ text_of d k <> "" /\
                   (String.length (text_of d k) <= 15)%nat)
         ("TotalGames" :: amount_fields) ->
  In (model_name d) model_names ->
  Hook.errors_of (Hook.yupResolver Part000.schema (form_values d)) = ∅ /\
  exists sent,
    body (App.predict (form_values d)) = Some (VObj sent) /\
    in_flight (Part000.step s (Press (form_values d))) !! issued s
      = Some {| url := url (App.predict (form_values d));
                method := method (App.predict (form_values d));
                headers := headers (App.predict (form_values d));
                body := Some (VObj (rev sent)) |}.
Proof.
  intros F M. unfold amount_fields in F. rewrite !Forall_cons in F.
  destruct F as ((AG & NG & LG) & (AB & NB & LB) & (AP & NP & LP) & (AL & NL & LL)
                 & (AC & NC & LC) & _).
  change (text_of d "TotalGames") with (TotalGames d) in *.
  change (text_of d "Bet") with (Bet d) in *.
  change (text_of d "TotalProfit") with (TotalProfit d) in *.
  change (text_of d "TotalLosses") with (TotalLosses d) in *.
  change (text_of d "CashedOut") with (CashedOut d) in *.
  destruct (digits_read_back _ AG NG LG) as (GI & _ & GJ & GN & GZ).
  destruct (digits_read_back _ AB NB LB) as (_ & BF & BJ & BN & _).
  destruct (digits_read_back _ AP NP LP) as (_ & PF & PJ & PN & _).
  destruct (digits_read_back _ AL NL LL) as (_ & LF & LJ & LN & _).
  destruct (digits_read_back _ AC NC LC) as (_ & CF & CJ & CN & _).
  assert (H : Hook.errors_of (Hook.yupResolver Part000.schema (form_values d)) = ∅).
  { apply Part000_accepts_iff. unfold amount_fields. rewrite !Forall_cons, Forall_nil.
    change (text_of d "Bet") with (Bet d).
    change (text_of d "TotalProfit") with (TotalProfit d).
    change (text_of d "TotalLosses") with (TotalLosses d).
    change (text_of d "CashedOut") with (CashedOut d).
    rewrite !remove_spaces_digits by assumption. auto 20. }
  split; [exact H|].
  rewrite (Part000_accepted_press s d H). cbn [in_flight]. rewrite lookup_insert_eq.
  rewrite (Part000_request d H), App_request.
  rewrite !remove_spaces_digits by assumption.
  rewrite GI, BF, PF, LF, CF. eexists. split; reflexivity.
Qed.

(** The filled form. *)
Lemma filled_form_sent_alike :
  Forall (fun k => all_digits (text_of filled k) = true /\ text_of filled k <> "" /\
                   (String.length (text_of filled k) <= 15)%nat)
         ("TotalGames" :: amount_fields) /\
  In (model_name filled) model_names /\
  exists sent,
    body (App.predict (form_values filled)) = Some (VObj sent) /\
    in_flight (Part000.step initial (Press (form_values filled))) !! issued initial
      = Some {| url := url (App.predict (form_values filled));
                method := method (App.predict (form_values filled));
                headers := headers (App.predict (form_values filled));
                body := Some (VObj (rev sent)) |}.
Proof.
  assert (F : Forall (fun k => all_digits (text_of filled k) = true /\ text_of filled k <> "" /\
                               (String.length (text_of filled k) <= 15)%nat)
                     ("TotalGames" :: amount_fields)).
  { repeat constructor; try discriminate; cbn; lia. }
  assert (M : In (model_name filled) model_names) by (simpl; auto).
  split; [exact F|]. split; [exact M|].
  exact (proj2 (digit_forms_sent_alike initial filled F M)).
Defined.

(** ** Rounding a ratio *)

Module RoundingFacts.
Import JS NumberFacts DigitFacts IntegerFacts.

Lemma pow2_pos (k : Z) : 0 <= k -> 0 < 2 ^ k.
Proof. intros. apply Z.pow_pos_nonneg; lia. Qed.

Lemma log2_bounds (n : Z) : 0 < n -> 2 ^ Z.log2 n <= n < 2 ^ (Z.log2 n + 1).
Proof. intros H. pose proof (Z.log2_spec n H) as S. unfold Z.succ in S. exact S. Qed.

(** The exponent [e] for which the quotient has 53 bits is the one that
    [round_ratio] takes. *)
Lemma round_ratio_normal (N D e : Z) :
  0 < N -> 0 < D -> -1074 <= e < 0 ->
  2 ^ 52 * D <= N * 2 ^ (- e) < 2 ^ 53 * D ->
  round_ratio N D =
    Z.ldexp (PrimFloat.of_uint63 (Uint63.of_Z
      (if (D <? 2 * ((N * 2 ^ (- e)) mod D))
          || ((2 * ((N * 2 ^ (- e)) mod D) =? D) && Z.odd ((N * 2 ^ (- e)) / D))
       then (N * 2 ^ (- e)) / D + 1 else (N * 2 ^ (- e)) / D))) e.
Proof.
  intros HN HD He S.
  pose proof (log2_bounds N HN) as BN. pose proof (log2_bounds D HD) as BD.
  pose proof (Z.log2_nonneg N) as LN. pose proof (Z.log2_nonneg D) as LD.
  set (a := Z.log2 N) in *. set (b := Z.log2 D) in *.
  assert (P : 0 < 2 ^ (- e)) by (apply pow2_pos; lia).
  assert (E1 : e <= a - b - 52).
  { destruct (Z.le_gt_cases e (a - b - 52)) as [|G]; [assumption|]. exfalso.
    assert (2 ^ (a + 1) * 2 ^ (- e) <= 2 ^ (52 + b)).
    { rewrite <- Z.pow_add_r by lia. apply Z.pow_le_mono_r; lia. }
    assert (2 ^ (52 + b) = 2 ^ 52 * 2 ^ b) by (apply Z.pow_add_r; lia).
    nia. }
  assert (E2 : a - b - 53 <= e).
  { destruct (Z.le_gt_cases (a - b - 53) e) as [|G]; [assumption|]. exfalso.
    assert (2 ^ (54 + b) <= 2 ^ a * 2 ^ (- e)).
    { rewrite <- Z.pow_add_r by lia. apply Z.pow_le_mono_r; lia. }
    assert (2 ^ (54 + b) = 2 ^ 53 * 2 ^ (b + 1)) by (rewrite <- Z.pow_add_r by lia; f_equal; lia).
    nia. }
  unfold round_ratio. fold a b. cbv zeta.
  assert (X : (if (if 0 <=? a - b - 52
                   then 2 ^ 52 * D * 2 ^ (a - b - 52) <=? N
                   else 2 ^ 52 * D <=? N * 2 ^ (- (a - b - 52)))
               then a - b - 52 else a - b - 52 - 1) = e).
  { destruct (Z.eq_dec e (a - b - 52)) as [Q | Q].
    - rewrite <- Q. destruct (Z.leb_spec 0 e); [lia|].
      destruct (Z.leb_spec (2 ^ 52 * D) (N * 2 ^ (- e))); [reflexivity | lia].
    - assert (Q' : a - b - 52 = e + 1) by lia. rewrite Q'.
      assert (T : 2 ^ (- e) = 2 * 2 ^ (- (e + 1))).
      { rewrite <- Z.pow_succ_r by lia. f_equal. lia. }
      destruct (Z.leb_spec 0 (e + 1)).
      + assert (e = -1) by lia. subst e. change (-1 + 1) with 0.
        rewrite Z.pow_0_r, Z.mul_1_r. change (2 ^ (- -1)) with 2 in S.
        destruct (Z.leb_spec (2 ^ 52 * D) N); lia.
      + destruct (Z.leb_spec (2 ^ 52 * D) (N * 2 ^ (- (e + 1)))); [nia | lia]. }
  rewrite X. rewrite Z.max_l by lia.
  destruct (Z.leb_spec 0 e); [lia|]. reflexivity.
Qed.

(** Such an exponent exists for a ratio between [2 ^ -1000] and
    [2 ^ 51]. *)
Lemma normal_exponent (N D : Z) :
  0 < N -> 0 < D -> N < D * 2 ^ 51 -> D <= N * 2 ^ 1000 ->
  exists e, -1074 <= e < 0 /\ 2 ^ 52 * D <= N * 2 ^ (- e) < 2 ^ 53 * D.
Proof.
  intros HN HD Hhi Hlo.
  pose proof (log2_bounds N HN) as BN. pose proof (log2_bounds D HD) as BD.
  pose proof (Z.log2_nonneg N) as LN. pose proof (Z.log2_nonneg D) as LD.
  set (a := Z.log2 N) in *. set (b := Z.log2 D) in *.
  assert (A1 : a - b - 52 < 0).
  { destruct (Z.lt_ge_cases (a - b - 52) 0) as [|G]; [assumption|]. exfalso.
    assert (2 ^ (b + 1) * 2 ^ 51 <= 2 ^ a).
    { rewrite <- Z.pow_add_r by lia. apply Z.pow_le_mono_r; lia. }
    nia. }
  assert (A2 : -1073 <= a - b - 53).
  { destruct (Z.le_gt_cases (-1073) (a - b - 53)) as [|G]; [assumption|]. exfalso.
    assert (2 ^ (a + 1) * 2 ^ 1000 <= 2 ^ b).
    { rewrite <- Z.pow_add_r by lia. apply Z.pow_le_mono_r; lia. }
    nia. }
  assert (U : 2 ^ (a + 1) * 2 ^ (- (a - b - 52)) = 2 ^ 53 * 2 ^ b).
  { rewrite <- !Z.pow_add_r by lia. f_equal. lia. }
  assert (L : 2 ^ a * 2 ^ (- (a - b - 53)) = 2 ^ 52 * 2 ^ (b + 1)).
  { rewrite <- !Z.pow_add_r by lia. f_equal. lia. }
  assert (T : 2 ^ (- (a - b - 53)) = 2 * 2 ^ (- (a - b - 52))).
  { rewrite <- Z.pow_succ_r by lia. f_equal. lia. }
  assert (P : 0 < 2 ^ (- (a - b - 52))) by (apply pow2_pos; lia).
  destruct (Z.le_gt_cases (2 ^ 52 * D) (N * 2 ^ (- (a - b - 52)))) as [R | R].
  - exists (a - b - 52). split; [lia|]. split; [exact R|]. nia.
  - exists (a - b - 53). split; [lia|]. split; [nia|]. rewrite T. lia.
Qed.

(** The float built from a rounded quotient: its mantissa and exponent,
    and how far its value is from the ratio. *)
Lemma rounded_float (N D e : Z) :
  0 < N -> 0 < D -> -1074 <= e < -1 ->
  2 ^ 52 * D <= N * 2 ^ (- e) < 2 ^ 53 * D ->
  exists p E,
    Prim2SF (round_ratio N D) = S754_finite false p E /\
    e <= E < 0 /\ 2 ^ 52 <= Z.pos p < 2 ^ 53 /\
    2 * Z.abs (Z.pos p * D - N * 2 ^ (- E)) <= D.
Proof.
  intros HN HD He S. rewrite (round_ratio_normal N D e) by (assumption || lia).
  set (num := N * 2 ^ (- e)) in *.
  pose proof (Z.div_mod num D) as DM. pose proof (Z.mod_pos_bound num D HD) as MB.
  set (q := num / D) in *. set (r := num mod D) in *.
  assert (DM' : num = D * q + r) by (apply DM; lia). clear DM.
  assert (Q : 2 ^ 52 <= q < 2 ^ 53) by nia.
  destruct ((D <? 2 * r) || ((2 * r =? D) && Z.odd q)) eqn:Up.
  - assert (R : D <= 2 * r).
    { apply orb_true_iff in Up as [U | U]; [apply Z.ltb_lt in U; lia|].
      apply andb_true_iff in U as [U _]. apply Z.eqb_eq in U. lia. }
    destruct (Z.eq_dec (q + 1) (2 ^ 53)) as [Top | Top].
    + (* the mantissa overflows to the next binade *)
      exists (Z.to_pos (2 ^ 52)), (e + 1).
      assert (T : 2 ^ (- e) = 2 * 2 ^ (- (e + 1))).
      { rewrite <- Z.pow_succ_r by lia. f_equal. lia. }
      split; [|split; [lia|split; [cbn; lia|]]].
      * rewrite Top.
        rewrite <- (Prim2SF_ldexp (2 ^ 52) (e + 1)) by lia.
        rewrite !Z_ldexp_spec.
        replace (Prim2SF (PrimFloat.of_uint63 (Uint63.of_Z (2 ^ 53))))
          with (S754_finite false 4503599627370496 1) by (vm_compute; reflexivity).
        replace (Prim2SF (PrimFloat.of_uint63 (Uint63.of_Z (2 ^ 52))))
          with (S754_finite false 4503599627370496 0) by (vm_compute; reflexivity).
        unfold SFldexp. f_equal. lia.
      * change (Z.pos (Z.to_pos (2 ^ 52))) with (2 ^ 52).
        assert (num = 2 * (N * 2 ^ (- (e + 1)))) by (unfold num; rewrite T; lia).
        apply Z.abs_le. nia.
    + exists (Z.to_pos (q + 1)), e.
      split; [apply Prim2SF_ldexp; lia|]. split; [lia|].
      rewrite Z2Pos.id by lia. split; [lia|]. fold num. apply Z.abs_le. nia.
  - assert (R : 2 * r <= D).
    { apply orb_false_iff in Up as [U _]. apply Z.ltb_ge in U. lia. }
    exists (Z.to_pos q), e.
    split; [apply Prim2SF_ldexp; lia|]. split; [lia|].
    rewrite Z2Pos.id by lia. split; [lia|]. fold num. apply Z.abs_le. nia.
Qed.

(** The rounding depends on the ratio only. *)
Lemma round_ratio_scale (c N D : Z) :
  0 < c -> 0 < N -> 0 < D -> N < D * 2 ^ 51 -> D <= N * 2 ^ 1000 ->
  round_ratio (c * N) (c * D) = round_ratio N D.
Proof.
  intros Hc HN HD Hhi Hlo.
  destruct (normal_exponent N D HN HD Hhi Hlo) as (e & He & S).
  rewrite (round_ratio_normal N D e) by assumption.
  rewrite (round_ratio_normal (c * N) (c * D) e) by (try nia; assumption).
  replace (c * N * 2 ^ (- e)) with (c * (N * 2 ^ (- e))) by lia.
  rewrite Z.mul_mod_distr_l, Z.div_mul_cancel_l by lia.
  do 3 f_equal.
  replace (c * D <? 2 * (c * ((N * 2 ^ (- e)) mod D)))
    with (D <? 2 * ((N * 2 ^ (- e)) mod D)).
  2:{ destruct (Z.ltb_spec D (2 * ((N * 2 ^ (- e)) mod D)));
      destruct (Z.ltb_spec (c * D) (2 * (c * ((N * 2 ^ (- e)) mod D)))); try reflexivity; nia. }
  replace (2 * (c * ((N * 2 ^ (- e)) mod D)) =? c * D)
    with (2 * ((N * 2 ^ (- e)) mod D) =? D).
  2:{ destruct (Z.eqb_spec (2 * ((N * 2 ^ (- e)) mod D)) D);
      destruct (Z.eqb_spec (2 * (c * ((N * 2 ^ (- e)) mod D))) (c * D)); try reflexivity; nia. }
  reflexivity.
Qed.

End RoundingFacts.

(** ** The string of a decimal, re-read *)

Module DecimalFacts.
Import JS NumberFacts DigitFacts IntegerFacts ReadBackFacts RoundingFacts.

Lemma pow10_pos (k : Z) : 0 <= k -> 0 < 10 ^ k.
Proof. intros. apply Z.pow_pos_nonneg; lia. Qed.

(** The magnitude of a value below 1, and of a value between 1 and 10. *)
Lemma magnitude_unit (fuel : nat) (N D n0 : Z) :
  D <= N -> N < 10 * D -> magnitude fuel N D n0 = n0.
Proof.
  intros A B. destruct fuel as [|fuel]; [reflexivity|]. rewrite magnitude_step.
  destruct (Z.ltb_spec N D); [lia|]. destruct (Z.leb_spec (10 * D) N); [lia|]. reflexivity.
Qed.

Lemma magnitude_down (fuel : nat) : forall N D n0,
  0 < N -> N < D -> D <= N * 10 ^ Z.of_nat fuel ->
  magnitude fuel N D n0 < n0 /\
  D <= N * 10 ^ (n0 - magnitude fuel N D n0) /\
  N * 10 ^ (n0 - magnitude fuel N D n0) < 10 * D.
Proof.
  induction fuel as [|fuel IH]; intros N D n0 HN HD Hf.
  - cbn in Hf. lia.
  - rewrite magnitude_step. destruct (Z.ltb_spec N D); [|lia].
    rewrite Nat2Z.inj_succ, Z.pow_succ_r in Hf by lia.
    destruct (Z.lt_ge_cases (10 * N) D) as [L | G].
    + destruct (IH (10 * N) D (n0 - 1)) as (A & B & C); [lia | lia | lia |].
      set (r := magnitude fuel (10 * N) D (n0 - 1)) in *.
      replace (n0 - r) with (Z.succ (n0 - 1 - r)) by lia.
      rewrite Z.pow_succ_r by lia. split; [lia|]. split; lia.
    + rewrite magnitude_unit by lia.
      replace (n0 - (n0 - 1)) with 1 by lia. change (10 ^ 1) with 10. lia.
Qed.

(** The magnitude [r] of [N / D], seen from [F] digits further: with
    [k = r + F], either [k] is at least 1 and [N * 10 ^ F / D] has [k]
    digits before the point, or [k] is at most 0 and [N * 10 ^ F] is below
    [D]. *)
Lemma magnitude_shifted (N D F : Z) :
  0 < N -> 0 < D -> 0 <= F -> N < D * 10 ^ 400 -> D <= N * 10 ^ 400 ->
  (1 <= magnitude 400 N D 1 + F /\
   10 ^ (magnitude 400 N D 1 + F - 1) * D <= N * 10 ^ F /\
   N * 10 ^ F < 10 ^ (magnitude 400 N D 1 + F) * D) \/
  (magnitude 400 N D 1 + F <= 0 /\
   D <= N * 10 ^ F * 10 ^ (1 - (magnitude 400 N D 1 + F)) /\
   N * 10 ^ F * 10 ^ (1 - (magnitude 400 N D 1 + F)) < 10 * D).
Proof.
  intros HN HD HF Hhi Hlo. pose proof (pow10_pos F HF) as PF.
  destruct (Z.lt_ge_cases N D) as [Lt | Ge].
  - destruct (magnitude_down 400 N D 1 HN Lt) as (A & B & C); [exact Hlo|].
    set (r := magnitude 400 N D 1) in *.
    destruct (Z.le_gt_cases 1 (r + F)) as [K | K].
    + left. split; [exact K|].
      assert (S : 10 ^ F = 10 ^ (1 - r) * 10 ^ (r + F - 1))
        by (rewrite <- Z.pow_add_r by lia; f_equal; lia).
      assert (T : 10 ^ (r + F) = 10 * 10 ^ (r + F - 1))
        by (rewrite <- Z.pow_succ_r by lia; f_equal; lia).
      assert (P : 0 < 10 ^ (r + F - 1)) by (apply pow10_pos; lia).
      rewrite S, T. split; nia.
    + right. split; [lia|].
      assert (S : 10 ^ F * 10 ^ (1 - (r + F)) = 10 ^ (1 - r))
        by (rewrite <- Z.pow_add_r by lia; f_equal; lia).
      rewrite <- !Z.mul_assoc, S. lia.
  - destruct (magnitude_up 400 N D 1 HD Ge) as (A & B & C); [exact Hhi|].
    set (r := magnitude 400 N D 1) in *. left. split; [lia|].
    replace (r - 1 + 1) with r in C by lia.
    assert (S : 10 ^ (r + F - 1) = 10 ^ (r - 1) * 10 ^ F)
      by (rewrite <- Z.pow_add_r by lia; f_equal; lia).
    assert (T : 10 ^ (r + F) = 10 ^ r * 10 ^ F)
      by (rewrite <- Z.pow_add_r by lia; f_equal; lia).
    rewrite S, T. split; nia.
Qed.

(** The Number of a decimal with a fraction of [F] digits. *)
Lemma of_decimal_fraction (M F : Z) :
  0 < M -> 1 <= F <= 20 ->
  of_decimal false M (- F) = round_ratio M (10 ^ F).
Proof.
  intros HM HF. unfold of_decimal.
  destruct (Z.eqb_spec M 0); [lia|]. destruct (Z.ltb_spec 400 (- F)); [lia|].
  destruct (Z.leb_spec 0 (- F)); [lia|].
  pose proof (Z.log2_nonneg M).
  destruct (Z.ltb_spec (Z.log2 M + 1 + 3 * - F) (-1080)); [lia|].
  cbn [signed]. now rewrite Z.opp_involutive.
Qed.

(** One and a power of ten with as many decimals denote the same
    Number. *)
Lemma power_of_ten_float (k F : Z) :
  0 <= k <= 15 -> 1 <= F <= 6 ->
  of_decimal false 1 (k - F) = of_decimal false (10 ^ k) (- F).
Proof.
  intros Hk HF. pose proof (pow10_pos k (proj1 Hk)) as Pk.
  assert (B15 : 10 ^ k <= 10 ^ 15) by (apply Z.pow_le_mono_r; lia).
  assert (B6 : 10 ^ F <= 10 ^ 6) by (apply Z.pow_le_mono_r; lia).
  pose proof (pow10_pos F) as PF.
  rewrite (of_decimal_fraction (10 ^ k) F) by lia.
  destruct (Z.le_gt_cases F k) as [Le | Gt].
  - (* an integer power *)
    unfold of_decimal. cbn [Z.eqb]. destruct (Z.ltb_spec 400 (k - F)); [lia|].
    destruct (Z.leb_spec 0 (k - F)); [|lia]. cbn [signed]. rewrite Z.mul_1_l.
    assert (S : 10 ^ k = 10 ^ F * 10 ^ (k - F))
      by (rewrite <- Z.pow_add_r by lia; f_equal; lia).
    assert (Pr : 0 < 10 ^ (k - F)) by (apply pow10_pos; lia).
    assert (10 ^ (k - F) <= 10 ^ 15) by (apply Z.pow_le_mono_r; lia).
    replace (round_ratio (10 ^ k) (10 ^ F))
      with (round_ratio (10 ^ F * 10 ^ (k - F)) (10 ^ F * 1))
      by (rewrite Z.mul_1_r, <- S; reflexivity).
    symmetry. apply round_ratio_scale; lia.
  - replace (k - F) with (- (F - k)) by lia.
    rewrite (of_decimal_fraction 1 (F - k)) by lia.
    assert (S : 10 ^ F = 10 ^ k * 10 ^ (F - k))
      by (rewrite <- Z.pow_add_r by lia; f_equal; lia).
    assert (Pr : 0 < 10 ^ (F - k)) by (apply pow10_pos; lia).
    assert (10 ^ (F - k) <= 10 ^ 6) by (apply Z.pow_le_mono_r; lia).
    replace (round_ratio (10 ^ k) (10 ^ F))
      with (round_ratio (10 ^ k * 1) (10 ^ k * 10 ^ (F - k)))
      by (rewrite Z.mul_1_r, <- S; reflexivity).
    symmetry. apply round_ratio_scale; lia.
Qed.

Lemma filter_nonempty {A} (keep : A -> bool) (l : list A) (a : A) :
  In a l -> keep a = true -> List.filter keep l <> [].
Proof.
  intros Hin Hk E. assert (I : In a (List.filter keep l)) by (apply filter_In; auto).
  rewrite E in I. destruct I.
Qed.

(** How the Number of a decimal of at most 15 digits, at most 6 of them
    after the point, is printed: digits that read back as this Number, with
    a magnitude that needs no exponent. *)
Lemma decimal_digits (M F : Z) :
  0 < M < 10 ^ 15 -> 1 <= F <= 6 ->
  exists ds n,
    number_to_string (of_decimal false M (- F)) = layout ds n /\
    all_digits ds = true /\ ds <> "" /\ -6 < n <= 21 /\
    of_decimal false (digits_value 0 ds) (n - slen ds) = of_decimal false M (- F).
Proof.
  intros HM HF.
  assert (B6 : 10 ^ F <= 10 ^ 6) by (apply Z.pow_le_mono_r; lia).
  assert (B1 : 10 ^ 1 <= 10 ^ F) by (apply Z.pow_le_mono_r; lia).
  change (10 ^ 1) with 10 in B1. change (10 ^ 6) with 1000000 in B6.
  pose proof (of_decimal_fraction M F) as OF.
  set (x := of_decimal false M (- F)) in *.
  set (D := 10 ^ F) in *.
  destruct (normal_exponent M D) as (e & He & S); try lia.
  assert (He1 : e < -1).
  { destruct (Z.lt_ge_cases e (-1)) as [|G]; [assumption|]. exfalso.
    assert (2 ^ (- e) <= 2 ^ 1) by (apply Z.pow_le_mono_r; lia).
    change (2 ^ 1) with 2 in *. nia. }
  destruct (rounded_float M D e) as (p & E & PE & HE & Hp & Bd); try lia.
  rewrite <- OF in PE by lia. clear OF.
  set (Dx := 2 ^ (- E)) in *.
  assert (PDx : 0 < Dx) by (apply pow2_pos; lia).
  assert (LDx : Dx <= 2 ^ (- e)) by (apply Z.pow_le_mono_r; lia).
  assert (Bd' : - D <= 2 * (Z.pos p * D - M * Dx) <= D) by lia. clear Bd.
  assert (G : 4 * D < Dx) by nia.
  assert (X : exact p E = (Z.pos p, Dx)).
  { unfold exact. destruct (Z.leb_spec 0 E); [lia | reflexivity]. }
  unfold number_to_string. rewrite PE, X, (abs_positive x p E PE). cbn [String.append].
  assert (Hhi : Z.pos p < Dx * 10 ^ 400).
  { assert (Big : 10 ^ 16 <= 10 ^ 400) by (apply Z.pow_le_mono_r; lia).
    revert Big. generalize (10 ^ 400). intros big Big.
    change (10 ^ 16) with 10000000000000000 in Big.
    change (2 ^ 53) with 9007199254740992 in Hp. nia. }
  assert (Hlo : Dx <= Z.pos p * 10 ^ 400).
  { assert (Big : 10 ^ 22 <= 10 ^ 400) by (apply Z.pow_le_mono_r; lia).
    revert Big. generalize (10 ^ 400). intros big Big.
    change (10 ^ 22) with 10000000000000000000000 in Big.
    change (2 ^ 53) with 9007199254740992 in S. nia. }
  assert (HF0 : 0 <= F) by lia.
  destruct (magnitude_shifted (Z.pos p) Dx F (Pos2Z.is_pos p) PDx HF0 Hhi Hlo)
    as [(K & L & U) | (K & L & U)]; clear Hhi Hlo.
  - (* the scaled value has [k] digits before the point *)
    set (r := magnitude 400 (Z.pos p) Dx 1) in *.
    set (A := 10 ^ (r + F - 1)) in *.
    assert (PA : 0 < A) by (apply pow10_pos; lia).
    assert (TA : 10 ^ (r + F) = 10 * A)
      by (unfold A; rewrite <- Z.pow_succ_r by lia; f_equal; lia).
    rewrite TA in U.
    assert (MA : A <= M) by nia.
    assert (MB : M <= 10 * A) by nia.
    assert (K15 : r + F <= 15).
    { destruct (Z.le_gt_cases (r + F) 15) as [|Gt]; [assumption|]. exfalso.
      assert (10 ^ 15 <= A) by (apply Z.pow_le_mono_r; lia). lia. }
    unfold shortest. fold r. cbv zeta.
    destruct (same_value (of_decimal false 1 r) x) eqn:One.
    + apply same_value_eq in One. exists "1", (r + 1).
      split; [reflexivity|]. split; [reflexivity|]. split; [discriminate|]. split; [lia|].
      change (digits_value 0 "1") with 1. change (slen "1") with 1.
      replace (r + 1 - 1) with r by lia. exact One.
    + destruct (Z.eq_dec M (10 * A)) as [Top | NTop].
      { (* a power of ten takes the first branch *)
        exfalso. rewrite <- TA in Top.
        pose proof (power_of_ten_float (r + F) F) as PT.
        replace (r + F - F) with r in PT by lia. rewrite <- Top in PT.
        fold x in PT. rewrite PT in One by lia.
        rewrite same_value_refl in One. discriminate One. }
      destruct (shortest_from_found x (Z.pos p) Dx r 16 1 (Z.to_nat (r + F)))
        as (ds & Sf & Len & Ad & V).
      { lia. }
      { unfold candidates. cbv zeta. rewrite Z2Nat.id by lia.
        replace (r - (r + F)) with (- F) by lia.
        destruct (Z.leb_spec 0 (- F)); [lia|]. rewrite Z.opp_involutive. fold D.
        intros Emp. apply map_eq_nil in Emp. revert Emp.
        apply (filter_nonempty _ _ M).
        - assert (C : M = Z.pos p * D / Dx \/ M = Z.pos p * D / Dx + 1).
          { destruct (Z.le_gt_cases (M * Dx) (Z.pos p * D)) as [Lo | Hi].
            - left. apply Z.div_unique with (r := Z.pos p * D - M * Dx); lia.
            - right. assert (Q : Z.pos p * D / Dx = M - 1);
                [|lia]. symmetry.
              apply Z.div_unique with (r := Z.pos p * D - (M - 1) * Dx); lia. }
          destruct C as [C | C]; symmetry in C; destruct (_ || _); cbn [In]; tauto.
        - fold A. rewrite TA.
          destruct (Z.leb_spec A M); [|lia].
          destruct (Z.ltb_spec M (10 * A)); [|exfalso; apply NTop; apply Z.le_antisymm; assumption].
          rewrite digits_value_of by lia. rewrite Z2Nat.id, TA by lia.
          rewrite Z.mod_small by lia.
          fold x. now rewrite same_value_refl. }
      rewrite Sf. exists ds, r.
      assert (Hne : ds <> "") by (intros ->; cbn in Len; lia).
      split; [reflexivity|]. split; [exact Ad|]. split; [exact Hne|]. split; [lia|].
      now apply same_value_eq.
  - (* the value is one unit of the last place *)
    set (r := magnitude 400 (Z.pos p) Dx 1) in *.
    assert (P10 : 10 ^ 1 <= 10 ^ (1 - (r + F))) by (apply Z.pow_le_mono_r; lia).
    change (10 ^ 1) with 10 in P10.
    assert (M1 : M = 1) by nia. subst M.
    assert (K0 : r + F = 0).
    { destruct (Z.eq_dec (r + F) 0) as [|Ne]; [assumption|]. exfalso.
      assert (10 ^ 2 <= 10 ^ (1 - (r + F))) by (apply Z.pow_le_mono_r; lia).
      change (10 ^ 2) with 100 in *. nia. }
    assert (R : r = - F) by lia.
    unfold shortest. fold r. cbv zeta. rewrite R. fold x. rewrite same_value_refl.
    exists "1", (- F + 1).
    split; [reflexivity|]. split; [reflexivity|]. split; [discriminate|]. split; [lia|].
    change (digits_value 0 "1") with 1. change (slen "1") with 1.
    replace (- F + 1 - 1) with (- F) by lia. reflexivity.
Qed.

End DecimalFacts.

(** ** The layouts of Number::toString, read back *)

Module LayoutFacts.
Import JS NumberFacts DigitFacts IntegerFacts ReadBackFacts WholeNumberFacts
  RoundingFacts DecimalFacts.

Lemma span_digits_point (a r : string) :
  all_digits a = true -> span_digits (a +:+ String "." r) = (a, String "." r).
Proof.
  induction a as [|c a IH]; intros H; [reflexivity|].
  cbn [all_digits] in H. apply andb_true_iff in H as [Hc Ha].
  cbn [String.append span_digits]. now rewrite Hc, IH.
Qed.

(** Digits, a point and digits are scanned to the end. *)
Lemma scan_decimal_point (a b : string) :
  all_digits a = true -> all_digits b = true -> a <> "" ->
  scan_decimal (a +:+ String "." b) = Some (digits_value 0 (a +:+ b), - slen b, "").
Proof.
  intros A B Hne. unfold scan_decimal. rewrite span_digits_point by exact A.
  change (code "." =? 46) with true. cbv beta iota. rewrite span_all_digits by exact B.
  destruct a; [congruence|]. cbn [scan_exponent]. now rewrite Z.add_0_r.
Qed.

(** [parseFloat] on a numeral that starts with a digit, after a minus sign
    or not. *)
Lemma parseFloat_numeral (neg : bool) (c : ascii) (u : string) :
  is_digit c = true ->
  parseFloat ((if neg then "-" else "") +:+ String c u) =
    match scan_decimal (String c u) with
    | Some (m, e, _) => of_decimal neg m e
    | None => PrimFloat.nan
    end.
Proof.
  intros Hc. unfold parseFloat. destruct neg; cbn [String.append].
  - change (strip_sign (trim_start (String "-" (String c u)))) with (true, String c u).
    cbv beta iota. now rewrite prefix_Infinity_digits.
  - rewrite trim_start_digits, strip_sign_digits by exact Hc.
    now rewrite prefix_Infinity_digits.
Qed.

(** The first [n] characters of a string, and the others. *)
Lemma substring_all (s : string) : String.substring 0 (String.length s) s = s.
Proof. induction s as [|c s IH]; cbn; congruence. Qed.

Lemma take_drop (s : string) : forall n : nat,
  (n <= String.length s)%nat ->
  String.substring 0 n s +:+ String.substring n (String.length s - n) s = s /\
  String.length (String.substring 0 n s) = n.
Proof.
  induction s as [|c s IH]; intros [|n] H; cbn [String.length] in *.
  - split; reflexivity.
  - lia.
  - split; [|reflexivity]. rewrite Nat.sub_0_r.
    change (String.substring 0 0 (String c s)) with "".
    cbn [String.append]. apply (substring_all (String c s)).
  - destruct (IH n) as [E L]; [lia|]. cbn [String.substring Nat.sub String.append String.length].
    now rewrite E, L.
Qed.

Lemma of_decimal_scaled (neg : bool) (m j : Z) :
  0 <= m -> 0 <= j <= 400 -> of_decimal neg (m * 10 ^ j) 0 = of_decimal neg m j.
Proof.
  intros Hm Hj. rewrite (of_decimal_signed neg (m * 10 ^ j)), (of_decimal_signed neg m).
  now rewrite of_decimal_scale.
Qed.

(** Without an exponent, the layout of digits starts with a digit and is
    scanned to its end, as the digits at their magnitude. *)
Lemma layout_scan (ds : string) (n : Z) :
  all_digits ds = true -> ds <> "" -> -6 < n <= 21 ->
  exists c u m e,
    layout ds n = String c u /\ is_digit c = true /\
    scan_decimal (String c u) = Some (m, e, "") /\
    forall neg, of_decimal neg m e = of_decimal neg (digits_value 0 ds) (n - slen ds).
Proof.
  intros A Hne Hn. unfold layout. cbv zeta.
  pose proof (digits_value_bounds ds A) as Bd.
  destruct (Z.leb_spec (slen ds) n) as [Le | Lt]; cbn [andb].
  - (* digits and zeros *)
    destruct (Z.leb_spec n 21); [|lia].
    destruct (padded_digits ds (Z.to_nat (n - slen ds)) A Hne) as [Ap Np].
    pose proof (scan_decimal_digits _ Ap Np) as S.
    destruct (ds +:+ zeros (Z.to_nat (n - slen ds))) as [|c u] eqn:E; [congruence|].
    exists c, u, (digits_value 0 (String c u)), 0.
    split; [reflexivity|]. cbn [all_digits] in Ap. apply andb_true_iff in Ap as [Hc _].
    split; [exact Hc|]. split; [exact S|]. intros neg.
    rewrite <- E, padded_value, Z2Nat.id by lia.
    pose proof (slen_nonneg ds). apply of_decimal_scaled; lia.
  - destruct (Z.ltb_spec 0 n) as [Pos | NPos]; cbn [andb].
    + (* a point inside the digits *)
      destruct (Z.leb_spec n 21); [|lia].
      unfold take_str, drop_str.
      destruct (take_drop ds (Z.to_nat n)) as [E L]; [unfold slen in Lt; lia|].
      set (a := String.substring 0 (Z.to_nat n) ds) in *.
      set (b := String.substring (Z.to_nat n) (String.length ds - Z.to_nat n) ds) in *.
      assert (Aab : all_digits a = true /\ all_digits b = true).
      { rewrite <- E, all_digits_app in A. now apply andb_true_iff in A. }
      destruct Aab as [Aa Ab].
      assert (Na : a <> "") by (intros Z0; rewrite Z0 in L; cbn in L; lia).
      assert (Sb : slen b = slen ds - n).
      { assert (Sa : slen a = n) by (unfold slen; rewrite L; lia).
        rewrite <- E, slen_app. lia. }
      pose proof (scan_decimal_point a b Aa Ab Na) as S. rewrite E in S.
      change (a +:+ "." +:+ b) with (a +:+ String "." b).
      destruct a as [|c a']; [congruence|].
      exists c, (a' +:+ String "." b), (digits_value 0 ds), (- slen b).
      split; [reflexivity|]. cbn [all_digits] in Aa. apply andb_true_iff in Aa as [Hc _].
      split; [exact Hc|]. split; [exact S|]. intros neg. f_equal. lia.
    + (* zeros after the point *)
      destruct (Z.ltb_spec (-6) n); [|lia]. destruct (Z.leb_spec n 0); [|lia]. cbn [andb].
      set (zs := zeros (Z.to_nat (- n))).
      assert (Az : all_digits (zs +:+ ds) = true)
        by (rewrite all_digits_app; unfold zs; now rewrite all_digits_zeros, A).
      pose proof (scan_decimal_point "0" (zs +:+ ds) eq_refl Az) as S.
      exists "0"%char, (String "." (zs +:+ ds)),
             (digits_value 0 ("0" +:+ (zs +:+ ds))), (- slen (zs +:+ ds)).
      split; [reflexivity|]. split; [reflexivity|].
      split; [apply S; discriminate|]. intros neg.
      change (digits_value 0 ("0" +:+ (zs +:+ ds))) with (digits_value 0 (zs +:+ ds)).
      rewrite digits_value_app. unfold zs at 1. rewrite digits_value_zeros.
      rewrite slen_app. unfold zs. rewrite slen_zeros, Z2Nat.id by lia. f_equal. lia.
Qed.

(** A decimal of at most 15 digits, at most 6 of them after the point,
    rounds to a positive Number. *)
Lemma decimal_finite (M F : Z) :
  0 < M < 10 ^ 15 -> 1 <= F <= 6 ->
  exists p E, Prim2SF (of_decimal false M (- F)) = S754_finite false p E.
Proof.
  intros HM HF.
  assert (B6 : 10 ^ F <= 10 ^ 6) by (apply Z.pow_le_mono_r; lia).
  assert (B1 : 10 ^ 1 <= 10 ^ F) by (apply Z.pow_le_mono_r; lia).
  change (10 ^ 1) with 10 in B1. change (10 ^ 6) with 1000000 in B6.
  pose proof (of_decimal_fraction M F) as OF.
  destruct (normal_exponent M (10 ^ F)) as (e & He & S); try lia.
  assert (He1 : e < -1).
  { destruct (Z.lt_ge_cases e (-1)) as [|G]; [assumption|]. exfalso.
    assert (2 ^ (- e) <= 2 ^ 1) by (apply Z.pow_le_mono_r; lia).
    change (2 ^ 1) with 2 in *. nia. }
  destruct (rounded_float M (10 ^ F) e) as (p & E & PE & _); try lia.
  rewrite <- OF in PE by lia. eauto.
Qed.

(** Read back with [parseFloat], the string of the Number of such a
    decimal is that Number. *)
Lemma decimal_read_back (neg : bool) (M F : Z) :
  0 < M < 10 ^ 15 -> 1 <= F <= 6 ->
  parseFloat (number_to_string (of_decimal neg M (- F))) = of_decimal neg M (- F).
Proof.
  intros HM HF.
  destruct (decimal_digits M F HM HF) as (ds & n & S & A & Hne & Hn & V).
  destruct (decimal_finite M F HM HF) as (p & E & PE).
  destruct (layout_scan ds n A Hne Hn) as (c & u & m & e & L & Hc & Sc & R).
  assert (T : number_to_string (of_decimal neg M (- F))
              = (if neg then "-" else "") +:+ String c u).
  { rewrite (of_decimal_signed neg). destruct neg; cbn [signed].
    - now rewrite (number_to_string_opp _ _ _ PE), S, L.
    - now rewrite S, L. }
  rewrite T, (parseFloat_numeral neg c u Hc), Sc, R.
  rewrite (of_decimal_signed neg (digits_value 0 ds)), V. symmetry. apply of_decimal_signed.
Qed.

(** The Number of a decimal of at most 15 digits, at most 6 of them after
    the point, is written to the JSON document as it is after [parseFloat]
    has re-read its string. *)
Lemma decimal_number_read_back (x : float) (neg : bool) (M F : Z) :
  0 <= M < 10 ^ 15 -> 1 <= F <= 6 -> x = of_decimal neg M (- F) ->
  json_number (parseFloat (number_to_string x)) = json_number x.
Proof.
  intros HM HF ->. destruct (Z.eq_dec M 0) as [-> | Hne].
  - unfold of_decimal. cbn [Z.eqb]. destruct neg; vm_compute; reflexivity.
  - rewrite decimal_read_back by lia. reflexivity.
Qed.

End LayoutFacts.

(** ** Amounts typed with a decimal point *)

Module TypedDecimalFacts.
Import JS NumberFacts DigitFacts IntegerFacts ReadBackFacts WholeNumberFacts
  RoundingFacts DecimalFacts LayoutFacts.

Lemma remove_spaces_point (a b : string) :
  all_digits a = true -> all_digits b = true ->
  remove_spaces (a +:+ String "." b) = a +:+ String "." b.
Proof.
  intros A B. induction a as [|c a IH].
  - cbn [String.append]. unfold remove_spaces. fold remove_spaces.
    change (is_space ".") with false. cbv iota. now rewrite remove_spaces_digits.
  - cbn [all_digits] in A. apply andb_true_iff in A as [Hc Ha].
    cbn [String.append]. unfold remove_spaces. fold remove_spaces.
    rewrite digit_not_space by exact Hc. now rewrite IH by exact Ha.
Qed.

Lemma trim_end_point (a b : string) :
  all_digits a = true -> all_digits b = true ->
  trim_end (a +:+ String "." b) = a +:+ String "." b.
Proof.
  intros A B. induction a as [|c a IH].
  - cbn [String.append trim_end]. rewrite trim_end_digits by exact B.
    destruct b; reflexivity.
  - cbn [all_digits] in A. apply andb_true_iff in A as [Hc Ha].
    cbn [String.append trim_end]. rewrite IH by exact Ha.
    destruct a; reflexivity.
Qed.

Lemma non_decimal_point (c : ascii) (a b : string) :
  all_digits a = true -> non_decimal (String c (a +:+ String "." b)) = None.
Proof.
  intros A. unfold non_decimal. destruct a as [|x a]; cbn [String.append].
  - destruct b; [reflexivity|]. destruct (code c =? 48); reflexivity.
  - destruct (a +:+ String "." b); [reflexivity|].
    destruct (code c =? 48); [|reflexivity].
    cbn [all_digits] in A. apply andb_true_iff in A as [Hx _].
    unfold is_digit in Hx. apply andb_true_iff in Hx as [L U]. apply Z.leb_le in L, U.
    destruct (Z.eqb_spec (code x) 120); [lia|]. destruct (Z.eqb_spec (code x) 88); [lia|].
    destruct (Z.eqb_spec (code x) 111); [lia|]. destruct (Z.eqb_spec (code x) 79); [lia|].
    destruct (Z.eqb_spec (code x) 98); [lia|]. destruct (Z.eqb_spec (code x) 66); [lia|].
    reflexivity.
Qed.

(** [Number] of digits, a point and digits. *)
Lemma StringToNumber_point (a b : string) :
  all_digits a = true -> all_digits b = true -> a <> "" ->
  StringToNumber (a +:+ String "." b) = of_decimal false (digits_value 0 (a +:+ b)) (- slen b).
Proof.
  intros A B Hne. pose proof (scan_decimal_point a b A B Hne) as S.
  pose proof (trim_end_point a b A B) as T.
  destruct a as [|c a]; [congruence|].
  pose proof A as A'. cbn [all_digits] in A'. apply andb_true_iff in A' as [Hc Ha].
  cbn [String.append] in *.
  unfold StringToNumber, trim. rewrite trim_start_digits by exact Hc. rewrite T.
  rewrite non_decimal_point by exact Ha. rewrite strip_sign_digits by exact Hc. rewrite S.
  assert (I : String.eqb (String c (a +:+ String "." b)) "Infinity" = false).
  { clear -Hc. destruct c as [[] [] [] [] [] [] [] []]; vm_compute in Hc;
      try discriminate Hc; reflexivity. }
  now rewrite I.
Qed.

(** The Number of a decimal of at most 15 digits, at most 6 of them after
    the point, is not NaN. *)
Lemma decimal_not_NaN (M F : Z) :
  0 <= M < 10 ^ 15 -> 1 <= F <= 6 -> isNaN (of_decimal false M (- F)) = false.
Proof.
  intros HM HF. destruct (Z.eq_dec M 0) as [-> | Hne]; [reflexivity|].
  destruct (decimal_finite M F) as (p & E & PE); [lia | lia |].
  unfold isNaN, PrimFloat.is_nan. rewrite FloatAxioms.eqb_spec, PE.
  now rewrite SFeqb_refl_not_nan.
Qed.

(** An amount as it is typed on a numeric keyboard: digits, or digits, a
    point and digits. *)
Lemma typed_amount (t : string) :
  (all_digits t = true /\ t <> "" /\ (String.length t <= 15)%nat) \/
  (exists a b, t = a +:+ "." +:+ b /\ all_digits a = true /\ a <> "" /\
               all_digits b = true /\ (1 <= String.length b <= 6)%nat /\
               (String.length a + String.length b <= 15)%nat) ->
  remove_spaces t = t /\ t <> "" /\ isNaN (StringToNumber t) = false /\
  parseFloat (number_to_string (StringToNumber t)) = StringToNumber t.
Proof.
  intros [(A & Hne & Len) | (a & b & -> & A & Hne & B & Lb & Lab)].
  - destruct (digits_read_back t A Hne Len) as (_ & PF & _ & N & _).
    split; [now apply remove_spaces_digits|]. auto.
  - change (a +:+ "." +:+ b) with (a +:+ String "." b).
    split; [now apply remove_spaces_point|].
    split; [destruct a; [congruence | discriminate]|].
    rewrite StringToNumber_point by assumption.
    assert (Aab : all_digits (a +:+ b) = true) by (rewrite all_digits_app; now rewrite A, B).
    pose proof (digits_value_bounds _ Aab) as Bd. rewrite slen_app in Bd.
    assert (B15 : digits_value 0 (a +:+ b) < 10 ^ 15).
    { assert (10 ^ (slen a + slen b) <= 10 ^ 15)
        by (apply Z.pow_le_mono_r; unfold slen; lia). lia. }
    assert (HF : 1 <= slen b <= 6) by (unfold slen; lia).
    split; [apply decimal_not_NaN; lia|].
    destruct (Z.eq_dec (digits_value 0 (a +:+ b)) 0) as [Z0 | NZ].
    + rewrite Z0. reflexivity.
    + apply decimal_read_back; lia.
Qed.

End TypedDecimalFacts.

Import RoundingFacts DecimalFacts LayoutFacts TypedDecimalFacts.

(** *** Decimal amounts in the request of the earlier version *)

(** Property X21.  In the earlier version, an amount of an accepted form whose
    Number is that of a decimal of at most 15 digits, at most 6 of them
    after the point, however it was typed, is sent as that Number:
    [parseFloat] reads the whole of its string back. *)
Theorem Part000_decimals_sent_exactly (s : state) (d : FormData) (k : string)
    (neg : bool) (M F : Z) :
  In k amount_fields ->
  Hook.errors_of (Hook.yupResolver Part000.schema (form_values d)) = ∅ ->
  0 <= M < 10 ^ 15 -> 1 <= F <= 6 ->
  StringToNumber (remove_spaces (text_of d k)) = of_decimal neg M (- F) ->
  option_map (fun b => get b k)
    (in_flight (Part000.step s (Press (form_values d))) !! issued s ≫= body)
    = Some (json_number (StringToNumber (remove_spaces (text_of d k)))).
Proof.
  intros Hk H HM HF E. rewrite (Part000_accepted_press s d H). cbn [in_flight].
  rewrite lookup_insert_eq. cbn [mbind option_bind].
  pose proof (decimal_number_read_back _ neg M F HM HF E) as R.
  rewrite (Part000_cast_values d H).
  rewrite Part000_body_at by exact Hk. f_equal.
  destruct Hk as [<- | [<- | [<- | [<- | []]]]]; exact R.
Qed.

(** A bet of twelve and a half, typed with a sign and a needless zero. *)
Lemma signed_bet_sent_exactly :
  In "Bet" amount_fields /\
  Hook.errors_of (Hook.yupResolver Part000.schema (form_values (with_Bet "+12.50"))) = ∅ /\
  StringToNumber (remove_spaces (text_of (with_Bet "+12.50") "Bet"))
    = of_decimal false 1250 (- 2) /\
  option_map (fun b => get b "Bet")
    (in_flight (Part000.step initial (Press (form_values (with_Bet "+12.50"))))
       !! issued initial ≫= body)
    = Some (VNum 12.5%float).
Proof.
  assert (Hk : In "Bet" amount_fields) by (simpl; auto).
  assert (H : Hook.errors_of
                (Hook.yupResolver Part000.schema (form_values (with_Bet "+12.50"))) = ∅)
    by (vm_compute; reflexivity).
  assert (HM : 0 <= 1250 < 10 ^ 15) by (split; [lia | reflexivity]).
  assert (HF : 1 <= 2 <= 6) by lia.
  assert (E : StringToNumber (remove_spaces (text_of (with_Bet "+12.50") "Bet"))
              = of_decimal false 1250 (- 2)) by (vm_compute; reflexivity).
  split; [exact Hk|]. split; [exact H|]. split; [exact E|].
  rewrite (Part000_decimals_sent_exactly initial (with_Bet "+12.50") "Bet" false 1250 2
             Hk H HM HF E).
  vm_compute. reflexivity.
Defined.

(** Property X22.  A form whose four amounts are typed as 1 to 15 digits, or
    as digits, a point and 1 to 6 digits with at most 15 digits in all,
    whose number of games is typed as 1 to 15 digits and whose model name
    is one of the five, is accepted by the earlier version, and the request
    it sends is the one that [onSubmit] of [App.tsx] builds from the same
    form values, but for the order of the keys: the same URL, method and
    header, and a body with the same six properties, each number being the
    Number of its text, written in the reverse order. *)
Theorem decimal_forms_sent_alike (s : state) (d : FormData) :
  Forall (fun k =>
            (all_digits (text_of d k) = true /\ text_of d k <> "" /\
             (String.length (text_of d k) <= 15)%nat) \/
            (exists a b, text_of d k = a +:+ "." +:+ b /\
               all_digits a = true /\ a <> "" /\ all_digits b = true /\
               (1 <= String.length b <= 6)%nat /\
               (String.length a + String.length b <= 15)%nat))
         amount_fields ->
  all_digits (TotalGames d) = true /\ TotalGames d <> "" /\
    (String.length (TotalGames d) <= 15)%nat ->
  In (model_name d) model_names ->
  Hook.errors_of (Hook.yupResolver Part000.schema (form_values d)) = ∅ /\
  exists sent,
    body (App.predict (form_values d)) = Some (VObj sent) /\
    in_flight (Part000.step s (Press (form_values d))) !! issued s
      = Some {| url := url (App.predict (form_values d));
                method := method (App.predict (form_values d));
                headers := headers (App.predict (form_values d));
                body := Some (VObj (rev sent)) |}.
Proof.
  intros F (AG & NG & LG) M. unfold amount_fields in F. rewrite !Forall_cons in F.
  destruct F as (TB & TP & TL & TC & _).
  change (text_of d "Bet") with (Bet d) in *.
  change (text_of d "TotalProfit") with (TotalProfit d) in *.
  change (text_of d "TotalLosses") with (TotalLosses d) in *.
  change (text_of d "CashedOut") with (CashedOut d) in *.
  destruct (digits_read_back _ AG NG LG) as (GI & _ & _ & _ & GZ).
  destruct (typed_amount _ TB) as (BR & BE & BN & BF).
  destruct (typed_amount _ TP) as (PR & PE & PN & PF).
  destruct (typed_amount _ TL) as (LR & LE & LN & LF).
  destruct (typed_amount _ TC) as (CR & CE & CN & CF).
  assert (H : Hook.errors_of (Hook.yupResolver Part000.schema (form_values d)) = ∅).
  { apply Part000_accepts_iff. unfold amount_fields. rewrite !Forall_cons, Forall_nil.
    change (text_of d "Bet") with (Bet d).
    change (text_of d "TotalProfit") with (TotalProfit d).
    change (text_of d "TotalLosses") with (TotalLosses d).
    change (text_of d "CashedOut") with (CashedOut d).
    rewrite BR, PR, LR, CR, (remove_spaces_digits _ AG). auto 20. }
  split; [exact H|].
  rewrite (Part000_accepted_press s d H). cbn [in_flight]. rewrite lookup_insert_eq.
  rewrite (Part000_request d H), App_request.
  rewrite BR, PR, LR, CR, (remove_spaces_digits _ AG).
  rewrite GI, BF, PF, LF, CF. eexists. split; reflexivity.
Qed.

(** A bet of twelve and a half. *)
Lemma decimal_bet_sent_alike :
  Hook.errors_of (Hook.yupResolver Part000.schema (form_values (with_Bet "12.5"))) = ∅ /\
  (exists sent,
     body (App.predict (form_values (with_Bet "12.5"))) = Some (VObj sent) /\
     in_flight (Part000.step initial (Press (form_values (with_Bet "12.5"))))
       !! issued initial
       = Some {| url := url (App.predict (form_values (with_Bet "12.5")));
                 method := method (App.predict (form_values (with_Bet "12.5")));
                 headers := headers (App.predict (form_values (with_Bet "12.5")));
                 body := Some (VObj (rev sent)) |}) /\
  option_map (fun b => get b "Bet") (body (App.predict (form_values (with_Bet "12.5"))))
    = Some (VNum 12.5%float).
Proof.
  assert (D : forall t : string,
            all_digits t = true /\ t <> "" /\ (String.length t <= 15)%nat ->
            (all_digits t = true /\ t <> "" /\ (String.length t <= 15)%nat) \/
            (exists a b, t = a +:+ "." +:+ b /\
               all_digits a = true /\ a <> "" /\ all_digits b = true /\
               (1 <= String.length b <= 6)%nat /\
               (String.length a + String.length b <= 15)%nat)) by (intros; now left).
  assert (F : Forall (fun k =>
            (all_digits (text_of (with_Bet "12.5") k) = true /\
             text_of (with_Bet "12.5") k <> "" /\
             (String.length (text_of (with_Bet "12.5") k) <= 15)%nat) \/
            (exists a b, text_of (with_Bet "12.5") k = a +:+ "." +:+ b /\
               all_digits a = true /\ a <> "" /\ all_digits b = true /\
               (1 <= String.length b <= 6)%nat /\
               (String.length a + String.length b <= 15)%nat))
         amount_fields).
  { unfold amount_fields. rewrite !Forall_cons, Forall_nil.
    split; [right; exists "12", "5"; repeat split; try discriminate; cbn; lia|].
    repeat split; try (apply D; repeat split; try discriminate; cbn; lia). }
  assert (G : all_digits (TotalGames (with_Bet "12.5")) = true /\
              TotalGames (with_Bet "12.5") <> "" /\
              (String.length (TotalGames (with_Bet "12.5")) <= 15)%nat)
    by (repeat split; try discriminate; cbn; lia).
  assert (M : In (model_name (with_Bet "12.5")) model_names) by (simpl; auto).
  destruct (decimal_forms_sent_alike initial (with_Bet "12.5") F G M) as [H R].
  split; [exact H|]. split; [exact R|]. vm_compute. reflexivity.
Defined.
